(** * petool backend: token metering proxy and payment settlement

    A shallow embedding of [backend/routers/proxy.py],
    [backend/routers/payment.py] and the registration handler of
    [backend/routers/auth.py].

    Conventions of the embedding.
    - Python [int] is [Z]; Python [str] is [string], read as a sequence of
      ASCII characters ([len] is the number of characters, [lower] and
      [strip] act on the ASCII range).
    - Python [float] is IEEE-754 binary64, given by the Standard Library's
      [spec_float] with precision 53 and maximal exponent 1024.
    - [datetime] is an integer number of microseconds, [timedelta(days=d)]
      is [d * 86400000000].
    - The MongoDB collections are a record [db]: users are keyed by the
      hexadecimal form of their [_id], orders and usage records are lists
      in insertion order ([find_one] and [update_one] act on the first
      match).
    - Library code that is not part of the repository is a section
      variable: the tiktoken encoder and [json.loads]. *)

From Stdlib Require Import ZArith String Ascii List Lia Bool.
From Stdlib Require Import Floats.SpecFloat.
From stdpp Require Import base option gmap strings list.

Local Open Scope string_scope.
Local Open Scope list_scope.
Local Open Scope Z_scope.

(** ** Python strings *)

Module PyStr.

(** The double quote, which a string literal cannot hold. *)
Definition dq : string := String (ascii_of_nat 34) EmptyString.
Definition nl : string := String (ascii_of_nat 10) EmptyString.

(** [str.isspace] on the ASCII range: TAB, LF, VT, FF, CR, FS, GS, RS, US
    and the space. *)
Definition isspace (c : ascii) : bool :=
  let n := nat_of_ascii c in
  ((9 <=? n)%nat && (n <=? 13)%nat) || ((28 <=? n)%nat && (n <=? 32)%nat).

Fixpoint lstrip (s : string) : string :=
  match s with
  | String c r => if isspace c then lstrip r else s
  | EmptyString => EmptyString
  end.

(** [rstrip] keeps a character when it is not a space or when something
    is left after it. *)
Fixpoint rstrip (s : string) : string :=
  match s with
  | String c r =>
      match rstrip r with
      | EmptyString => if isspace c then EmptyString else String c EmptyString
      | r' => String c r'
      end
  | EmptyString => EmptyString
  end.

Definition strip (s : string) : string := rstrip (lstrip s).

Definition lower_char (c : ascii) : ascii :=
  let n := nat_of_ascii c in
  if ((65 <=? n)%nat && (n <=? 90)%nat) then ascii_of_nat (n + 32) else c.

Definition upper_char (c : ascii) : ascii :=
  let n := nat_of_ascii c in
  if ((97 <=? n)%nat && (n <=? 122)%nat) then ascii_of_nat (n - 32) else c.

Fixpoint map_chars (f : ascii -> ascii) (s : string) : string :=
  match s with
  | String c r => String (f c) (map_chars f r)
  | EmptyString => EmptyString
  end.

Definition lower : string -> string := map_chars lower_char.
Definition upper : string -> string := map_chars upper_char.

(** [s.startswith(p)] *)
Definition startswith (p s : string) : bool := String.prefix p s.

(** [s[n:]] *)
Fixpoint drop (n : nat) (s : string) : string :=
  match n, s with
  | O, _ => s
  | S n', String _ r => drop n' r
  | S _, EmptyString => EmptyString
  end.

(** [len(s)] *)
Definition len (s : string) : Z := Z.of_nat (String.length s).

(** [sep.join(parts)] *)
Fixpoint join (sep : string) (parts : list string) : string :=
  match parts with
  | [] => EmptyString
  | [p] => p
  | p :: rest => p +:+ sep +:+ join sep rest
  end.

End PyStr.

(** ** Python floats *)

Module PyFloat.

Definition prec : Z := 53.
Definition emax : Z := 1024.

(** [float(n)] for an integer [n]: the nearest binary64 (ties to even).
    An integer too large for a float makes Python raise
    [OverflowError]. *)
Definition of_int (n : Z) : option spec_float :=
  match binary_normalize prec emax n 0 false with
  | S754_infinity _ => None
  | f => Some f
  end.

(** A decimal literal [n/d] with small [n] and [d], such as [1.2 = 12/10]:
    the correctly rounded quotient is the binary64 nearest to the
    decimal. *)
Definition of_decimal (n d : Z) : spec_float :=
  SFdiv prec emax (binary_normalize prec emax n 0 false)
                  (binary_normalize prec emax d 0 false).

Definition mul : spec_float -> spec_float -> spec_float := SFmul prec emax.

(** [int(x)]: truncation toward zero; [OverflowError] on an infinity and
    [ValueError] on a NaN. *)
Definition to_int (x : spec_float) : option Z :=
  match x with
  | S754_zero _ => Some 0
  | S754_finite s m e =>
      let a := match e with
               | Zneg p => Z.shiftr (Zpos m) (Zpos p)
               | _ => Z.shiftl (Zpos m) e
               end in
      Some (if s then - a else a)
  | S754_infinity _ | S754_nan => None
  end.

(** [round(x)]: the nearest integer, ties to the even one. *)
Definition round (x : spec_float) : option Z :=
  match x with
  | S754_zero _ => Some 0
  | S754_finite s m e =>
      let a := match e with
               | Zneg p =>
                   let q := Z.shiftr (Zpos m) (Zpos p) in
                   let twice_rem := 2 * (Zpos m - Z.shiftl q (Zpos p)) in
                   let unit := Z.shiftl 1 (Zpos p) in
                   if twice_rem <? unit then q
                   else if unit <? twice_rem then q + 1
                   else if Z.even q then q else q + 1
               | _ => Z.shiftl (Zpos m) e
               end in
      Some (if s then - a else a)
  | S754_infinity _ | S754_nan => None
  end.

End PyFloat.

(** The state of the right shift of a mantissa [M] by [k] bits in the
    rounding of [spec_float], for [P = 2^(k-1)]: the bits kept, the round
    bit and the sticky bit. *)
Definition shr_inv (M P : Z) (mrs : shr_record) : Prop :=
  exists t, 0 <= t < P /\
            M = 2 * P * shr_m mrs + (if shr_r mrs then P else 0) + t /\
            (shr_s mrs = true <-> 0 < t).

(** ** The token ledger: [proxy.py], cost table and debit *)

Definition TOKEN_COST_MULTIPLIER : gmap string spec_float :=
  list_to_map
    [ ("gpt-4o", PyFloat.of_decimal 20 10);
      ("gpt-4o-mini", PyFloat.of_decimal 10 10);
      ("glm-5", PyFloat.of_decimal 10 10);
      ("glm-4-plus", PyFloat.of_decimal 15 10);
      ("doubao-pro", PyFloat.of_decimal 12 10);
      ("doubao-lite", PyFloat.of_decimal 8 10);
      ("doubao-seed-1-6-thinking", PyFloat.of_decimal 15 10);
      ("minimax-m2.5", PyFloat.of_decimal 10 10);
      ("minimax-text-01", PyFloat.of_decimal 10 10);
      ("abab7-chat-preview", PyFloat.of_decimal 15 10);
      ("abab6.5s-chat", PyFloat.of_decimal 10 10);
      ("abab5.5-chat", PyFloat.of_decimal 8 10) ].

Definition _get_cost_multiplier (model : string) : spec_float :=
  default (PyFloat.of_decimal 10 10)
          (TOKEN_COST_MULTIPLIER !! PyStr.lower (PyStr.strip model)).

(** Documents of the three collections. *)

Record user := {
  username : string;
  email : string;
  password_hash : string;
  token_balance : Z;
  token_total_used : Z;
  membership_level : string;
  membership_expire_at : option Z;
  avatar : option string;
  created_at : Z;
  updated_at : Z
}.

Record usage_record := {
  ur_user_id : string;
  ur_model : string;
  ur_task_type : string;
  ur_prompt_tokens : Z;
  ur_completion_tokens : Z;
  ur_total_tokens : Z;
  ur_cost_tokens : Z;
  ur_created_at : Z
}.

Record order := {
  o_user_id : string;
  o_plan_id : string;
  o_title : string;
  o_amount : spec_float;
  o_token_grant : Z;
  o_days_grant : Z;
  o_payment_method : string;
  o_out_trade_no : string;
  o_status : string;
  o_transaction_id : option string;
  o_paid_at : option Z;
  o_created_at : Z
}.

Record db := {
  users : gmap string user;
  usage_records : list usage_record;
  orders : list order
}.

Definition set_users (f : gmap string user -> gmap string user) (d : db) : db :=
  {| users := f (users d); usage_records := usage_records d; orders := orders d |}.

Definition set_usage_records (f : list usage_record -> list usage_record) (d : db) : db :=
  {| users := users d; usage_records := f (usage_records d); orders := orders d |}.

Definition set_orders (f : list order -> list order) (d : db) : db :=
  {| users := users d; usage_records := usage_records d; orders := f (orders d) |}.

(** The default task type of [_deduct_tokens], as the source file has it. *)
Definition default_task_type : string := "瀵硅瘽".

(** [cost = max(1, int(total * _get_cost_multiplier(model)))]; [None] when
    the float operations raise. *)
Definition debit_cost (model : string) (total : Z) : option Z :=
  f ← PyFloat.of_int total;
  k ← PyFloat.to_int (PyFloat.mul f (_get_cost_multiplier model));
  Some (Z.max 1 k).

(** The update document of [_deduct_tokens]:
    [$inc] of [token_balance] by [-cost] and of [token_total_used] by
    [cost], [$set] of [updated_at]. *)
Definition apply_debit (cost now : Z) (u : user) : user :=
  {| username := username u; email := email u;
     password_hash := password_hash u;
     token_balance := token_balance u + - cost;
     token_total_used := token_total_used u + cost;
     membership_level := membership_level u;
     membership_expire_at := membership_expire_at u;
     avatar := avatar u; created_at := created_at u;
     updated_at := now |}.

(** [_deduct_tokens]: an exception while the cost is computed leaves the
    database as it was; [update_one] on an identifier that matches no
    document changes nothing. *)
Definition _deduct_tokens (user_id model : string)
    (prompt_tokens completion_tokens : Z) (task_type : string)
    (now : Z) (d : db) : db :=
  let total := prompt_tokens + completion_tokens in
  match debit_cost model total with
  | None => d
  | Some cost =>
      let d1 := set_usage_records (fun rs => rs ++
                  [ {| ur_user_id := user_id; ur_model := model;
                       ur_task_type := task_type;
                       ur_prompt_tokens := prompt_tokens;
                       ur_completion_tokens := completion_tokens;
                       ur_total_tokens := total;
                       ur_cost_tokens := cost;
                       ur_created_at := now |} ]) d in
      set_users (alter (apply_debit cost now) user_id) d1
  end.

(** ** JSON values, as [json.loads] returns them *)

#[local] Unset Elimination Schemes.
Inductive json :=
| JNull
| JBool (b : bool)
| JInt (n : Z)
| JFloat (literal : string)
| JStr (s : string)
| JArr (items : list json)
| JObj (members : list (string * json)).
#[local] Set Elimination Schemes.

(** A Python [dict] built from the members in source order: a later
    member replaces an earlier one with the same key, so [get] returns the
    last. *)
Fixpoint dict_get (k : string) (members : list (string * json)) : option json :=
  match members with
  | [] => None
  | (k', v) :: rest =>
      match dict_get k rest with
      | Some v' => Some v'
      | None => if String.eqb k k' then Some v else None
      end
  end.

(** The keys in the order of their first insertion. *)
Fixpoint dict_keys (members : list (string * json)) : list string :=
  match members with
  | [] => []
  | (k, _) :: rest =>
      k :: filter (fun k' => negb (String.eqb k k')) (dict_keys rest)
  end.

(** [type(v).__name__] *)
Definition type_name (v : json) : string :=
  match v with
  | JNull => "NoneType"
  | JBool _ => "bool"
  | JInt _ => "int"
  | JFloat _ => "float"
  | JStr _ => "str"
  | JArr _ => "list"
  | JObj _ => "dict"
  end.

(** The exceptions of the metering code, by their [str(e)]. *)
Definition no_attribute_get (v : json) : string :=
  "'" +:+ type_name v +:+ "' object has no attribute 'get'".

Definition not_iterable (v : json) : string :=
  "'" +:+ type_name v +:+ "' object is not iterable".

Fixpoint chars (s : string) : list string :=
  match s with
  | EmptyString => []
  | String c r => String c EmptyString :: chars r
  end.

(** [for choice in v]: the elements of a list, the characters of a string,
    the keys of a dict; [TypeError] on anything else. *)
Definition py_iter (v : json) : string + list json :=
  match v with
  | JArr items => inr items
  | JStr s => inr (map JStr (chars s))
  | JObj members => inr (map JStr (dict_keys members))
  | _ => inl (not_iterable v)
  end.

(** The body of the loop over the choices of one payload: the string
    [delta.content] of a choice that has one, the empty string
    otherwise. *)
Definition choice_content (choice : json) : string :=
  match choice with
  | JObj cm =>
      match dict_get "delta" cm with
      | Some (JObj dm) =>
          match dict_get "content" dm with
          | Some (JStr content) => content
          | _ => ""
          end
      | _ => ""
      end
  | _ => ""
  end.

Definition concat_str (l : list string) : string := fold_right String.append "" l.

(** ** Requests, upstream behaviour and the generator monad *)

Inductive block :=
| TextBlock (text : string)   (* a dict whose type is text *)
| OtherBlock.                 (* any other element of a content list *)

Inductive content :=
| NoContent                   (* content missing or None *)
| Text (s : string)
| Blocks (bs : list block).

Record chat_request := {
  req_model : option string;
  req_messages : list content;
  req_stream : bool
}.

(** What the unary call returns: [usage.completion_tokens] when the
    response has a usage, and [message.content] of each choice. *)
Record completion := {
  usage : option Z;
  choices : list (option string)
}.

(** How the stream of lines of the upstream ends: it is exhausted, the
    upstream raises an exception, or the task is cancelled while it waits
    for the next line. *)
Inductive upstream_end :=
| EndOfStream
| UpstreamError (msg : string)
| Cancelled.

Record upstream := {
  stream_lines : list string;
  stream_end : upstream_end;
  create_result : string + completion
}.

(** The upstream vendors, and [_get_client]: the vendor of a model, by
    the prefix of its stripped and lower-cased name. *)
Inductive provider := GLM | Ark | MiniMax | OpenAI.

Definition _get_client (model : string) : provider :=
  let key := PyStr.lower (PyStr.strip model) in
  if PyStr.startswith "minimax" key || PyStr.startswith "abab" key then MiniMax
  else if PyStr.startswith "doubao" key || PyStr.startswith "ep-" key then Ark
  else if PyStr.startswith "glm" key then GLM
  else if PyStr.startswith "gpt" key then OpenAI
  else GLM.

(** A scheduled call of [_deduct_tokens]. *)
Record task := {
  t_user_id : string;
  t_model : string;
  t_prompt_tokens : Z;
  t_completion_tokens : Z
}.

Definition run_task (t : task) (now : Z) (d : db) : db :=
  _deduct_tokens (t_user_id t) (t_model t) (t_prompt_tokens t)
                 (t_completion_tokens t) default_task_type now d.

(** The tasks run one after the other, each at its own time. *)
Fixpoint run_tasks (ts : list task) (clock : nat -> Z) (d : db) : db :=
  match ts with
  | [] => d
  | t :: rest => run_tasks rest (fun i => clock (S i)) (run_task t (clock O) d)
  end.

(** The state of a running [event_generator]: what it has yielded, how
    many times the client will still resume it ([None]: the client stays
    to the end), the local [completion_text] and the tasks it has
    created. *)
Record gstate := {
  yielded : list string;
  resumes : option nat;
  completion_text : string;
  created : list task
}.

Inductive outcome (A : Type) :=
| Normal (a : A)
| Raised (e : string)   (* an Exception, with its str(e) *)
| Exited.               (* GeneratorExit or CancelledError *)
Arguments Normal {A} a.
Arguments Raised {A} e.
Arguments Exited {A}.

Definition gen (A : Type) : Type := gstate -> gstate * outcome A.

Module Gen.

Definition ret {A} (a : A) : gen A := fun s => (s, Normal a).

Definition bind {A B} (m : gen A) (k : A -> gen B) : gen B :=
  fun s => match m s with
           | (s', Normal a) => k a s'
           | (s', Raised e) => (s', Raised e)
           | (s', Exited) => (s', Exited)
           end.

Definition raise {A} (e : string) : gen A := fun s => (s, Raised e).
Definition exit {A} : gen A := fun s => (s, Exited).

(** [yield item]: the item goes to the client, which resumes the
    generator or closes it at this point. *)
Definition yield (item : string) : gen unit :=
  fun s =>
    let out := yielded s ++ [item] in
    match resumes s with
    | Some O =>
        ({| yielded := out; resumes := Some O;
            completion_text := completion_text s; created := created s |},
         Exited)
    | Some (S n) =>
        ({| yielded := out; resumes := Some n;
            completion_text := completion_text s; created := created s |},
         Normal tt)
    | None =>
        ({| yielded := out; resumes := None;
            completion_text := completion_text s; created := created s |},
         Normal tt)
    end.

Definition get_text : gen string := fun s => (s, Normal (completion_text s)).

Definition set_text (t : string) : gen unit :=
  fun s => ({| yielded := yielded s; resumes := resumes s;
               completion_text := t; created := created s |}, Normal tt).

(** [asyncio.create_task] *)
Definition create_task (t : task) : gen unit :=
  fun s => ({| yielded := yielded s; resumes := resumes s;
               completion_text := completion_text s;
               created := created s ++ [t] |}, Normal tt).

(** [try: m except Exception as e: h e] *)
Definition try_except {A} (m : gen A) (h : string -> gen A) : gen A :=
  fun s => match m s with
           | (s', Raised e) => h e s'
           | r => r
           end.

(** [try: m finally: f]: [f] runs however [m] ends, and the way [m]
    ended is kept unless [f] itself does not end normally. *)
Definition try_finally {A} (m : gen A) (f : gen unit) : gen A :=
  fun s => match m s with
           | (s', o) =>
               match f s' with
               | (s'', Normal _) => (s'', o)
               | (s'', Raised e) => (s'', Raised e)
               | (s'', Exited) => (s'', Exited)
               end
           end.

(** [async for line in upstream.iter_lines(): body line] *)
Fixpoint for_lines (lines : list string) (fin : upstream_end)
    (body : string -> gen unit) : gen unit :=
  match lines with
  | line :: rest => bind (body line) (fun _ => for_lines rest fin body)
  | [] =>
      match fin with
      | EndOfStream => ret tt
      | UpstreamError msg => raise msg
      | Cancelled => exit
      end
  end.

End Gen.

#[global] Instance gen_ret : MRet gen := @Gen.ret.
#[global] Instance gen_bind : MBind gen := fun A B k m => Gen.bind m k.

(** [json.dumps(s)] of a string, with the default [ensure_ascii]. *)
Definition hex_digit (n : nat) : ascii :=
  ascii_of_nat (if (n <? 10)%nat then 48 + n else 87 + n).

Definition escape_char (c : ascii) : string :=
  let n := nat_of_ascii c in
  if (n =? 34)%nat then "\" +:+ PyStr.dq
  else if (n =? 92)%nat then "\\"
  else if (n =? 10)%nat then "\n"
  else if (n =? 13)%nat then "\r"
  else if (n =? 9)%nat then "\t"
  else if (n =? 12)%nat then "\f"
  else if (n =? 8)%nat then "\b"
  else if (n <? 32)%nat || (126 <? n)%nat then
    "\u00" +:+ String (hex_digit (n / 16)) (String (hex_digit (n mod 16)) "")
  else String c "".

Fixpoint escape (s : string) : string :=
  match s with
  | EmptyString => ""
  | String c r => escape_char c +:+ escape r
  end.

Definition json_dumps_str (s : string) : string :=
  PyStr.dq +:+ escape s +:+ PyStr.dq.

(** [json.dumps({"error": {"message": msg, "type": "upstream_error"}})] *)
Definition error_payload (msg : string) : string :=
  "{" +:+ json_dumps_str "error" +:+ ": {" +:+
  json_dumps_str "message" +:+ ": " +:+ json_dumps_str msg +:+ ", " +:+
  json_dumps_str "type" +:+ ": " +:+ json_dumps_str "upstream_error" +:+ "}}".

(** The synthetic event of the [except] clause. *)
Definition error_event (msg : string) : string :=
  "data: " +:+ error_payload msg +:+ PyStr.nl +:+ PyStr.nl.

Inductive http_result :=
| HTTPException (status_code : Z) (detail : string)
| JSONResponse (r : completion)
| StreamingResponse (body : list string).

(** What one call of [chat_completions] leaves behind: the response, the
    tasks created for the event loop and the number of calls made to the
    upstream. *)
Record handled := {
  result : http_result;
  tasks : list task;
  upstream_calls : nat
}.

Definition upstream_failed : string := "涓婃父璇锋眰澶辫触".

(** ** A decoder for [loads]

    The grammar of Python's [json] decoder on ASCII input: the four
    white-space characters, [NaN], [Infinity] and [-Infinity] besides the
    standard literals, strict strings (no control character), the eight
    short escapes and [\uXXXX] (decoded to UTF-8, a surrogate pair to one
    code point), extra data after the value refused. An integer literal of
    more than 4300 digits is refused as [int] refuses it. The nesting
    depth is not limited. *)

Module JsonDecoder.

Definition is_ws (c : ascii) : bool :=
  let n := nat_of_ascii c in
  (n =? 32)%nat || (n =? 9)%nat || (n =? 10)%nat || (n =? 13)%nat.

Fixpoint skip_ws (s : string) : string :=
  match s with
  | String c r => if is_ws c then skip_ws r else s
  | EmptyString => EmptyString
  end.

Definition is_digit (c : ascii) : bool :=
  let n := nat_of_ascii c in (48 <=? n)%nat && (n <=? 57)%nat.

Definition hex_value (c : ascii) : option Z :=
  let n := nat_of_ascii c in
  if (48 <=? n)%nat && (n <=? 57)%nat then Some (Z.of_nat n - 48)
  else if (65 <=? n)%nat && (n <=? 70)%nat then Some (Z.of_nat n - 55)
  else if (97 <=? n)%nat && (n <=? 102)%nat then Some (Z.of_nat n - 87)
  else None.

Definition hex4 (a b c d : ascii) : option Z :=
  x ← hex_value a; y ← hex_value b; z ← hex_value c; w ← hex_value d;
  Some (((x * 16 + y) * 16 + z) * 16 + w).

Definition byte (n : Z) : ascii := ascii_of_nat (Z.to_nat n).

(** The UTF-8 form of a code point (a lone surrogate is encoded like any
    other three-byte code point). *)
Definition utf8 (cp : Z) : string :=
  if cp <? 128 then String (byte cp) ""
  else if cp <? 2048 then
    String (byte (192 + cp / 64)) (String (byte (128 + cp mod 64)) "")
  else if cp <? 65536 then
    String (byte (224 + cp / 4096))
      (String (byte (128 + (cp / 64) mod 64))
         (String (byte (128 + cp mod 64)) ""))
  else
    String (byte (240 + cp / 262144))
      (String (byte (128 + (cp / 4096) mod 64))
         (String (byte (128 + (cp / 64) mod 64))
            (String (byte (128 + cp mod 64)) ""))).

Definition is_high (cp : Z) : bool := (55296 <=? cp) && (cp <=? 56319).
Definition is_low (cp : Z) : bool := (56320 <=? cp) && (cp <=? 57343).

(** The characters after an opening quote, up to the closing one. [high]
    is a high surrogate read just before and not yet written. *)
Fixpoint scanstring (high : option Z) (s : string) : option (string * string) :=
  let flush := match high with Some h => utf8 h | None => "" end in
  match s with
  | EmptyString => None
  | String c r =>
      let n := nat_of_ascii c in
      if (n =? 34)%nat then Some (flush, r)
      else if (n <? 32)%nat then None
      else if (n =? 92)%nat then
        match r with
        | String e r1 =>
            let m := nat_of_ascii e in
            let short (x : nat) :=
              '(t, rest) ← scanstring None r1;
              Some (flush +:+ String (ascii_of_nat x) t, rest) in
            if (m =? 34)%nat then short 34%nat
            else if (m =? 92)%nat then short 92%nat
            else if (m =? 47)%nat then short 47%nat
            else if (m =? 98)%nat then short 8%nat
            else if (m =? 102)%nat then short 12%nat
            else if (m =? 110)%nat then short 10%nat
            else if (m =? 114)%nat then short 13%nat
            else if (m =? 116)%nat then short 9%nat
            else if (m =? 117)%nat then
              match r1 with
              | String h1 (String h2 (String h3 (String h4 r2))) =>
                  cp ← hex4 h1 h2 h3 h4;
                  match high with
                  | Some h =>
                      if is_low cp then
                        '(t, rest) ← scanstring None r2;
                        Some (utf8 (65536 + (h - 55296) * 1024 + (cp - 56320)) +:+ t, rest)
                      else if is_high cp then
                        '(t, rest) ← scanstring (Some cp) r2;
                        Some (utf8 h +:+ t, rest)
                      else
                        '(t, rest) ← scanstring None r2;
                        Some (utf8 h +:+ utf8 cp +:+ t, rest)
                  | None =>
                      if is_high cp then scanstring (Some cp) r2
                      else
                        '(t, rest) ← scanstring None r2;
                        Some (utf8 cp +:+ t, rest)
                  end
              | _ => None
              end
            else None
        | EmptyString => None
        end
      else
        '(t, rest) ← scanstring None r;
        Some (flush +:+ String c t, rest)
  end.

Fixpoint span_digits (s : string) : string * string :=
  match s with
  | String c r =>
      if is_digit c then let '(ds, rest) := span_digits r in (String c ds, rest)
      else ("", s)
  | EmptyString => ("", "")
  end.

Fixpoint digits_value (acc : Z) (ds : string) : Z :=
  match ds with
  | String c r => digits_value (acc * 10 + (Z.of_nat (nat_of_ascii c) - 48)) r
  | EmptyString => acc
  end.

(** A number: an optional minus sign, then a zero or a digit sequence
    that does not start with a zero, then an optional fraction (a dot and
    at least one digit) and an optional exponent (e or E, an optional
    sign, at least one digit); the fraction and the exponent are taken
    only when they are complete. *)
Definition scan_number (s : string) : option (json * string) :=
  let '(neg, s1) := match s with
                    | String "-" r => (true, r)
                    | _ => (false, s)
                    end in
  let '(ds, s2) := span_digits s1 in
  let int_part :=
    match ds with
    | EmptyString => None
    | String "0" (String _ _) => Some ("0", PyStr.drop 1 s1)
    | _ => Some (ds, s2)
    end in
  '(ip, s3) ← int_part;
  let '(frac, s4) :=
    match s3 with
    | String "." r =>
        let '(fs, rest) := span_digits r in
        match fs with
        | EmptyString => ("", s3)
        | _ => ("." +:+ fs, rest)
        end
    | _ => ("", s3)
    end in
  let '(expo, s5) :=
    match s4 with
    | String e r =>
        if Ascii.eqb e "e" || Ascii.eqb e "E" then
          let '(sign, r1) := match r with
                             | String "+" r' => ("+", r')
                             | String "-" r' => ("-", r')
                             | _ => ("", r)
                             end in
          let '(es, rest) := span_digits r1 in
          match es with
          | EmptyString => ("", s4)
          | _ => (String e sign +:+ es, rest)
          end
        else ("", s4)
    | EmptyString => ("", s4)
    end in
  let sign := if neg then "-" else "" in
  if String.eqb frac "" && String.eqb expo "" then
    if (4300 <? String.length ip)%nat then None
    else Some (JInt (if neg then - digits_value 0 ip else digits_value 0 ip), s5)
  else Some (JFloat (sign +:+ ip +:+ frac +:+ expo), s5).

Definition literal (word : string) (v : json) (s : string) : option (json * string) :=
  if PyStr.startswith word s
  then Some (v, PyStr.drop (String.length word) s) else None.

Fixpoint scan_value (fuel : nat) (s : string) : option (json * string) :=
  match fuel with
  | O => None
  | S fuel' =>
      match s with
      | EmptyString => None
      | String c r =>
          let n := nat_of_ascii c in
          if (n =? 34)%nat then
            '(t, rest) ← scanstring None r; Some (JStr t, rest)
          else if Ascii.eqb c "{" then
            match skip_ws r with
            | String "}" rest => Some (JObj [], rest)
            | r1 => '(ms, rest) ← scan_members fuel' r1; Some (JObj ms, rest)
            end
          else if Ascii.eqb c "[" then
            match skip_ws r with
            | String "]" rest => Some (JArr [], rest)
            | r1 => '(vs, rest) ← scan_items fuel' r1; Some (JArr vs, rest)
            end
          else if Ascii.eqb c "n" then literal "null" JNull s
          else if Ascii.eqb c "t" then literal "true" (JBool true) s
          else if Ascii.eqb c "f" then literal "false" (JBool false) s
          else if Ascii.eqb c "N" then literal "NaN" (JFloat "NaN") s
          else if Ascii.eqb c "I" then literal "Infinity" (JFloat "Infinity") s
          else if PyStr.startswith "-Infinity" s
          then literal "-Infinity" (JFloat "-Infinity") s
          else scan_number s
      end
  end
with scan_items (fuel : nat) (s : string) : option (list json * string) :=
  match fuel with
  | O => None
  | S fuel' =>
      '(v, r) ← scan_value fuel' s;
      match skip_ws r with
      | String "," r1 =>
          '(vs, rest) ← scan_items fuel' (skip_ws r1); Some (v :: vs, rest)
      | String "]" rest => Some ([v], rest)
      | _ => None
      end
  end
with scan_members (fuel : nat) (s : string) : option (list (string * json) * string) :=
  match fuel with
  | O => None
  | S fuel' =>
      match s with
      | String q r =>
          if (nat_of_ascii q =? 34)%nat then
            '(k, r1) ← scanstring None r;
            match skip_ws r1 with
            | String ":" r2 =>
                '(v, r3) ← scan_value fuel' (skip_ws r2);
                match skip_ws r3 with
                | String "," r4 =>
                    '(ms, rest) ← scan_members fuel' (skip_ws r4);
                    Some ((k, v) :: ms, rest)
                | String "}" rest => Some ([(k, v)], rest)
                | _ => None
                end
            | _ => None
            end
          else None
      | EmptyString => None
      end
  end.

Definition json_loads (s : string) : option json :=
  '(v, rest) ← scan_value (2 * String.length s + 2) (skip_ws s);
  match skip_ws rest with
  | EmptyString => Some v
  | _ => None
  end.

End JsonDecoder.

(** Test data is written with [`] in place of the double quote. *)
Fixpoint quoted (s : string) : string :=
  match s with
  | String c r => String (if Ascii.eqb c "`" then ascii_of_nat 34 else c) (quoted r)
  | EmptyString => EmptyString
  end.

(** ** [proxy.py]: the request handler *)

Section Proxy.

(** [tiktoken.get_encoding("cl100k_base").encode]: the tokens of a text,
    or [None] when the library raises. *)
Variable encode : string -> option (list Z).

(** [json.loads]: [None] when it raises. *)
Variable loads : string -> option json.

Definition _count_tokens_approx (text : string) : Z :=
  match encode text with
  | Some toks => Z.of_nat (length toks)
  | None => Z.max 1 (PyStr.len text / 4)
  end.

Definition text_of_block (b : block) : list string :=
  match b with
  | TextBlock text => [text]
  | OtherBlock => []
  end.

(** What one message adds to [parts]. An empty content list is falsy and
    is replaced by the empty string, as a missing content is. *)
Definition parts_of_content (c : content) : list string :=
  match c with
  | NoContent => [""]
  | Text s => [s]
  | Blocks [] => [""]
  | Blocks bs => concat (map text_of_block bs)
  end.

Definition _extract_text_from_messages (messages : list content) : string :=
  PyStr.join PyStr.nl (concat (map parts_of_content messages)).

(** [_check_balance]: [None] when it returns, the raised exception
    otherwise. *)
Definition _check_balance (d : db) (user_id : string) (estimated_cost : Z)
  : option http_result :=
  match users d !! user_id with
  | None => Some (HTTPException 402 "Insufficient token balance")
  | Some user =>
      if token_balance user <? Z.max 1 estimated_cost
      then Some (HTTPException 402 "Insufficient token balance")
      else None
  end.

(** The metering of one forwarded line: it adds to [completion_text], or
    raises. *)
Definition meter (line : string) : gen unit :=
  if negb (PyStr.startswith "data:" line) then mret tt
  else
    let data_raw := PyStr.strip (PyStr.drop 5 line) in
    if String.eqb data_raw "" || String.eqb data_raw "[DONE]" then mret tt
    else
      match loads data_raw with
      | None => mret tt
      | Some payload =>
          match payload with
          | JObj members =>
              match py_iter (default (JArr []) (dict_get "choices" members)) with
              | inl e => Gen.raise e
              | inr cs =>
                  text ← Gen.get_text;
                  Gen.set_text (text +:+ concat_str (map choice_content cs))
              end
          | _ => Gen.raise (no_attribute_get payload)
          end
      end.

(** [meter] read as a function of the line: what it appends to
    [completion_text], or the [str(e)] of the exception it raises. *)
Definition line_content (line : string) : string + string :=
  if negb (PyStr.startswith "data:" line) then inr ""
  else
    let data_raw := PyStr.strip (PyStr.drop 5 line) in
    if String.eqb data_raw "" || String.eqb data_raw "[DONE]" then inr ""
    else
      match loads data_raw with
      | None => inr ""
      | Some (JObj members) =>
          match py_iter (default (JArr []) (dict_get "choices" members)) with
          | inl e => inl e
          | inr cs => inr (concat_str (map choice_content cs))
          end
      | Some payload => inl (no_attribute_get payload)
      end.

(** The body of the loop of [event_generator]: the line is forwarded as
    it came, then metered. *)
Definition forward (line : string) : gen unit :=
  Gen.yield (line +:+ PyStr.nl);; meter line.

Definition event_generator (user_id model : string) (prompt_tokens : Z)
    (up : upstream) : gen unit :=
  Gen.set_text "";;
  Gen.try_finally
    (Gen.try_except
       (Gen.for_lines (stream_lines up) (stream_end up) forward)
       (fun e => Gen.yield (error_event e)))
    (text ← Gen.get_text;
     Gen.create_task {| t_user_id := user_id; t_model := model;
                        t_prompt_tokens := prompt_tokens;
                        t_completion_tokens := _count_tokens_approx text |}).

(** Two state updates used to describe runs: the effect of a metered line
    and the effect of the [finally] clause. *)
Definition add_text (t : string) (s : gstate) : gstate :=
  {| yielded := yielded s; resumes := resumes s;
     completion_text := completion_text s +:+ t; created := created s |}.

Definition finalize (user_id model : string) (prompt_tokens : Z) (s : gstate)
  : gstate :=
  {| yielded := yielded s; resumes := resumes s;
     completion_text := completion_text s;
     created := created s ++
       [ {| t_user_id := user_id; t_model := model;
            t_prompt_tokens := prompt_tokens;
            t_completion_tokens := _count_tokens_approx (completion_text s) |} ] |}.

(** The server iterating over the generator. [client] is the number of
    times the client resumes it before closing the connection: with
    [Some n] the generator is closed at its yield number [n + 1], where
    [GeneratorExit] is raised; with [None] the client stays to the
    end. *)
Definition run_generator (client : option nat) (g : gen unit) : gstate :=
  fst (g {| yielded := []; resumes := client;
            completion_text := ""; created := [] |}).

(** [comp_tokens] of the unary path. *)
Definition unary_comp_tokens (response : completion) : Z :=
  match usage response with
  | Some completion_tokens => completion_tokens
  | None =>
      _count_tokens_approx
        match choices response with
        | [] => ""
        | first :: _ =>
            default "" first
        end
  end.

(** [chat_completions]. [upstreams] gives, for each vendor, how it
    behaves on this call, with the parameters the handler passes
    through. *)
Definition chat_completions (d : db) (user_id : string) (body : chat_request)
    (upstreams : provider -> upstream) (client : option nat) : handled :=
  let model := default "glm-5" (req_model body) in
  let messages := req_messages body in
  let is_stream := req_stream body in
  let prompt_tokens := _count_tokens_approx (_extract_text_from_messages messages) in
  match _check_balance d user_id prompt_tokens with
  | Some exc => {| result := exc; tasks := []; upstream_calls := 0 |}
  | None =>
      let up := upstreams (_get_client model) in
      if is_stream then
        let s := run_generator client
                   (event_generator user_id model prompt_tokens up) in
        {| result := StreamingResponse (yielded s);
           tasks := created s; upstream_calls := 1 |}
      else
        match create_result up with
        | inl e =>
            {| result := HTTPException 502 (upstream_failed +:+ ": " +:+ e);
               tasks := []; upstream_calls := 1 |}
        | inr response =>
            {| result := JSONResponse response;
               tasks := [ {| t_user_id := user_id; t_model := model;
                             t_prompt_tokens := prompt_tokens;
                             t_completion_tokens := unary_comp_tokens response |} ];
               upstream_calls := 1 |}
        end
  end.

End Proxy.

(** ** [auth.py]: registration *)

Definition NEW_USER_WELCOME_TOKENS : Z := 50000.

Definition exists_user (p : user -> bool) (d : db) : bool :=
  bool_decide (map_Exists (fun _ u => p u = true) (users d)).

(** [register]: [None] when the e-mail or the user name is taken (status
    400), the database with the new account otherwise. [new_id] is the
    identifier the database gives to the inserted document and
    [hashed] the result of [hash_password]. *)
Definition register (d : db) (name mail hashed new_id : string) (now : Z)
  : option db :=
  if exists_user (fun u => String.eqb (email u) mail) d then None
  else if exists_user (fun u => String.eqb (username u) name) d then None
  else
    Some (set_users
            (insert new_id
               {| username := name; email := mail; password_hash := hashed;
                  token_balance := NEW_USER_WELCOME_TOKENS;
                  token_total_used := 0;
                  membership_level := "free";
                  membership_expire_at := None;
                  avatar := None;
                  created_at := now; updated_at := now |}) d).

(** ** [payment.py]: plans, orders and fulfilment *)

Record plan := {
  title : string;
  amount : spec_float;
  token_grant : Z;
  days_grant : Z
}.

Definition PLANS : gmap string plan :=
  list_to_map
    [ ("monthly", {| title := "专业版 - 月度订阅"; amount := PyFloat.of_decimal 290 10;
                     token_grant := 0; days_grant := 30 |});
      ("yearly", {| title := "专业版 - 年度订阅"; amount := PyFloat.of_decimal 2990 10;
                    token_grant := 0; days_grant := 365 |});
      ("pack-100w", {| title := "100万 Token 加油包"; amount := PyFloat.of_decimal 99 10;
                       token_grant := 1000000; days_grant := 0 |});
      ("pack-500w", {| title := "500万 Token 加油包"; amount := PyFloat.of_decimal 399 10;
                       token_grant := 5000000; days_grant := 0 |}) ].

(** [db.orders.find_one({"out_trade_no": ref})] *)
Fixpoint find_order (ref : string) (os : list order) : option order :=
  match os with
  | [] => None
  | o :: rest =>
      if String.eqb (o_out_trade_no o) ref then Some o else find_order ref rest
  end.

(** [db.orders.update_one({"out_trade_no": ref}, {"$set": ...})] *)
Fixpoint update_order (ref : string) (f : order -> order) (os : list order)
  : list order :=
  match os with
  | [] => []
  | o :: rest =>
      if String.eqb (o_out_trade_no o) ref then f o :: rest
      else o :: update_order ref f rest
  end.

Definition mark_paid (transaction_id : string) (now : Z) (o : order) : order :=
  {| o_user_id := o_user_id o; o_plan_id := o_plan_id o; o_title := o_title o;
     o_amount := o_amount o; o_token_grant := o_token_grant o;
     o_days_grant := o_days_grant o; o_payment_method := o_payment_method o;
     o_out_trade_no := o_out_trade_no o;
     o_status := "paid";
     o_transaction_id := Some transaction_id;
     o_paid_at := Some now;
     o_created_at := o_created_at o |}.

(** [timedelta(days=d)] in microseconds. *)
Definition days (d : Z) : Z := d * 86400000000.

(** The readings of [datetime.utcnow()] during one call of
    [_fulfill_order], in program order: for [updated_at], for the
    comparison with the current expiry, for the new expiry of an account
    without a running membership, and for [paid_at]. *)
Record fulfill_clock := {
  now_updated : Z;
  now_compare : Z;
  now_base : Z;
  now_paid : Z
}.

(** [new_expire], computed from the user document that was read. *)
Definition new_expire (clk : fulfill_clock) (days_grant : Z) (read : user) : Z :=
  match membership_expire_at read with
  | Some current_expire =>
      if now_compare clk <? current_expire
      then current_expire + days days_grant
      else now_base clk + days days_grant
  | None => now_base clk + days days_grant
  end.

(** The update document applied to the stored account. *)
Definition apply_grant (clk : fulfill_clock) (token_grant days_grant : Z)
    (read : user) (u : user) : user :=
  {| username := username u; email := email u;
     password_hash := password_hash u;
     token_balance :=
       if 0 <? token_grant then token_balance u + token_grant
       else token_balance u;
     token_total_used := token_total_used u;
     membership_level :=
       if 0 <? days_grant then "pro" else membership_level u;
     membership_expire_at :=
       if 0 <? days_grant then Some (new_expire clk days_grant read)
       else membership_expire_at u;
     avatar := avatar u; created_at := created_at u;
     updated_at := now_updated clk |}.

Definition _fulfill_order (plans : gmap string plan)
    (out_trade_no transaction_id : string) (clk : fulfill_clock) (d : db) : db :=
  match find_order out_trade_no (orders d) with
  | None => d
  | Some order =>
      if String.eqb (o_status order) "paid" then d
      else
        let plan := plans !! o_plan_id order in
        let token_grant := from_option token_grant 0 plan in
        let days_grant := from_option days_grant 0 plan in
        match users d !! o_user_id order with
        | None => d
        | Some user =>
            let d1 := set_users
                        (alter (apply_grant clk token_grant days_grant user)
                               (o_user_id order)) d in
            set_orders
              (update_order out_trade_no (mark_paid transaction_id (now_paid clk)))
              d1
        end
  end.

(** The order document of [wechat_create] and [alipay_create]. *)
Definition pending_order (user_id plan_id method out_trade_no : string)
    (p : plan) (now : Z) : order :=
  {| o_user_id := user_id; o_plan_id := plan_id; o_title := title p;
     o_amount := amount p; o_token_grant := token_grant p;
     o_days_grant := days_grant p; o_payment_method := method;
     o_out_trade_no := out_trade_no; o_status := "pending";
     o_transaction_id := None; o_paid_at := None; o_created_at := now |}.

(** [wechat_create], up to the insertion of the pending order: [None]
    when the plan is unknown (status 400). [out_trade_no] is the result of
    [_make_out_trade_no]. *)
Definition wechat_create (plans : gmap string plan) (d : db)
    (user_id plan_id out_trade_no : string) (now : Z) : option db :=
  match plans !! plan_id with
  | None => None
  | Some p =>
      Some (set_orders
              (fun os => os ++ [pending_order user_id plan_id "wechat" out_trade_no p now])
              d)
  end.

Definition alipay_create (plans : gmap string plan) (d : db)
    (user_id plan_id out_trade_no : string) (now : Z) : option db :=
  match plans !! plan_id with
  | None => None
  | Some p =>
      Some (set_orders
              (fun os => os ++ [pending_order user_id plan_id "alipay" out_trade_no p now])
              d)
  end.

(** ** Test data *)

(** The encoder is not available: [_count_tokens_approx] takes its
    fallback. *)
Definition no_tiktoken : string -> option (list Z) := fun _ => None.

(** The cost as the specification words it: the product rounded to the
    nearest integer, at least one. *)
Definition rounded_cost (model : string) (total : Z) : option Z :=
  f ← PyFloat.of_int total;
  k ← PyFloat.round (PyFloat.mul f (_get_cost_multiplier model));
  Some (Z.max 1 k).

Definition alice_id : string := "65f0a1b2c3d4e5f601234567".

Definition alice (balance : Z) : user :=
  {| username := "alice"; email := "alice@example.org"; password_hash := "h";
     token_balance := balance; token_total_used := 0;
     membership_level := "free"; membership_expire_at := None;
     avatar := None; created_at := 0; updated_at := 0 |}.

Definition one_account (balance : Z) : db :=
  {| users := {[ alice_id := alice balance ]};
     usage_records := []; orders := [] |}.

(** A streamed chunk whose only choice carries [text] as its delta. *)
Definition chunk (text : string) : string :=
  quoted "data: {`choices`: [{`delta`: {`content`: `" +:+ text +:+ quoted "`}}]}".

Definition hello_world : upstream :=
  {| stream_lines := [chunk "Hello"; chunk " world"];
     stream_end := EndOfStream;
     create_result := inl "not called" |}.

(** A well-formed JSON object whose [choices] is [null], between two
    ordinary chunks. *)
Definition null_choices : upstream :=
  {| stream_lines := [chunk "Hello"; quoted "data: {`choices`: null}"; chunk " world"];
     stream_end := EndOfStream;
     create_result := inl "not called" |}.

Definition fails_after_hello : upstream :=
  {| stream_lines := [chunk "Hello"];
     stream_end := UpstreamError "Connection reset";
     create_result := inl "Connection reset" |}.

Definition answers (completion_tokens : Z) : upstream :=
  {| stream_lines := []; stream_end := EndOfStream;
     create_result := inr {| usage := Some completion_tokens;
                             choices := [Some "ok"] |} |}.

Definition say_hi (stream : bool) : chat_request :=
  {| req_model := None; req_messages := [Text "hi"]; req_stream := stream |}.

(** A clock whose four readings fall into the same microsecond. *)
Definition clock_at (t : Z) : fulfill_clock :=
  {| now_updated := t; now_compare := t; now_base := t; now_paid := t |}.

Definition order_ref : string := "PT20240101000000ABCDEF12".

(** Alice with 50000 tokens and the given membership expiry. *)
Definition member (expire : option Z) : user :=
  {| username := "alice"; email := "alice@example.org"; password_hash := "h";
     token_balance := 50000; token_total_used := 0;
     membership_level := "free"; membership_expire_at := expire;
     avatar := None; created_at := 0; updated_at := 0 |}.

(** Her account with one pending order for [plan_id], created through
    [wechat_create] under [PLANS] at time 0. *)
Definition pending (plan_id : string) (expire : option Z) : db :=
  let d := {| users := {[ alice_id := member expire ]};
              usage_records := []; orders := [] |} in
  default d (wechat_create PLANS d alice_id plan_id order_ref 0).

(** The same order when the account is missing. *)
Definition orphan_order (plan_id : string) : db :=
  set_users (delete alice_id) (pending plan_id None).

(** The plan table after the monthly plan was changed to 60 days. *)
Definition PLANS_changed : gmap string plan :=
  <[ "monthly" := {| title := "专业版 - 月度订阅";
                     amount := PyFloat.of_decimal 290 10;
                     token_grant := 0; days_grant := 60 |} ]> PLANS.

(** The order with other values in its two snapshot fields. *)
Definition with_snapshot (g dg : Z) (o : order) : order :=
  {| o_user_id := o_user_id o; o_plan_id := o_plan_id o; o_title := o_title o;
     o_amount := o_amount o; o_token_grant := g; o_days_grant := dg;
     o_payment_method := o_payment_method o;
     o_out_trade_no := o_out_trade_no o; o_status := o_status o;
     o_transaction_id := o_transaction_id o; o_paid_at := o_paid_at o;
     o_created_at := o_created_at o |}.

(** Every account has a balance that is not negative. *)
Definition balances_nonneg (d : db) : Prop :=
  map_Forall (fun _ u => 0 <= token_balance u) (users d).

Definition empty_db : db := {| users := ∅; usage_records := []; orders := [] |}.

(** The database after Alice registered. *)
Definition fresh_account : db :=
  default empty_db
    (register empty_db "alice" "alice@example.org" "h" alice_id 0).

(** ** Further definitions: sums of debits *)

(** The cost a task charges when it runs, 0 when the cost computation
    raises and nothing is charged. *)
Definition task_cost (t : task) : Z :=
  default 0 (debit_cost (t_model t) (t_prompt_tokens t + t_completion_tokens t)).

(** The total charged to [user_id] by a list of tasks. *)
Definition charged (user_id : string) (ts : list task) : Z :=
  foldr (fun t acc => (if String.eqb (t_user_id t) user_id then task_cost t else 0) + acc)
        0 ts.

(** Two debit tasks of Alice and one of somebody else. *)
Definition three_tasks : list task :=
  [ {| t_user_id := alice_id; t_model := "glm-5";
       t_prompt_tokens := 100; t_completion_tokens := 50 |};
    {| t_user_id := "65f0a1b2c3d4e5f6089abcde"; t_model := "gpt-4o";
       t_prompt_tokens := 10; t_completion_tokens := 10 |};
    {| t_user_id := alice_id; t_model := "doubao-lite";
       t_prompt_tokens := 1; t_completion_tokens := 1 |} ].

(** A string of white space only. *)
Fixpoint all_space (s : string) : bool :=
  match s with
  | EmptyString => true
  | String c r => PyStr.isspace c && all_space r
  end.

Definition is_text (b : block) : bool :=
  match b with
  | TextBlock _ => true
  | OtherBlock => false
  end.

(** ** Further definitions: the payment handlers *)

(** [db.orders.find_one({"out_trade_no": ref, "user_id": user_id})] *)
Fixpoint find_own_order (ref user_id : string) (os : list order) : option order :=
  match os with
  | [] => None
  | o :: rest =>
      if String.eqb (o_out_trade_no o) ref && String.eqb (o_user_id o) user_id
      then Some o else find_own_order ref user_id rest
  end.

(** The answers of [query_order] and [dev_mock_pay]. *)
Inductive order_reply :=
| OrderStatus (status out_trade_no : string)
| OrderMessage (message out_trade_no : string)
| OrderError (status_code : Z) (detail : string).

Definition query_order (d : db) (out_trade_no user_id : string) : order_reply :=
  match find_own_order out_trade_no user_id (orders d) with
  | None => OrderError 404 "订单不存在"
  | Some order => OrderStatus (o_status order) out_trade_no
  end.

(** [dev_mock_pay]; [env] is the value of the environment variable
    [DEV_MOCK_PAY], [None] when it is not set. *)
Definition dev_mock_pay (env : option string) (plans : gmap string plan)
    (out_trade_no user_id : string) (clk : fulfill_clock) (d : db)
  : order_reply * db :=
  if negb (String.eqb (PyStr.lower (default "true" env)) "true")
  then (OrderError 403 "此接口在生产环境中已禁用", d)
  else
    match find_own_order out_trade_no user_id (orders d) with
    | None => (OrderError 404 "订单不存在", d)
    | Some order =>
        if String.eqb (o_status order) "paid"
        then (OrderMessage "订单已经是已支付状态" out_trade_no, d)
        else (OrderMessage "模拟支付成功，余额/会员已更新" out_trade_no,
              _fulfill_order plans out_trade_no
                ("MOCK_TRANSACTION_" +:+ out_trade_no) clk d)
    end.

(** What [wx_pay.callback] returns when the notification is accepted:
    the event type and the two fields of [resource] the handler reads,
    [None] for a key that is missing. *)
Record wechat_result := {
  event_type : option string;
  res_out_trade_no : option string;
  res_transaction_id : option string
}.

(** [wechat_notify]. [wx_pay] is [None] when the gateway is not
    configured, and otherwise the result of [callback] on the request,
    [None] when the gateway refuses the notification. The answer is the
    content of the response. *)
Definition wechat_notify (plans : gmap string plan)
    (wx_pay : option (option wechat_result)) (clk : fulfill_clock) (d : db)
  : string * db :=
  match wx_pay with
  | None => ("OK", d)
  | Some result =>
      (quoted "{`code`:`SUCCESS`,`message`:`成功`}",
       match result with
       | Some r =>
           if bool_decide (event_type r = Some "TRANSACTION.SUCCESS") then
             let out_trade_no := default "" (res_out_trade_no r) in
             let transaction_id := default "" (res_transaction_id r) in
             if String.eqb out_trade_no "" then d
             else _fulfill_order plans out_trade_no transaction_id clk d
           else d
       | None => d
       end)
  end.

(** [alipay_notify]. [form] is the form of the request; [alipay] is
    [None] when the gateway is not configured, and otherwise its
    [verify]. *)
Definition alipay_notify (plans : gmap string plan)
    (alipay : option (gmap string string -> string -> bool))
    (form : gmap string string) (clk : fulfill_clock) (d : db)
  : string * db :=
  let sign := form !! "sign" in
  let data := delete "sign_type" (delete "sign" form) in
  ("success",
   match alipay, sign with
   | Some verify, Some sign =>
       if String.eqb sign "" then d
       else if verify data sign &&
               bool_decide (data !! "trade_status" = Some "TRADE_SUCCESS" \/
                            data !! "trade_status" = Some "TRADE_FINISHED")
       then
         let out_trade_no := default "" (data !! "out_trade_no") in
         let trade_no := default "" (data !! "trade_no") in
         if String.eqb out_trade_no "" then d
         else _fulfill_order plans out_trade_no trade_no clk d
       else d
   | _, _ => d
   end).

(** One call of a handler of the payment router that writes to the
    database, with what it reads from outside. *)
Inductive payment_call :=
| WechatCreate (user_id plan_id out_trade_no : string) (now : Z)
| AlipayCreate (user_id plan_id out_trade_no : string) (now : Z)
| WechatNotify (wx_pay : option (option wechat_result)) (clk : fulfill_clock)
| AlipayNotify (alipay : option (gmap string string -> string -> bool))
               (form : gmap string string) (clk : fulfill_clock)
| DevMockPay (env : option string) (out_trade_no user_id : string)
             (clk : fulfill_clock).

(** The database after the call; a call that is refused leaves it as it
    is. *)
Definition payment_step (plans : gmap string plan) (c : payment_call) (d : db) : db :=
  match c with
  | WechatCreate user_id plan_id out_trade_no now =>
      default d (wechat_create plans d user_id plan_id out_trade_no now)
  | AlipayCreate user_id plan_id out_trade_no now =>
      default d (alipay_create plans d user_id plan_id out_trade_no now)
  | WechatNotify wx_pay clk => snd (wechat_notify plans wx_pay clk d)
  | AlipayNotify alipay form clk => snd (alipay_notify plans alipay form clk d)
  | DevMockPay env out_trade_no user_id clk =>
      snd (dev_mock_pay env plans out_trade_no user_id clk d)
  end.

Definition payment_run (plans : gmap string plan) (cs : list payment_call) (d : db) : db :=
  foldl (fun d c => payment_step plans c d) d cs.

(** The tokens of the paid orders of an account, by the plan table. *)
Definition paid_grants (plans : gmap string plan) (user_id : string)
    (os : list order) : Z :=
  foldr (fun o acc =>
           (if String.eqb (o_user_id o) user_id && String.eqb (o_status o) "paid"
            then Z.max 0 (from_option token_grant 0 (plans !! o_plan_id o))
            else 0) + acc) 0 os.

(** A success notification of WeChat Pay for an order. *)
Definition wechat_success (out_trade_no transaction_id : string)
  : option (option wechat_result) :=
  Some (Some {| event_type := Some "TRANSACTION.SUCCESS";
                res_out_trade_no := Some out_trade_no;
                res_transaction_id := Some transaction_id |}).

Definition bob_id : string := "65f0a1b2c3d4e5f607654321".

(** [_make_out_trade_no]; [stamp] is the result of [strftime] on the
    current time and [hex] is [uuid.uuid4().hex]. *)
Definition _make_out_trade_no (stamp hex : string) : string :=
  "PT" +:+ stamp +:+ PyStr.upper (String.substring 0 8 hex).

(** Two accounts, and one pending order of the first. *)
Definition two_customers : db :=
  {| users := <[ bob_id := alice 0 ]> {[ alice_id := member None ]};
     usage_records := [];
     orders := [ pending_order alice_id "pack-100w" "wechat" order_ref
                   {| title := "t"; amount := PyFloat.of_decimal 99 10;
                      token_grant := 1000000; days_grant := 0 |} 0 ] |}.

(** ** Further definitions: accounts ([auth.py], [account.py]) *)

(** No two accounts share an e-mail address or a user name: what the
    checks of [register] and the unique indexes of [connect_db]
    maintain. *)
Definition unique_identities (d : db) : Prop :=
  forall i j u v,
    users d !! i = Some u -> users d !! j = Some v ->
    email u = email v \/ username u = username v -> i = j.

(** [db.users.find_one({"email": mail})], with the identifier of the
    document. *)
Definition find_user_by_email (mail : string) (d : db) : option (string * user) :=
  List.find (fun iu => String.eqb (email (snd iu)) mail) (map_to_list (users d)).

(** [login]: the identifier, user name and e-mail address of the
    response, [None] for status 401. [verify_password] is the check of
    the password against the stored hash. *)
Definition login (verify_password : string -> string -> bool) (d : db)
    (mail password : string) : option (string * string * string) :=
  match find_user_by_email mail d with
  | None => None
  | Some (user_id, user) =>
      if verify_password password (password_hash user)
      then Some (user_id, username user, email user)
      else None
  end.

(** What the usage records charge to an account. *)
Definition used_by (user_id : string) (rs : list usage_record) : Z :=
  foldr (fun r acc =>
           (if String.eqb (ur_user_id r) user_id then ur_cost_tokens r else 0) + acc)
        0 rs.

(** The books of every account balance: what it has used is what its
    usage records charge, and what it holds and has used together
    ([total_ever] in [get_profile]) is the welcome grant and the grants of
    its paid orders. *)
Definition books_balance (plans : gmap string plan) (d : db) : Prop :=
  forall uid u,
    users d !! uid = Some u ->
    token_total_used u = used_by uid (usage_records d) /\
    token_balance u + token_total_used u =
      NEW_USER_WELCOME_TOKENS + paid_grants plans uid (orders d).

(** An identifier that nothing in the database refers to. *)
Definition fresh_id (new_id : string) (d : db) : Prop :=
  users d !! new_id = None /\
  Forall (fun r => ur_user_id r <> new_id) (usage_records d) /\
  Forall (fun o => o_user_id o <> new_id) (orders d).

(** [_days_left]; [now] is the reading of [datetime.utcnow()]. The days of
    a [timedelta] are the quotient rounded down. *)
Definition _days_left (expire_at : option Z) (now : Z) : Z :=
  match expire_at with
  | None => 0
  | Some e => Z.max 0 ((e - now) / days 1)
  end.

(** [replace(hour=0, minute=0, second=0, microsecond=0)] *)
Definition day_start (now : Z) : Z := now - now mod days 1.

(** The [$match] and [$group] stages of [get_quota]: the sum of
    [cost_tokens] over the records of the user created at [lo] or later
    and, with a bound [hi], before [hi]; 0 when there is none. *)
Definition sum_cost (user_id : string) (lo : Z) (hi : option Z)
    (rs : list usage_record) : Z :=
  foldr (fun r acc =>
           (if String.eqb (ur_user_id r) user_id && (lo <=? ur_created_at r) &&
               from_option (fun h => ur_created_at r <? h) true hi
            then ur_cost_tokens r else 0) + acc)
        0 rs.

(** The dashboard of [get_quota]. An entry of the trend carries the
    start of its day, which the handler prints as month and day. *)
Record QuotaDashboard := {
  total_balance : Z;
  consumed_today : Z;
  trend : list (Z * Z)
}.

(** [get_quota] for the user document [current_user] of [user_id].
    [clock 0] is the reading of the time for [today_start], and
    [clock 1] to [clock 7] the readings of the seven rounds of the loop,
    which counts [i] down from 6 to 0. *)
Definition get_quota (clock : nat -> Z) (d : db) (user_id : string)
    (current_user : user) : QuotaDashboard :=
  let today_start := day_start (clock 0%nat) in
  {| total_balance := token_balance current_user;
     consumed_today := sum_cost user_id today_start None (usage_records d);
     trend :=
       map (fun k : nat =>
              let i := 6 - Z.of_nat k in
              let start := day_start (clock (S k)) - days i in
              let day_end := start + days 1 in
              (start, sum_cost user_id start (Some day_end) (usage_records d)))
           (seq 0 7) |}.

(** ** Further definitions: the arguments passed on to the upstream *)

(** The items of the dict of a JSON object, in the order of the dict. *)
Definition dict_items (members : list (string * json)) : list (string * json) :=
  map (fun k => (k, default JNull (dict_get k members))) (dict_keys members).

(** [d.get(k)] and [d[k] = v] on the items of a dict: a key that is
    present keeps its place, a new key goes to the end. *)
Fixpoint item_get (k : string) (items : list (string * json)) : option json :=
  match items with
  | [] => None
  | (k', v) :: rest => if String.eqb k k' then Some v else item_get k rest
  end.

Fixpoint dict_set (k : string) (v : json) (items : list (string * json))
  : list (string * json) :=
  match items with
  | [] => [(k, v)]
  | (k', v') :: rest =>
      if String.eqb k k' then (k, v) :: rest else (k', v') :: dict_set k v rest
  end.

Definition is_request_key (k : string) : bool :=
  String.eqb k "model" || String.eqb k "messages" || String.eqb k "stream".

(** [passthrough_kwargs] of [chat_completions], for the members of the
    request body and the model of the request. *)
Definition passthrough_kwargs (model : string) (body : list (string * json))
  : list (string * json) :=
  let kwargs := List.filter (fun kv => negb (is_request_key (fst kv)))
                            (dict_items body) in
  if String.eqb (PyStr.lower (PyStr.strip model)) "minimax-m2.5" then
    let extra_body_payload :=
      match item_get "extra_body" kwargs with
      | Some (JObj o) => dict_items o
      | _ => []
      end in
    dict_set "extra_body"
      (JObj (dict_set "reasoning_split" (JBool true) extra_body_payload)) kwargs
  else kwargs.

(** Whether every character of the string passes the test. *)
Fixpoint all_chars (p : ascii -> bool) (s : string) : bool :=
  match s with
  | EmptyString => true
  | String c r => p c && all_chars p r
  end.

(** The printable ASCII characters, from the space to the tilde. *)
Definition printable (c : ascii) : bool :=
  let n := nat_of_ascii c in (32 <=? n)%nat && (n <=? 126)%nat.

(** ** Further definitions: chunks, names and stored times *)




(** The strings of ASCII characters: on these [PyStr.lower],
    [PyStr.upper] and [PyStr.strip] are the methods of Python's [str]. *)
Definition is_ascii (s : string) : bool :=
  all_chars (fun c => (nat_of_ascii c <? 128)%nat) s.

(** What the database gives back for a [datetime] it was given: the
    driver keeps whole milliseconds and drops the microseconds below. *)
Definition stored_datetime (t : Z) : Z := t - t mod 1000.

(** The plan table after the monthly plan was withdrawn. *)
Definition PLANS_removed : gmap string plan := delete "monthly" PLANS.

(** * Properties *)

(** ** Binary64: the float operations of the cost are defined *)

Lemma digits2_pos_size p : digits2_pos p = Pos.size p.
Proof. induction p as [p IH|p IH|]; simpl; now rewrite ?IH. Qed.

Lemma Zdigits2_log2 m : 0 < m -> Zdigits2 m = Z.log2 m + 1.
Proof.
  destruct m as [|p|p]; try lia. intros _. simpl.
  rewrite digits2_pos_size. destruct p; simpl; lia.
Qed.

Lemma Zdigits2_nonneg m : 0 <= Zdigits2 m.
Proof. destruct m; simpl; lia. Qed.

Lemma Zdigits2_mono a b : 0 <= a <= b -> Zdigits2 a <= Zdigits2 b.
Proof.
  intros [Ha Hab]. destruct (Z.eq_dec a 0) as [->|Hne].
  - apply Zdigits2_nonneg.
  - rewrite !Zdigits2_log2 by lia.
    pose proof (Z.log2_le_mono a b Hab). lia.
Qed.

Lemma Zdigits2_succ m : 0 <= m -> Zdigits2 (m + 1) <= Zdigits2 m + 1.
Proof.
  intros Hm. destruct (Z.eq_dec m 0) as [->|Hne]; [simpl; lia|].
  rewrite !Zdigits2_log2 by lia.
  pose proof (Z.log2_succ_le m) as H. rewrite <- Z.add_1_r in H. lia.
Qed.

Lemma Zdigits2_mul a b : 0 < a -> 0 < b -> Zdigits2 (a * b) <= Zdigits2 a + Zdigits2 b.
Proof.
  intros Ha Hb. rewrite !Zdigits2_log2 by lia.
  pose proof (Z.log2_mul_above a b ltac:(lia) ltac:(lia)). lia.
Qed.

Lemma Zdigits2_lt_pow2 m k : 0 < m < 2 ^ k -> 0 <= k -> Zdigits2 m <= k.
Proof.
  intros [Hm Hlt] Hk. rewrite Zdigits2_log2 by lia.
  pose proof (proj1 (Z.log2_lt_pow2 m k Hm) Hlt). lia.
Qed.

Lemma digits2_pos_iter_xO p k :
  Zpos (digits2_pos (Pos.iter xO p k)) = Zpos (digits2_pos p) + Zpos k.
Proof.
  induction k as [|k IH] using Pos.peano_ind.
  - simpl. lia.
  - rewrite Pos.iter_succ. simpl digits2_pos. lia.
Qed.

Section FloatBounds.

Let prec := PyFloat.prec.
Let emax := PyFloat.emax.

Lemma fexp_53 e : fexp prec emax e = Z.max (e - 53) (-1074).
Proof. reflexivity. Qed.

Lemma iter_pos_invariant {A} (P : A -> Prop) (f : A -> A) :
  (forall x, P x -> P (f x)) -> forall p x, P x -> P (SpecFloat.iter_pos f p x).
Proof.
  intros Hf. induction p as [p IH|p IH|]; intros x Hx; simpl; auto.
Qed.

Lemma shr_1_bounds b mrs :
  0 <= shr_m mrs <= b -> 0 <= shr_m (shr_1 mrs) <= b.
Proof.
  destruct mrs as [m r s]. simpl.
  destruct m as [|[p|p|]|[p|p|]]; simpl; lia.
Qed.

Lemma shr_bounds mrs e n :
  0 <= shr_m mrs ->
  0 <= shr_m (fst (shr mrs e n)) <= shr_m mrs /\
  snd (shr mrs e n) = e + Z.max 0 n.
Proof.
  intros Hm. destruct n as [|p|p]; simpl; try (split; lia).
  split; [|lia].
  apply (iter_pos_invariant (fun x => 0 <= shr_m x <= shr_m mrs)).
  - intros x. apply shr_1_bounds.
  - lia.
Qed.

Lemma shr_fexp_bounds m e l :
  0 <= m ->
  0 <= shr_m (fst (shr_fexp prec emax m e l)) <= m /\
  snd (shr_fexp prec emax m e l) = Z.max e (fexp prec emax (Zdigits2 m + e)).
Proof.
  intros Hm. unfold shr_fexp.
  assert (Hrec : shr_m (shr_record_of_loc m l) = m) by (destruct l as [|[]]; reflexivity).
  destruct (shr_bounds (shr_record_of_loc m l) e
              (fexp prec emax (Zdigits2 m + e) - e)) as [Hb He]; [lia|].
  rewrite Hrec in Hb. split; [exact Hb|]. rewrite He. lia.
Qed.

Lemma round_nearest_even_bounds m l :
  m <= round_nearest_even m l <= m + 1.
Proof. destruct l as [|[]]; simpl; try lia. destruct (Z.even m); lia. Qed.

(** Rounding a positive mantissa of at most [D] digits with an exponent
    of at most [B] gives a zero or a finite number, never an infinity or
    a NaN, when the bounds [E1] and [E] computed from [D] and [B] stay
    below the largest exponent. *)
Lemma binary_round_aux_finite D B E1 E s mx ex lx :
  0 < mx -> Zdigits2 mx <= D -> ex <= B ->
  Z.max B (Z.max (D + B - 53) (-1074)) <= E1 ->
  Z.max E1 (Z.max (D - 52 + E1) (-1074)) <= E ->
  E <= 971 ->
  match binary_round_aux prec emax s mx ex lx with
  | S754_zero _ => True
  | S754_finite _ m e => Zdigits2 (Zpos m) <= D + 1 /\ e <= E
  | _ => False
  end.
Proof.
  intros Hpos Hd He HE1 HE Hmax. unfold binary_round_aux.
  destruct (shr_fexp_bounds mx ex lx ltac:(lia)) as [Hm1 He1].
  destruct (shr_fexp prec emax mx ex lx) as [mrs1 e1]. simpl in Hm1, He1.
  pose proof (round_nearest_even_bounds (shr_m mrs1) (loc_of_shr_record mrs1)) as Hr.
  set (mr := round_nearest_even (shr_m mrs1) (loc_of_shr_record mrs1)) in *.
  destruct (shr_fexp_bounds mr e1 loc_Exact ltac:(lia)) as [Hm2 He2].
  destruct (shr_fexp prec emax mr e1 loc_Exact) as [mrs2 e2]. simpl in Hm2, He2.
  assert (Hdr : Zdigits2 mr <= D + 1).
  { transitivity (Zdigits2 (mx + 1)).
    - apply Zdigits2_mono. lia.
    - pose proof (Zdigits2_succ mx ltac:(lia)). lia. }
  rewrite !fexp_53 in *.
  pose proof (Zdigits2_nonneg mx). pose proof (Zdigits2_nonneg mr).
  destruct (shr_m mrs2) as [|m|m] eqn:Em; [exact I| |lia].
  assert (He2' : e2 <= E) by lia.
  destruct (Z.leb_spec e2 (emax - prec)) as [_|Hbad].
  - split; [|exact He2'].
    transitivity (Zdigits2 mr); [|exact Hdr].
    apply Zdigits2_mono. lia.
  - unfold emax, prec, PyFloat.emax, PyFloat.prec in Hbad. lia.
Qed.

Lemma shl_align_bounds p :
  Zpos (digits2_pos p) <= 53 ->
  let '(mz, ez) := shl_align p 0 (fexp prec emax (Zpos (digits2_pos p) + 0)) in
  Zdigits2 (Zpos mz) <= 53 /\ ez <= 0.
Proof.
  intros Hd. rewrite fexp_53. unfold shl_align.
  destruct (Z.max (Zpos (digits2_pos p) + 0 - 53) (-1074) - 0) as [|k|k] eqn:Ek;
    simpl Zdigits2; try lia.
  rewrite digits2_pos_iter_xO. lia.
Qed.

(** [float(n)] is defined for every integer below [2^53], and is a zero
    or a positive finite number with a short mantissa. *)
Lemma of_int_finite n :
  0 <= n < 2 ^ 53 ->
  exists f, PyFloat.of_int n = Some f /\
    (f = S754_zero false \/
     exists m e, f = S754_finite false m e /\
                 Zdigits2 (Zpos m) <= 54 /\ e <= 1).
Proof.
  intros [Hn Hlt]. unfold PyFloat.of_int, binary_normalize.
  destruct n as [|p|p]; [eauto | | lia].
  unfold binary_round.
  assert (Hd : Zpos (digits2_pos p) <= 53).
  { apply (Zdigits2_lt_pow2 (Zpos p) 53); lia. }
  pose proof (shl_align_bounds p Hd) as Hs.
  fold prec emax.
  destruct (shl_align p 0 _) as [mz ez]. destruct Hs as [Hmz Hez].
  pose proof (binary_round_aux_finite 53 0 0 1 false (Zpos mz) ez loc_Exact
                ltac:(lia) Hmz Hez ltac:(lia) ltac:(lia) ltac:(lia)) as Hr.
  destruct (binary_round_aux prec emax false (Zpos mz) ez loc_Exact)
    as [s|s| |s m e] eqn:Er; try contradiction.
  - unfold binary_round_aux in Er.
    destruct (shr_fexp _ _ _ _ _) as [a b] in Er.
    destruct (shr_fexp _ _ _ _ _) as [a' b'] in Er.
    destruct (shr_m a'); [injection Er as <-; eauto | | discriminate].
    destruct (b' <=? _); discriminate.
  - unfold binary_round_aux in Er.
    destruct (shr_fexp _ _ _ _ _) as [a b] in Er.
    destruct (shr_fexp _ _ _ _ _) as [a' b'] in Er.
    destruct (shr_m a'); [discriminate | | discriminate].
    destruct (b' <=? _); [injection Er as <- <- <- | discriminate].
    eexists. split; [reflexivity|]. right. eauto.
Qed.

End FloatBounds.

(** ** Binary64: the product of a token count and a multiplier, truncated

    For a count below [2^49] and each of the five multipliers of the cost
    table, the integer part of the float product is the integer part of
    the exact decimal product. *)

(** The binary iteration of [spec_float] is the unary one. *)
Lemma iter_pos_nat {A} (f : A -> A) p x :
  SpecFloat.iter_pos f p x = Nat.iter (Pos.to_nat p) f x.
Proof.
  revert x. induction p as [p IH|p IH|]; intros x; simpl SpecFloat.iter_pos.
  - rewrite !IH, Pos2Nat.inj_xI.
    replace (S (2 * Pos.to_nat p))%nat with (Pos.to_nat p + (Pos.to_nat p + 1))%nat by lia.
    rewrite !Nat.iter_add. reflexivity.
  - rewrite !IH, Pos2Nat.inj_xO.
    replace (2 * Pos.to_nat p)%nat with (Pos.to_nat p + Pos.to_nat p)%nat by lia.
    rewrite Nat.iter_add. reflexivity.
  - reflexivity.
Qed.

(** One step of the shift: the mantissa is halved, its lowest bit
    becomes the round bit, and the sticky bit collects what was shifted
    out before. *)
Lemma shr_1_parts m r s :
  0 <= m ->
  shr_1 (Build_shr_record m r s) = Build_shr_record (m / 2) (Z.odd m) (r || s).
Proof.
  intros Hm.
  assert (H1 : forall p, Z.pos p~1 / 2 = Z.pos p).
  { intros p. symmetry. apply (Z.div_unique _ _ _ 1); lia. }
  assert (H0 : forall p, Z.pos p~0 / 2 = Z.pos p).
  { intros p. symmetry. apply (Z.div_unique _ _ _ 0); lia. }
  destruct m as [|[p|p|]|p]; try lia.
  - reflexivity.
  - simpl shr_1. now rewrite H1.
  - simpl shr_1. now rewrite H0.
  - reflexivity.
Qed.

Lemma shr_inv_first M :
  0 <= M ->
  shr_inv M 1 (shr_1 (Build_shr_record M false false)) /\
  0 <= shr_m (shr_1 (Build_shr_record M false false)).
Proof.
  intros HM. rewrite shr_1_parts by assumption. simpl. split.
  - exists 0. simpl. split; [lia|]. split.
    + pose proof (Z.div_mod M 2 ltac:(lia)) as Hd.
      rewrite Zmod_odd in Hd. destruct (Z.odd M); lia.
    + split; [discriminate | lia].
  - apply Z.div_pos; lia.
Qed.

Lemma shr_inv_step M P mrs :
  0 < P -> 0 <= shr_m mrs -> shr_inv M P mrs ->
  shr_inv M (2 * P) (shr_1 mrs) /\ 0 <= shr_m (shr_1 mrs).
Proof.
  intros HP Hm (t & Ht & HM & Hs).
  destruct mrs as [m r s]. cbn [shr_m shr_r shr_s] in *.
  rewrite shr_1_parts by assumption. cbn [shr_m shr_r shr_s]. split.
  - exists ((if r then P else 0) + t). split; [destruct r; lia|]. split.
    + pose proof (Z.div_mod m 2 ltac:(lia)) as Hd.
      rewrite Zmod_odd in Hd. remember (m / 2) as q eqn:Eq. clear Eq.
      destruct (Z.odd m); destruct r; subst M m; cbn [shr_m shr_r shr_s]; ring.
    + cbn [shr_s]. destruct r; simpl.
      * split; [lia | reflexivity].
      * exact Hs.
  - apply Z.div_pos; lia.
Qed.

(** After [n + 1] steps the shifted mantissa, the round bit and the sticky
    bit describe [M] up to [2^(n+1)]. *)
Lemma shr_inv_iter M n :
  0 <= M ->
  let mrs := Nat.iter (S n) shr_1 (Build_shr_record M false false) in
  shr_inv M (2 ^ Z.of_nat n) mrs /\ 0 <= shr_m mrs.
Proof.
  intros HM. induction n as [|n IH].
  - simpl. apply shr_inv_first. assumption.
  - destruct IH as [Hi Hm].
    rewrite Nat2Z.inj_succ, Z.pow_succ_r by lia.
    change (Nat.iter (S (S n)) shr_1 (Build_shr_record M false false))
      with (shr_1 (Nat.iter (S n) shr_1 (Build_shr_record M false false))).
    apply shr_inv_step; try assumption.
    apply Z.pow_pos_nonneg; lia.
Qed.

(** Rounding to nearest, ties to even, moves the mantissa by at most half a
    unit of the last kept bit. *)
Lemma round_nearest_even_inv M P mrs :
  0 < P -> shr_inv M P mrs ->
  let mr := round_nearest_even (shr_m mrs) (loc_of_shr_record mrs) in
  - P <= M - 2 * P * mr <= P /\ shr_m mrs <= mr <= shr_m mrs + 1.
Proof.
  intros HP (t & Ht & HM & Hs). destruct mrs as [m r s]. simpl in *.
  destruct r, s; simpl.
  - split; [|lia]. destruct Hs as [Hs _]. specialize (Hs eq_refl). nia.
  - assert (t = 0).
    { destruct (Z.eq_dec t 0); [assumption|].
      destruct Hs as [_ Hs]. discriminate Hs. lia. }
    subst t. destruct (Z.even m); split; nia || lia.
  - split; [nia | lia].
  - split; [nia | lia].
Qed.

(** The number of binary digits of a positive integer. *)
Lemma Zdigits2_spec M : 0 < M -> 2 ^ (Zdigits2 M - 1) <= M < 2 ^ Zdigits2 M.
Proof.
  intros HM. rewrite Zdigits2_log2 by assumption.
  replace (Z.log2 M + 1 - 1) with (Z.log2 M) by lia.
  pose proof (Z.log2_spec M HM) as H. rewrite <- Z.add_1_r in H. exact H.
Qed.

Lemma Zdigits2_unique M d : 2 ^ (d - 1) <= M < 2 ^ d -> 0 < d -> Zdigits2 M = d.
Proof.
  intros [Hlo Hhi] Hd.
  assert (HM : 0 < M).
  { pose proof (Z.pow_pos_nonneg 2 (d - 1) ltac:(lia) ltac:(lia)). lia. }
  rewrite Zdigits2_log2 by assumption.
  rewrite (Z.log2_unique M (d - 1)); [lia | lia |].
  replace (Z.succ (d - 1)) with d by lia. lia.
Qed.

Lemma to_int_finite m e :
  e <= 0 ->
  PyFloat.to_int (S754_finite false m e) = Some (Zpos m / 2 ^ (- e)).
Proof.
  intros He. unfold PyFloat.to_int. destruct e as [|p|p]; try lia.
  - simpl. now rewrite Z.div_1_r.
  - rewrite Z.shiftr_div_pow2 by lia. reflexivity.
Qed.

(** The integer part of a rounded positive number whose mantissa [M] has
    more than 53 digits: some [mr] within half a unit of [M / 2^k], the
    [k] being the number of digits dropped, divided by the power of two
    of the final exponent. A carry to [2^53] changes the representation,
    not the value. *)
Lemma to_int_round M ex :
  0 < M ->
  1 <= Zdigits2 M - 53 ->
  -1074 <= ex + (Zdigits2 M - 53) <= 0 ->
  exists mr,
    - 2 ^ (Zdigits2 M - 54) <= M - 2 * 2 ^ (Zdigits2 M - 54) * mr
      <= 2 ^ (Zdigits2 M - 54) /\
    PyFloat.to_int
      (binary_round_aux PyFloat.prec PyFloat.emax false M ex loc_Exact)
    = Some (mr / 2 ^ (- (ex + (Zdigits2 M - 53)))).
Proof.
  intros HM Hk He.
  pose proof (Zdigits2_spec M HM) as HD.
  remember (Zdigits2 M) as D eqn:ED.
  unfold binary_round_aux, shr_fexp. rewrite <- ED.
  rewrite fexp_53.
  replace (Z.max (D + ex - 53) (-1074) - ex) with (D - 53) by lia.
  destruct (D - 53) as [|p|p] eqn:Ek; try lia.
  unfold shr at 1. cbn [shr_record_of_loc].
  rewrite iter_pos_nat.
  destruct (Pos2Nat.is_succ p) as [n Hn]. rewrite Hn.
  destruct (shr_inv_iter M n ltac:(lia)) as [Hinv Hm].
  assert (HP : 2 ^ Z.of_nat n = 2 ^ (D - 54)).
  { f_equal. lia. }
  rewrite HP in Hinv.
  set (mrs := Nat.iter (S n) shr_1 (Build_shr_record M false false)) in *.
  assert (Hpos : 0 < 2 ^ (D - 54)) by (apply Z.pow_pos_nonneg; lia).
  destruct (round_nearest_even_inv M (2 ^ (D - 54)) mrs Hpos Hinv) as [Hr Hmr].
  set (mr := round_nearest_even (shr_m mrs) (loc_of_shr_record mrs)) in *.
  exists mr. split; [exact Hr|].
  (* the mantissa has 53 digits, or is 2^53 after a carry *)
  assert (Hrange : 2 ^ 52 <= mr <= 2 ^ 53).
  { destruct Hinv as (t & Ht & HMeq & _).
    assert (H2 : 2 ^ (D - 1) = 2 ^ 52 * (2 * 2 ^ (D - 54))).
    { rewrite <- Z.pow_succ_r, <- Z.pow_add_r by lia. f_equal. lia. }
    assert (H3 : 2 ^ D = 2 ^ 53 * (2 * 2 ^ (D - 54))).
    { rewrite <- Z.pow_succ_r, <- Z.pow_add_r by lia. f_equal. lia. }
    rewrite H2, H3 in HD.
    assert (2 ^ 52 <= shr_m mrs < 2 ^ 53); [|lia].
    destruct (shr_r mrs); nia. }
  cbv beta iota. fold mrs. fold mr.
  rewrite fexp_53.
  set (e1 := ex + Z.pos p) in *.
  destruct (Z.eq_dec mr (2 ^ 53)) as [Hc|Hc].
  - (* carry: the mantissa becomes 2^52 and the exponent grows by one *)
    rewrite Hc.
    replace (Zdigits2 (2 ^ 53)) with 54 by reflexivity.
    replace (Z.max (54 + e1 - 53) (-1074) - e1) with 1 by lia.
    change (shr (Build_shr_record (2 ^ 53) false false) e1 1)
      with (Build_shr_record (2 ^ 52) false false, e1 + 1).
    cbn [shr_m]. change (2 ^ 52) with (Z.pos (2 ^ 52)).
    destruct (Z.leb_spec (e1 + 1) (PyFloat.emax - PyFloat.prec)) as [_|Hbad];
      [|unfold PyFloat.emax, PyFloat.prec in Hbad; lia].
    destruct (Z.eq_dec e1 0) as [->|Hne].
    + reflexivity.
    + rewrite to_int_finite by lia. f_equal.
      replace (- e1) with (Z.succ (- (e1 + 1))) by lia.
      rewrite Z.pow_succ_r by lia.
      change (2 ^ 53) with (2 * Z.pos (2 ^ 52)).
      rewrite Z.div_mul_cancel_l; [reflexivity | | lia].
      apply Z.pow_nonzero; lia.
  - assert (Hd : Zdigits2 mr = 53) by (apply Zdigits2_unique; simpl; lia).
    rewrite Hd.
    replace (Z.max (53 + e1 - 53) (-1074) - e1) with 0 by lia.
    unfold shr. cbn [shr_m].
    destruct mr as [|m|m] eqn:Em; try lia.
    destruct (Z.leb_spec e1 (PyFloat.emax - PyFloat.prec)) as [_|Hbad];
      [|unfold PyFloat.emax, PyFloat.prec in Hbad; lia].
    now rewrite to_int_finite by lia.
Qed.

Lemma Zpos_iter_xO p k : Zpos (Pos.iter xO p k) = Zpos p * 2 ^ Zpos k.
Proof.
  induction k as [|k IH] using Pos.peano_ind.
  - simpl. lia.
  - rewrite Pos.iter_succ, Pos2Z.inj_xO, IH, Pos2Z.inj_succ, Z.pow_succ_r by lia.
    ring.
Qed.

(** A mantissa of exactly 53 digits is left as it is. *)
Lemma binary_round_aux_canonical s m e :
  Zdigits2 (Zpos m) = 53 -> -1074 <= e <= 971 ->
  binary_round_aux PyFloat.prec PyFloat.emax s (Zpos m) e loc_Exact
  = S754_finite s m e.
Proof.
  intros Hd He. unfold binary_round_aux, shr_fexp.
  rewrite Hd, fexp_53.
  replace (Z.max (53 + e - 53) (-1074) - e) with 0 by lia.
  unfold shr. cbn [shr_record_of_loc shr_m loc_of_shr_record round_nearest_even].
  rewrite Hd, fexp_53.
  replace (Z.max (53 + e - 53) (-1074) - e) with 0 by lia.
  cbn [shr_m].
  destruct (Z.leb_spec e (PyFloat.emax - PyFloat.prec)) as [_|Hbad];
    [reflexivity | unfold PyFloat.emax, PyFloat.prec in Hbad; lia].
Qed.

(** [float(n)] is exact below [2^53]: the mantissa is [n] shifted to 53
    digits. *)
Lemma of_int_exact n :
  0 < n < 2 ^ 53 ->
  exists mz,
    PyFloat.of_int n = Some (S754_finite false mz (Zdigits2 n - 53)) /\
    Zpos mz = n * 2 ^ (53 - Zdigits2 n) /\
    Zdigits2 (Zpos mz) = 53.
Proof.
  intros [Hn Hlt]. destruct n as [|p|p]; try lia.
  pose proof (Zdigits2_spec (Zpos p) ltac:(lia)) as HD.
  assert (Hd : 1 <= Zdigits2 (Zpos p) <= 53).
  { split.
    - simpl. lia.
    - apply Zdigits2_lt_pow2; lia. }
  unfold PyFloat.of_int, binary_normalize, binary_round.
  rewrite fexp_53. change (Zpos (digits2_pos p)) with (Zdigits2 (Zpos p)).
  remember (Zdigits2 (Zpos p)) as d eqn:Ed.
  replace (Z.max (d + 0 - 53) (-1074)) with (d - 53) by lia.
  unfold shl_align.
  assert (Hmz : forall mz, Zpos mz = Zpos p * 2 ^ (53 - d) ->
                Zdigits2 (Zpos mz) = 53).
  { intros mz Hmz. apply Zdigits2_unique; [|lia]. rewrite Hmz.
    assert (H1 : 2 ^ (53 - 1) = 2 ^ (d - 1) * 2 ^ (53 - d)).
    { rewrite <- Z.pow_add_r by lia. f_equal. lia. }
    assert (H2 : 2 ^ 53 = 2 ^ d * 2 ^ (53 - d)).
    { rewrite <- Z.pow_add_r by lia. f_equal. lia. }
    rewrite H1, H2.
    assert (0 < 2 ^ (53 - d)) by (apply Z.pow_pos_nonneg; lia).
    nia. }
  destruct (d - 53 - 0) as [|k|k] eqn:Ek; try lia.
  - assert (Hp : Zpos p = Zpos p * 2 ^ (53 - d)).
    { replace (53 - d) with 0 by lia. simpl. lia. }
    rewrite binary_round_aux_canonical by (try apply Hmz; try exact Hp; lia).
    exists p. replace (d - 53) with 0 by lia. auto using Hmz.
  - assert (Hk : Zpos k = 53 - d) by lia.
    assert (Hp : Zpos (Pos.iter xO p k) = Zpos p * 2 ^ (53 - d)).
    { rewrite Zpos_iter_xO, Hk. reflexivity. }
    rewrite binary_round_aux_canonical by (try apply Hmz; try exact Hp; lia).
    exists (Pos.iter xO p k). replace (d - 53) with (Z.neg k) by lia.
    auto using Hmz.
Qed.

(** The product of [float(n)] and a multiplier [m2 * 2^e2], truncated: the
    quantities of [to_int_round], with the powers of two named [A], [P]
    and [J]. *)
Lemma mul_to_int n m2 e2 :
  0 < n < 2 ^ 49 ->
  Zdigits2 (Zpos m2) = 53 -> -53 <= e2 <= -51 ->
  exists f A P J mr,
    PyFloat.of_int n = Some f /\
    0 < A /\ 0 < P /\ 0 < J /\
    2 ^ 53 * P <= n * A * Zpos m2 < 2 ^ 54 * P /\
    2 * P * J = A * 2 ^ (- e2) /\
    - P <= n * A * Zpos m2 - 2 * P * mr <= P /\
    PyFloat.to_int (PyFloat.mul f (S754_finite false m2 e2)) = Some (mr / J).
Proof.
  intros Hn Hm2 He2.
  destruct (of_int_exact n ltac:(lia)) as (mz & Hf & Hmz & Hdz).
  pose proof (Zdigits2_spec n ltac:(lia)) as Hdn.
  assert (Hd : 1 <= Zdigits2 n <= 49).
  { split.
    - pose proof (Zdigits2_mono 1 n ltac:(lia)) as H. simpl in H. lia.
    - apply Zdigits2_lt_pow2; lia. }
  remember (Zdigits2 n) as d eqn:Ed.
  set (M := Zpos (mz * m2)).
  assert (HM : M = n * 2 ^ (53 - d) * Zpos m2).
  { unfold M. rewrite Pos2Z.inj_mul, Hmz. reflexivity. }
  pose proof (Zdigits2_spec (Zpos mz) ltac:(lia)) as Hsz.
  pose proof (Zdigits2_spec (Zpos m2) ltac:(lia)) as Hs2.
  rewrite Hdz in Hsz. rewrite Hm2 in Hs2.
  assert (HMr : 2 ^ 104 <= M < 2 ^ 106).
  { unfold M. rewrite Pos2Z.inj_mul.
    change (2 ^ 104) with (2 ^ 52 * 2 ^ 52).
    change (2 ^ 106) with (2 ^ 53 * 2 ^ 53).
    change (2 ^ (53 - 1)) with (2 ^ 52) in *. nia. }
  pose proof (Zdigits2_spec M ltac:(lia)) as HD.
  assert (HDr : 105 <= Zdigits2 M <= 106).
  { split.
    - pose proof (Zdigits2_mono (2 ^ 104) M ltac:(lia)) as H.
      change (Zdigits2 (2 ^ 104)) with 105 in H. exact H.
    - apply Zdigits2_lt_pow2; lia. }
  remember (Zdigits2 M) as D eqn:ED.
  destruct (to_int_round M (d - 53 + e2) ltac:(lia) ltac:(lia) ltac:(lia))
    as (mr & Hmr & Hint).
  rewrite <- ED in Hmr, Hint.
  exists (S754_finite false mz (d - 53)), (2 ^ (53 - d)), (2 ^ (D - 54)),
         (2 ^ (- (d - 53 + e2 + (D - 53)))), mr.
  split; [exact Hf|].
  split; [apply Z.pow_pos_nonneg; lia|].
  split; [apply Z.pow_pos_nonneg; lia|].
  split; [apply Z.pow_pos_nonneg; lia|].
  rewrite <- HM.
  split.
  { replace (2 ^ 53 * 2 ^ (D - 54)) with (2 ^ (D - 1))
      by (rewrite <- Z.pow_add_r by lia; f_equal; lia).
    replace (2 ^ 54 * 2 ^ (D - 54)) with (2 ^ D)
      by (rewrite <- Z.pow_add_r by lia; f_equal; lia).
    exact HD. }
  split.
  { rewrite <- Z.pow_succ_r, <- !Z.pow_add_r by lia. f_equal. lia. }
  split; [exact Hmr|].
  exact Hint.
Qed.

(** From the rounded mantissa to the quotient: when the exact product lies
    between [q] and [q + 1] by more than half a unit of the last bit, so
    does the rounded one. *)
Lemma quotient_from_bounds A P J E M mr q :
  0 < P -> 0 < J ->
  2 * P * J = A * E ->
  - P <= M - 2 * P * mr <= P ->
  q * A * E < M + P ->
  M + P < q * A * E + A * E ->
  mr / J = q.
Proof.
  intros HP HJ HPJ Hmr K1 K2.
  assert (Hq : q * A * E = 2 * P * (q * J)).
  { rewrite <- Z.mul_assoc, <- HPJ. ring. }
  rewrite Hq in K1, K2. rewrite <- HPJ in K2.
  assert (Hlo : q * J <= mr).
  { assert (0 < 2 * P * (mr - q * J + 1)) by lia.
    assert (0 < mr - q * J + 1); [|lia].
    apply (Z.mul_pos_cancel_l (2 * P)); lia. }
  assert (Hhi : mr < (q + 1) * J).
  { assert (0 < 2 * P * ((q + 1) * J - mr)) by lia.
    assert (0 < (q + 1) * J - mr); [|lia].
    apply (Z.mul_pos_cancel_l (2 * P)); lia. }
  symmetry. apply (Z.div_unique_pos mr J q (mr - q * J)); lia.
Qed.

(** For a multiplier [m2 * 2^e2] close to [t / 10], the two bounds of
    [quotient_from_bounds] are linear in [n * A], [q * A], [A] and [P]
    once the remainder of [n * t] by 10 is fixed. *)
Ltac truncated_product n t m2 e2 :=
  let f := fresh "f" in let A := fresh "A" in let P := fresh "P" in
  let J := fresh "J" in let mr := fresh "mr" in
  let Hf := fresh "Hf" in let HA := fresh "HA" in let HP := fresh "HP" in
  let HJ := fresh "HJ" in let HM := fresh "HM" in let HPJ := fresh "HPJ" in
  let Hmr := fresh "Hmr" in let Hint := fresh "Hint" in
  destruct (mul_to_int n m2 e2) as
    (f & A & P & J & mr & Hf & HA & HP & HJ & HM & HPJ & Hmr & Hint);
  [ lia | reflexivity | lia | ];
  exists f; split; [exact Hf|]; rewrite Hint; f_equal;
  apply (quotient_from_bounds A P J (2 ^ (- e2)) (n * A * Zpos m2) mr
           (n * t / 10) HP HJ HPJ Hmr);
  pose proof (Z.div_mod (n * t) 10 ltac:(lia)) as Hdiv;
  pose proof (Z.mod_pos_bound (n * t) 10 ltac:(lia)) as Hmod;
  remember (n * t / 10) as q eqn:Eq; remember ((n * t) mod 10) as r eqn:Er;
  clear Eq Er;
  assert (Hu : t * (n * A) = 10 * (q * A) + r * A) by nia;
  assert (HuA : A <= n * A < 2 ^ 49 * A) by nia;
  remember (n * A) as u eqn:Eu; remember (q * A) as v eqn:Ev;
  clear Eu Ev;
  assert (Hr : r = 0 \/ r = 1 \/ r = 2 \/ r = 3 \/ r = 4 \/
               r = 5 \/ r = 6 \/ r = 7 \/ r = 8 \/ r = 9) by lia;
  simpl Z.pow in *;
  repeat (destruct Hr as [Hr|Hr]; [subst r; lia|]); subst r; lia.

(** The five multipliers: 2.0, 1.0, 1.5, 1.2 and 0.8. *)
Lemma trunc_20 n :
  0 < n < 2 ^ 49 ->
  exists f, PyFloat.of_int n = Some f /\
    PyFloat.to_int (PyFloat.mul f (S754_finite false 4503599627370496 (-51)))
    = Some (n * 20 / 10).
Proof. intros Hn. truncated_product n 20 4503599627370496%positive (-51). Qed.

Lemma trunc_10 n :
  0 < n < 2 ^ 49 ->
  exists f, PyFloat.of_int n = Some f /\
    PyFloat.to_int (PyFloat.mul f (S754_finite false 4503599627370496 (-52)))
    = Some (n * 10 / 10).
Proof. intros Hn. truncated_product n 10 4503599627370496%positive (-52). Qed.

Lemma trunc_15 n :
  0 < n < 2 ^ 49 ->
  exists f, PyFloat.of_int n = Some f /\
    PyFloat.to_int (PyFloat.mul f (S754_finite false 6755399441055744 (-52)))
    = Some (n * 15 / 10).
Proof. intros Hn. truncated_product n 15 6755399441055744%positive (-52). Qed.

Lemma trunc_12 n :
  0 < n < 2 ^ 49 ->
  exists f, PyFloat.of_int n = Some f /\
    PyFloat.to_int (PyFloat.mul f (S754_finite false 5404319552844595 (-52)))
    = Some (n * 12 / 10).
Proof. intros Hn. truncated_product n 12 5404319552844595%positive (-52). Qed.

Lemma trunc_8 n :
  0 < n < 2 ^ 49 ->
  exists f, PyFloat.of_int n = Some f /\
    PyFloat.to_int (PyFloat.mul f (S754_finite false 7205759403792794 (-53)))
    = Some (n * 8 / 10).
Proof. intros Hn. truncated_product n 8 7205759403792794%positive (-53). Qed.

(** ** Strings and the cost table *)

Lemma lower_upper_char c : PyStr.lower_char (PyStr.upper_char c) = PyStr.lower_char c.
Proof. destruct c as [[] [] [] [] [] [] [] []]; reflexivity. Qed.

Lemma isspace_lower_char c : PyStr.isspace (PyStr.lower_char c) = PyStr.isspace c.
Proof. destruct c as [[] [] [] [] [] [] [] []]; reflexivity. Qed.

Lemma lower_upper s : PyStr.lower (PyStr.upper s) = PyStr.lower s.
Proof.
  induction s as [|c r IH]; simpl; [reflexivity|].
  unfold PyStr.lower, PyStr.upper in *. simpl.
  now rewrite lower_upper_char, IH.
Qed.

Lemma lower_lstrip s : PyStr.lower (PyStr.lstrip s) = PyStr.lstrip (PyStr.lower s).
Proof.
  induction s as [|c r IH]; [reflexivity|].
  change (PyStr.lower (String c r))
    with (String (PyStr.lower_char c) (PyStr.lower r)).
  simpl. rewrite isspace_lower_char.
  destruct (PyStr.isspace c); [exact IH | reflexivity].
Qed.

Lemma lower_rstrip s : PyStr.lower (PyStr.rstrip s) = PyStr.rstrip (PyStr.lower s).
Proof.
  induction s as [|c r IH]; [reflexivity|].
  change (PyStr.lower (String c r))
    with (String (PyStr.lower_char c) (PyStr.lower r)).
  simpl. rewrite <- IH, isspace_lower_char.
  destruct (PyStr.rstrip r) as [|c' r']; simpl.
  - destruct (PyStr.isspace c); reflexivity.
  - reflexivity.
Qed.

Lemma lower_strip s : PyStr.lower (PyStr.strip s) = PyStr.strip (PyStr.lower s).
Proof. unfold PyStr.strip. now rewrite lower_rstrip, lower_lstrip. Qed.

(** The multiplier depends on the model name up to the case of its
    letters. *)
Lemma cost_multiplier_case_insensitive m m' :
  PyStr.lower m = PyStr.lower m' ->
  _get_cost_multiplier m = _get_cost_multiplier m'.
Proof.
  intros H. unfold _get_cost_multiplier.
  now rewrite !lower_strip, H.
Qed.

Corollary cost_multiplier_upper m :
  _get_cost_multiplier (PyStr.upper m) = _get_cost_multiplier m.
Proof. apply cost_multiplier_case_insensitive, lower_upper. Qed.

Lemma cost_multiplier_default m :
  TOKEN_COST_MULTIPLIER !! PyStr.lower (PyStr.strip m) = None ->
  _get_cost_multiplier m = PyFloat.of_decimal 10 10.
Proof. intros H. unfold _get_cost_multiplier. now rewrite H. Qed.

(** Every multiplier is a positive finite float with a mantissa of 53
    digits and a negative exponent. *)
Lemma cost_multiplier_finite model :
  exists m e, _get_cost_multiplier model = S754_finite false m e /\
              Zdigits2 (Zpos m) <= 53 /\ e <= 0.
Proof.
  unfold _get_cost_multiplier.
  destruct (TOKEN_COST_MULTIPLIER !! _) as [x|] eqn:E; simpl.
  - apply elem_of_list_to_map_2 in E.
    repeat (apply elem_of_cons in E as [E|E];
            [injection E as _ ->; do 2 eexists;
             split; [vm_compute; reflexivity | split; vm_compute; discriminate]|]).
    now apply elem_of_nil in E.
  - do 2 eexists.
    split; [vm_compute; reflexivity | split; vm_compute; discriminate].
Qed.

(** The cost is defined for every total below [2^53]: neither the
    conversion of the total nor the product overflows. *)
Lemma debit_cost_defined model total :
  0 <= total < 2 ^ 53 ->
  exists f k,
    PyFloat.of_int total = Some f /\
    PyFloat.to_int (PyFloat.mul f (_get_cost_multiplier model)) = Some k /\
    debit_cost model total = Some (Z.max 1 k).
Proof.
  intros Hrange.
  assert (Hk : exists f k,
             PyFloat.of_int total = Some f /\
             PyFloat.to_int (PyFloat.mul f (_get_cost_multiplier model)) = Some k).
  { destruct (of_int_finite total Hrange)
      as (f & Hf & [->|(m & e & -> & Hm & He)]);
      destruct (cost_multiplier_finite model) as (m2 & e2 & -> & Hm2 & He2).
    - exists (S754_zero false), 0. auto.
    - exists (S754_finite false m e).
      assert (Hd : Zdigits2 (Zpos (m * m2)) <= 107).
      { rewrite Pos2Z.inj_mul.
        pose proof (Zdigits2_mul (Zpos m) (Zpos m2) ltac:(lia) ltac:(lia)). lia. }
      pose proof (binary_round_aux_finite 107 1 55 110 (xorb false false)
                    (Zpos (m * m2)) (e + e2) loc_Exact
                    ltac:(lia) Hd ltac:(lia) ltac:(lia) ltac:(lia) ltac:(lia)) as Hr.
      unfold PyFloat.mul, SFmul.
      destruct (binary_round_aux PyFloat.prec PyFloat.emax (xorb false false)
                  (Zpos (m * m2)) (e + e2) loc_Exact) as [s|s| |s m' e'];
        try contradiction; eexists; (split; [exact Hf | reflexivity]). }
  destruct Hk as (f & k & Hf & Hk). exists f, k.
  split; [exact Hf|]. split; [exact Hk|].
  unfold debit_cost. rewrite Hf. simpl. rewrite Hk. reflexivity.
Qed.

(** No tokens cost one token, whatever the model. *)
Lemma debit_cost_zero model : debit_cost model 0 = Some 1.
Proof.
  unfold debit_cost.
  destruct (cost_multiplier_finite model) as (m & e & -> & _).
  reflexivity.
Qed.

(** Every multiplier is a decimal with one digit after the point. *)
Lemma cost_multiplier_decimal model :
  exists t, In t [8; 10; 12; 15; 20] /\
            _get_cost_multiplier model = PyFloat.of_decimal t 10.
Proof.
  unfold _get_cost_multiplier.
  destruct (TOKEN_COST_MULTIPLIER !! _) as [x|] eqn:E; simpl.
  - apply elem_of_list_to_map_2 in E.
    repeat (apply elem_of_cons in E as [E|E];
            [injection E as _ ->; eexists; split; [|reflexivity];
             simpl; tauto|]).
    now apply elem_of_nil in E.
  - exists 10. simpl. tauto.
Qed.

Lemma truncated_decimal_product t n :
  In t [8; 10; 12; 15; 20] ->
  0 < n < 2 ^ 49 ->
  exists f, PyFloat.of_int n = Some f /\
    PyFloat.to_int (PyFloat.mul f (PyFloat.of_decimal t 10)) = Some (n * t / 10).
Proof.
  intros Ht Hn. simpl in Ht.
  destruct Ht as [<-|[<-|[<-|[<-|[<-|[]]]]]].
  - replace (PyFloat.of_decimal 8 10)
      with (S754_finite false 7205759403792794 (-53)) by (vm_compute; reflexivity).
    now apply trunc_8.
  - replace (PyFloat.of_decimal 10 10)
      with (S754_finite false 4503599627370496 (-52)) by (vm_compute; reflexivity).
    now apply trunc_10.
  - replace (PyFloat.of_decimal 12 10)
      with (S754_finite false 5404319552844595 (-52)) by (vm_compute; reflexivity).
    now apply trunc_12.
  - replace (PyFloat.of_decimal 15 10)
      with (S754_finite false 6755399441055744 (-52)) by (vm_compute; reflexivity).
    now apply trunc_15.
  - replace (PyFloat.of_decimal 20 10)
      with (S754_finite false 4503599627370496 (-51)) by (vm_compute; reflexivity).
    now apply trunc_20.
Qed.

(** The cost in exact arithmetic: for a total below [2^49] and a model
    whose multiplier is [t/10], the cost is the integer part of
    [total * t / 10], at least one. *)
Lemma debit_cost_truncated_decimal model total t :
  _get_cost_multiplier model = PyFloat.of_decimal t 10 ->
  In t [8; 10; 12; 15; 20] ->
  0 <= total < 2 ^ 49 ->
  debit_cost model total = Some (Z.max 1 (total * t / 10)).
Proof.
  intros Hm Ht Hrange.
  destruct (Z.eq_dec total 0) as [->|Hne].
  - rewrite debit_cost_zero. reflexivity.
  - destruct (truncated_decimal_product t total Ht ltac:(lia)) as (f & Hf & Hk).
    unfold debit_cost. rewrite Hf. simpl. rewrite Hm, Hk. reflexivity.
Qed.

(** ** The debit *)

(** What one call of [_deduct_tokens] does to the three collections once
    the cost is known. *)
Lemma deduct_tokens_effect d user_id model p c task_type now cost :
  debit_cost model (p + c) = Some cost ->
  let d' := _deduct_tokens user_id model p c task_type now d in
  usage_records d' = usage_records d ++
    [ {| ur_user_id := user_id; ur_model := model; ur_task_type := task_type;
         ur_prompt_tokens := p; ur_completion_tokens := c;
         ur_total_tokens := p + c; ur_cost_tokens := cost;
         ur_created_at := now |} ] /\
  users d' = alter (apply_debit cost now) user_id (users d) /\
  orders d' = orders d.
Proof.
  intros H. unfold _deduct_tokens. rewrite H. simpl. auto.
Qed.

Lemma deduct_tokens_balance d user_id model p c task_type now cost u :
  debit_cost model (p + c) = Some cost ->
  users d !! user_id = Some u ->
  exists u',
    users (_deduct_tokens user_id model p c task_type now d) !! user_id = Some u' /\
    token_balance u' = token_balance u - cost /\
    token_total_used u' = token_total_used u + cost.
Proof.
  intros Hc Hu.
  destruct (deduct_tokens_effect d user_id model p c task_type now cost Hc)
    as (_ & -> & _).
  exists (apply_debit cost now u). split.
  - rewrite lookup_alter_eq, Hu. reflexivity.
  - simpl. lia.
Qed.

(** C4, as stated, fails: two tokens of a model with multiplier 0.8 give
    the product 1.6, which the code truncates to a cost of 1 where
    rounding gives 2. *)
Lemma debit_cost_truncates_where_rounding_differs :
  debit_cost "doubao-lite" (1 + 1) = Some 1 /\
  rounded_cost "doubao-lite" (1 + 1) = Some 2 /\
  debit_cost "doubao-lite" (1 + 1) <> rounded_cost "doubao-lite" (1 + 1).
Proof. vm_compute. repeat split; congruence. Qed.

(** C4, amended: the charged cost of a debit with prompt tokens [p],
    completion tokens [c] and model [model] is [max(1, int(x))] where [x]
    is the product of [p + c] and the multiplier of the model and [int]
    truncates: with the multiplier [t/10], the cost is the integer part
    of [(p + c) * t / 10], at least one (the float product of a total
    below [2^49] has that integer part). The multiplier is looked up
    after stripping and lower-casing the model name, with default 1.0; no
    tokens cost exactly 1; and the debit appends one usage record with
    that cost, lowers [token_balance] by the cost and raises
    [token_total_used] by the cost, leaving every other account as it
    was. *)
Theorem deduct_tokens_charges_truncated_product
    d user_id model p c task_type now u :
  users d !! user_id = Some u ->
  0 <= p + c < 2 ^ 49 ->
  exists t,
    In t [8; 10; 12; 15; 20] /\
    _get_cost_multiplier model = PyFloat.of_decimal t 10 /\
    let cost := Z.max 1 ((p + c) * t / 10) in
    let d' := _deduct_tokens user_id model p c task_type now d in
    debit_cost model (p + c) = Some cost /\
    1 <= cost /\
    (p + c = 0 -> cost = 1) /\
    usage_records d' = usage_records d ++
      [ {| ur_user_id := user_id; ur_model := model; ur_task_type := task_type;
           ur_prompt_tokens := p; ur_completion_tokens := c;
           ur_total_tokens := p + c; ur_cost_tokens := cost;
           ur_created_at := now |} ] /\
    (exists u', users d' !! user_id = Some u' /\
                token_balance u' = token_balance u - cost /\
                token_total_used u' = token_total_used u + cost) /\
    (forall other, other <> user_id -> users d' !! other = users d !! other) /\
    (forall model', PyStr.lower model' = PyStr.lower model ->
                    _get_cost_multiplier model' = _get_cost_multiplier model) /\
    (TOKEN_COST_MULTIPLIER !! PyStr.lower (PyStr.strip model) = None -> t = 10).
Proof.
  intros Hu Hrange.
  destruct (cost_multiplier_decimal model) as (t & Ht & Hm).
  exists t. split; [exact Ht|]. split; [exact Hm|].
  intros cost d'.
  pose proof (debit_cost_truncated_decimal model (p + c) t Hm Ht Hrange) as Hc.
  fold cost in Hc.
  destruct (deduct_tokens_effect d user_id model p c task_type now cost Hc)
    as (Hrec & Husers & _).
  split; [exact Hc|].
  split; [unfold cost; lia|].
  split.
  { intros H0. unfold cost. rewrite H0. reflexivity. }
  split; [exact Hrec|].
  split.
  { exact (deduct_tokens_balance d user_id model p c task_type now cost u Hc Hu). }
  split.
  { intros other Hne. unfold d'. rewrite Husers. now apply lookup_alter_ne. }
  split.
  - intros model'. apply cost_multiplier_case_insensitive.
  - intros Hnone. apply cost_multiplier_default in Hnone.
    rewrite Hnone in Hm. simpl in Ht.
    destruct Ht as [<-|[<-|[<-|[<-|[<-|[]]]]]];
      try reflexivity; vm_compute in Hm; discriminate Hm.
Qed.

(** 100 prompt and 50 completion tokens of a model spelled [ GPT-4o]:
    multiplier 2.0, cost 300. *)
Lemma deduct_tokens_charges_truncated_product_witness :
  let d := one_account 50000 in
  let d' := _deduct_tokens alice_id " GPT-4o" 100 50 default_task_type 7 d in
  debit_cost " GPT-4o" (100 + 50) = Some 300 /\
  length (usage_records d') = 1%nat /\
  token_balance <$> users d' !! alice_id = Some 49700.
Proof.
  intros d d'.
  destruct (deduct_tokens_charges_truncated_product
              d alice_id " GPT-4o" 100 50 default_task_type 7
              (alice 50000) eq_refl ltac:(lia))
    as (t & Ht & Hm & Hc & _ & _ & Hrec & _).
  fold d' in Hrec.
  split; [vm_compute; reflexivity|].
  split; [now rewrite Hrec|].
  vm_compute. reflexivity.
Defined.

(** The end-to-end scenario of the specification: a balance of 50000, 100
    prompt tokens, 50 completion tokens, multiplier 1.0. *)
Example debit_of_150_tokens :
  let d' := _deduct_tokens alice_id "glm-5" 100 50 default_task_type 7
              (one_account 50000) in
  token_balance <$> users d' !! alice_id = Some 49850 /\
  token_total_used <$> users d' !! alice_id = Some 150 /\
  map ur_cost_tokens (usage_records d') = [150].
Proof. vm_compute. auto. Qed.

(** ** The streaming relay *)

Lemma append_cons c r s : String c r +:+ s = String c (r +:+ s).
Proof. reflexivity. Qed.

Lemma append_empty_r s : s +:+ "" = s.
Proof.
  induction s as [|c r IH]; [reflexivity | now rewrite append_cons, IH].
Qed.

Lemma append_assoc a b c : (a +:+ b) +:+ c = a +:+ (b +:+ c).
Proof.
  induction a as [|x r IH]; [reflexivity | now rewrite !append_cons, IH].
Qed.

Section Relay.

Variable encode : string -> option (list Z).
Variable loads : string -> option json.

Lemma meter_spec line s :
  meter loads line s =
  match line_content loads line with
  | inl e => (s, Raised e)
  | inr t => (add_text t s, Normal tt)
  end.
Proof.
  assert (Hskip : (s, Normal tt) = (add_text "" s, Normal tt)).
  { destruct s. unfold add_text. simpl. now rewrite append_empty_r. }
  unfold meter, line_content.
  destruct (negb _); [exact Hskip|].
  destruct (_ || _); [exact Hskip|].
  destruct (loads _) as [payload|]; [|exact Hskip].
  destruct payload; try reflexivity.
  destruct (py_iter _); reflexivity.
Qed.

Lemma meter_created line s : created (fst (meter loads line s)) = created s.
Proof. rewrite meter_spec. destruct (line_content loads line); reflexivity. Qed.

Lemma forward_created line s : created (fst (forward loads line s)) = created s.
Proof.
  unfold forward, mbind, gen_bind, Gen.bind, Gen.yield.
  destruct (resumes s) as [[|n]|]; simpl; try reflexivity.
  - match goal with |- context [meter loads line ?s'] =>
      pose proof (meter_created line s') as H;
      destruct (meter loads line s') as [s'' []] end; exact H.
  - match goal with |- context [meter loads line ?s'] =>
      pose proof (meter_created line s') as H;
      destruct (meter loads line s') as [s'' []] end; exact H.
Qed.

Lemma for_lines_created lines fin s :
  created (fst (Gen.for_lines lines fin (forward loads) s)) = created s.
Proof.
  revert s. induction lines as [|line rest IH]; intros s; simpl.
  - destruct fin; reflexivity.
  - unfold Gen.bind at 1.
    match goal with |- context [let (_, _) := ?x in _] =>
      assert (H : created (fst x) = created s) by apply forward_created;
      destruct x as [s' [[]| |]] end; simpl in *.
    + now rewrite IH.
    + exact H.
    + exact H.
Qed.

(** The run of the generator, in terms of the run of its loop: the
    [except] clause yields the error event when the loop raised, and the
    [finally] clause runs however the loop ended. *)
Lemma run_event_generator user_id model prompt up client :
  run_generator client (event_generator encode loads user_id model prompt up) =
  finalize encode user_id model prompt
    match Gen.for_lines (stream_lines up) (stream_end up) (forward loads)
            {| yielded := []; resumes := client;
               completion_text := ""; created := [] |} with
    | (s1, Raised e) => fst (Gen.yield (error_event e) s1)
    | (s1, _) => s1
    end.
Proof.
  unfold run_generator, event_generator.
  unfold mbind, gen_bind, Gen.bind, Gen.set_text, Gen.try_finally,
    Gen.try_except, Gen.get_text, Gen.create_task. simpl.
  destruct (Gen.for_lines _ _ _ _) as [s1 [[]|e|]]; simpl; try reflexivity.
  destruct (Gen.yield (error_event e) s1) as [s2 [[]| |]]; reflexivity.
Qed.

(** Whatever the upstream and the client do, the generator ends with
    exactly one created task, which carries the prompt estimate and the
    estimate of the text accumulated up to that point. *)
Lemma event_generator_creates_one_task user_id model prompt up client :
  let s := run_generator client (event_generator encode loads user_id model prompt up) in
  created s =
    [ {| t_user_id := user_id; t_model := model; t_prompt_tokens := prompt;
         t_completion_tokens := _count_tokens_approx encode (completion_text s) |} ].
Proof.
  intros s. unfold s. rewrite run_event_generator.
  match goal with |- context [Gen.for_lines ?l ?f ?b ?s0] =>
    assert (Hc : created (fst (Gen.for_lines l f b s0)) = created s0)
      by apply for_lines_created;
    destruct (Gen.for_lines l f b s0) as [s1 o] end.
  simpl in Hc. unfold finalize.
  destruct o as [[]|e|]; simpl; try now rewrite Hc.
  unfold Gen.yield. destruct (resumes s1) as [[|n]|]; simpl; now rewrite Hc.
Qed.

(** With a client that stays, lines that are all metered without an
    exception are all forwarded, and their contents are accumulated in
    order. *)
Lemma for_lines_metered lines texts fin s :
  Forall2 (fun l t => line_content loads l = inr t) lines texts ->
  resumes s = None ->
  Gen.for_lines lines fin (forward loads) s =
  ({| yielded := yielded s ++ map (fun l => l +:+ PyStr.nl) lines;
      resumes := None;
      completion_text := completion_text s +:+ concat_str texts;
      created := created s |},
   match fin with
   | EndOfStream => Normal tt
   | UpstreamError msg => Raised msg
   | Cancelled => Exited
   end).
Proof.
  intros H. revert s.
  induction H as [|line t lines texts Hl _ IH]; intros s Hs.
  - destruct s as [y r txt cr]. simpl in *. subst r.
    rewrite app_nil_r, append_empty_r. destruct fin; reflexivity.
  - simpl. unfold Gen.bind at 1.
    unfold forward, mbind, gen_bind, Gen.bind, Gen.yield. rewrite Hs.
    rewrite meter_spec, Hl.
    rewrite IH by reflexivity.
    destruct s as [y r txt cr]. simpl.
    rewrite <- app_assoc, append_assoc. reflexivity.
Qed.

End Relay.

Section RelayClaims.

Variable encode : string -> option (list Z).
Variable loads : string -> option json.

(** The chunks of a stream that ends normally reach a client that stays,
    unmodified and in order, and the completion estimate of the debit is
    the estimate of the concatenation of their contents, as long as no
    line makes the metering raise. *)
Lemma relay_forwards_and_meters user_id model prompt up texts :
  stream_end up = EndOfStream ->
  Forall2 (fun l t => line_content loads l = inr t) (stream_lines up) texts ->
  let s := run_generator None (event_generator encode loads user_id model prompt up) in
  yielded s = map (fun l => l +:+ PyStr.nl) (stream_lines up) /\
  created s =
    [ {| t_user_id := user_id; t_model := model; t_prompt_tokens := prompt;
         t_completion_tokens := _count_tokens_approx encode (concat_str texts) |} ].
Proof.
  intros Hend Hall s. unfold s. rewrite run_event_generator.
  rewrite (for_lines_metered loads _ texts) by (assumption || reflexivity).
  rewrite Hend. unfold finalize. simpl. auto.
Qed.



End RelayClaims.


(** The scenario of the specification: the chunks [Hello] and [ world],
    then the end of the stream. The client receives the two lines in
    order and the completion estimate is the one of [Hello world] (2 with
    the fallback estimate, a quarter of 11 characters). *)
Example hello_world_is_relayed :
  let s := run_generator None
             (event_generator no_tiktoken JsonDecoder.json_loads
                alice_id "glm-5" 1 hello_world) in
  yielded s = [chunk "Hello" +:+ PyStr.nl; chunk " world" +:+ PyStr.nl] /\
  completion_text s = "Hello world" /\
  created s = [ {| t_user_id := alice_id; t_model := "glm-5";
                   t_prompt_tokens := 1;
                   t_completion_tokens :=
                     _count_tokens_approx no_tiktoken "Hello world" |} ].
Proof. vm_compute. auto. Qed.

(** C2 fails on the code: a line whose payload is valid JSON but not an
    object with an iterable [choices] is forwarded, and then the metering
    raises outside the inner [try]; the [except] clause of the generator
    ends the stream with the synthetic error event, so the lines that
    follow never reach the client. Here the second of three lines is
    [data: {"choices": null}]. *)
Theorem null_choices_abort_the_stream :
  let s := run_generator None
             (event_generator no_tiktoken JsonDecoder.json_loads
                alice_id "glm-5" 1 null_choices) in
  line_content JsonDecoder.json_loads (quoted "data: {`choices`: null}")
    = inl "'NoneType' object is not iterable" /\
  yielded s = [ chunk "Hello" +:+ PyStr.nl;
                quoted "data: {`choices`: null}" +:+ PyStr.nl;
                error_event "'NoneType' object is not iterable" ] /\
  ~ In (chunk " world" +:+ PyStr.nl) (yielded s) /\
  completion_text s = "Hello".
Proof.
  vm_compute. repeat split.
  intros [H|[H|[H|[]]]]; discriminate H.
Qed.

(** ** The request handler *)

Section Handler.

Variable encode : string -> option (list Z).
Variable loads : string -> option json.

(** C5: for an existing account the request is refused with status 402
    exactly when the balance is below [max(1, estimate)], the estimate
    being the token count of the text of the messages; a refused request
    calls no upstream and creates no debit task, so that no usage record
    is written and no balance changes; at a balance equal to an estimate
    of at least one the request goes through. *)
Theorem check_balance_rejects_below_estimate d user_id body upstreams client u :
  users d !! user_id = Some u ->
  let est := _count_tokens_approx encode
               (_extract_text_from_messages (req_messages body)) in
  let h := chat_completions encode loads d user_id body upstreams client in
  (result h = HTTPException 402 "Insufficient token balance" <->
   token_balance u < Z.max 1 est) /\
  (token_balance u < Z.max 1 est ->
   upstream_calls h = 0%nat /\ tasks h = [] /\
   forall clock, run_tasks (tasks h) clock d = d) /\
  (1 <= est -> token_balance u = est ->
   upstream_calls h = 1%nat /\
   result h <> HTTPException 402 "Insufficient token balance").
Proof.
  intros Hu est h.
  assert (Hpass : ~ token_balance u < Z.max 1 est ->
                  upstream_calls h = 1%nat /\
                  result h <> HTTPException 402 "Insufficient token balance").
  { intros Hge. unfold h, chat_completions, _check_balance.
    rewrite Hu. fold est.
    destruct (Z.ltb_spec (token_balance u) (Z.max 1 est)) as [Hlt|_];
      [contradiction|].
    destruct (req_stream body); simpl; [split; [reflexivity | discriminate]|].
    destruct (create_result _); simpl; split;
      reflexivity || discriminate. }
  assert (Hfail : token_balance u < Z.max 1 est ->
                  h = {| result := HTTPException 402 "Insufficient token balance";
                         tasks := []; upstream_calls := 0 |}).
  { intros Hlt. unfold h, chat_completions, _check_balance.
    rewrite Hu. fold est.
    destruct (Z.ltb_spec (token_balance u) (Z.max 1 est)) as [_|Hge];
      [reflexivity | lia]. }
  split; [split|split].
  - intros Hres. destruct (Z.lt_ge_cases (token_balance u) (Z.max 1 est))
      as [Hlt|Hge]; [exact Hlt|].
    destruct Hpass as [_ Hne]; [lia | contradiction].
  - intros Hlt. now rewrite (Hfail Hlt).
  - intros Hlt. rewrite (Hfail Hlt). simpl. auto.
  - intros H1 Heq. apply Hpass. lia.
Qed.

End Handler.

(** An instance at the boundary: a balance of 1 and an estimate of 1. *)
Lemma check_balance_rejects_below_estimate_witness :
  let h := chat_completions no_tiktoken JsonDecoder.json_loads
             (one_account 1) alice_id (say_hi false) (fun _ => answers 5) None in
  upstream_calls h = 1%nat /\
  result h <> HTTPException 402 "Insufficient token balance".
Proof.
  exact (proj2 (proj2 (check_balance_rejects_below_estimate
                  no_tiktoken JsonDecoder.json_loads
                  (one_account 1) alice_id (say_hi false) (fun _ => answers 5) None
                  (alice 1) eq_refl))
               ltac:(vm_compute; discriminate) eq_refl).
Defined.

Section Finalize.

Variable encode : string -> option (list Z).
Variable loads : string -> option json.

(** The estimate of the empty text is 0 when the encoder works and 1 when
    it does not. *)
Lemma count_tokens_empty :
  (encode "" = Some [] -> _count_tokens_approx encode "" = 0) /\
  (encode "" = None -> _count_tokens_approx encode "" = 1).
Proof.
  unfold _count_tokens_approx. split; intros ->; reflexivity.
Qed.

(** C1, amended: a streamed request that passed the balance check creates
    exactly one debit task however the stream ends (normal end, upstream
    error, cancellation, client closing the connection), with the prompt
    estimate and the estimate of the text accumulated so far: for a
    client that stays, the concatenation of the contents of the lines,
    and the empty text when the upstream fails before any line (its
    estimate is 0 with a working encoder and 1 without); a unary
    request creates exactly one debit task when the
    upstream answers and none when the upstream call raises, the request
    then failing with status 502. Every created task, once run, appends
    one usage record and applies the paired update to the account. *)
Theorem finalize_debits_once d user_id body upstreams client :
  let model := default "glm-5" (req_model body) in
  let up := upstreams (_get_client model) in
  let prompt := _count_tokens_approx encode
                  (_extract_text_from_messages (req_messages body)) in
  let h := chat_completions encode loads d user_id body upstreams client in
  let debit c := {| t_user_id := user_id; t_model := model;
                    t_prompt_tokens := prompt; t_completion_tokens := c |} in
  _check_balance d user_id prompt = None ->
  upstream_calls h = 1%nat /\
  (req_stream body = true ->
   (exists text, tasks h = [debit (_count_tokens_approx encode text)]) /\
   (forall texts,
      client = None ->
      Forall2 (fun l t => line_content loads l = inr t) (stream_lines up) texts ->
      tasks h = [debit (_count_tokens_approx encode (concat_str texts))]) /\
   (stream_lines up = [] ->
    (exists msg, stream_end up = UpstreamError msg) ->
    tasks h = [debit (_count_tokens_approx encode "")]) /\
   (encode "" = Some [] -> _count_tokens_approx encode "" = 0) /\
   (encode "" = None -> _count_tokens_approx encode "" = 1)) /\
  (req_stream body = false ->
   (forall r, create_result up = inr r ->
              result h = JSONResponse r /\
              tasks h = [debit (unary_comp_tokens encode r)]) /\
   (forall e, create_result up = inl e ->
              result h = HTTPException 502 (upstream_failed +:+ ": " +:+ e) /\
              tasks h = [])) /\
  (forall t now,
     In t (tasks h) ->
     0 <= t_prompt_tokens t + t_completion_tokens t < 2 ^ 53 ->
     exists cost,
       1 <= cost /\
       usage_records (run_task t now d) = usage_records d ++
         [ {| ur_user_id := user_id; ur_model := model;
              ur_task_type := default_task_type;
              ur_prompt_tokens := prompt;
              ur_completion_tokens := t_completion_tokens t;
              ur_total_tokens := prompt + t_completion_tokens t;
              ur_cost_tokens := cost; ur_created_at := now |} ] /\
       users (run_task t now d) = alter (apply_debit cost now) user_id (users d)).
Proof.
  intros model up prompt h debit Hcheck.
  assert (Hstream : req_stream body = true ->
            tasks h = created (run_generator client
                        (event_generator encode loads user_id model prompt up))).
  { intros Hs. unfold h, chat_completions. fold prompt model. fold up.
    now rewrite Hcheck, Hs. }
  assert (Hunary : req_stream body = false ->
            h = match create_result up with
                | inl e => {| result := HTTPException 502 (upstream_failed +:+ ": " +:+ e);
                              tasks := []; upstream_calls := 1 |}
                | inr r => {| result := JSONResponse r;
                              tasks := [debit (unary_comp_tokens encode r)];
                              upstream_calls := 1 |}
                end).
  { intros Hs. unfold h, chat_completions. fold prompt model. fold up.
    rewrite Hcheck, Hs. destruct (create_result up); reflexivity. }
  assert (Hshape : forall t, In t (tasks h) ->
            t = debit (t_completion_tokens t)).
  { intros t Hin. destruct (req_stream body) eqn:Hs.
    - rewrite (Hstream eq_refl), event_generator_creates_one_task in Hin.
      destruct Hin as [<-|[]]. reflexivity.
    - rewrite (Hunary eq_refl) in Hin.
      destruct (create_result up); simpl in Hin; [contradiction|].
      destruct Hin as [<-|[]]. reflexivity. }
  split.
  { unfold h, chat_completions. fold prompt model. fold up. rewrite Hcheck.
    destruct (req_stream body); [reflexivity|].
    destruct (create_result up); reflexivity. }
  split.
  { intros Hs. rewrite (Hstream Hs). split; [|split; [|split; [|exact count_tokens_empty]]].
    - eexists. apply event_generator_creates_one_task.
    - intros texts -> Hall. rewrite run_event_generator.
      rewrite (for_lines_metered loads _ texts) by (assumption || reflexivity).
      unfold finalize, Gen.yield. destruct (stream_end up); reflexivity.
    - intros Hnil [msg Hend]. rewrite run_event_generator, Hnil, Hend.
      unfold finalize, Gen.yield. simpl. destruct client as [[|n]|]; reflexivity. }
  split.
  { intros Hs. rewrite (Hunary Hs). split.
    - intros r ->. auto.
    - intros e ->. auto. }
  intros t now Hin Hrange.
  destruct (debit_cost_defined (t_model t) _ Hrange) as (f & k & _ & _ & Hc).
  exists (Z.max 1 k). split; [lia|].
  rewrite (Hshape t Hin) in Hc |- *. simpl in Hc |- *.
  unfold run_task. simpl.
  destruct (deduct_tokens_effect d user_id model prompt (t_completion_tokens t)
              default_task_type now _ Hc) as (-> & -> & _).
  auto.
Qed.

End Finalize.

(** C1, as stated, fails on the unary path: when the upstream call
    raises, the handler answers 502 and no debit task exists, so the
    account and the usage records stay as they were. *)
Lemma unary_upstream_failure_is_not_debited :
  let d := one_account 50000 in
  let h := chat_completions no_tiktoken JsonDecoder.json_loads
             d alice_id (say_hi false) (fun _ => fails_after_hello) None in
  upstream_calls h = 1%nat /\
  result h = HTTPException 502 (upstream_failed +:+ ": Connection reset") /\
  tasks h = [] /\
  run_tasks (tasks h) (fun _ => 0) d = d.
Proof. vm_compute. auto. Qed.

(** An instance: the client closes the connection at the first yield. *)
Lemma finalize_debits_once_witness :
  let d := one_account 50000 in
  let h := chat_completions no_tiktoken JsonDecoder.json_loads
             d alice_id (say_hi true) (fun _ => fails_after_hello) (Some 0%nat) in
  upstream_calls h = 1%nat /\
  exists text,
    tasks h = [ {| t_user_id := alice_id; t_model := "glm-5";
                   t_prompt_tokens := 1;
                   t_completion_tokens := _count_tokens_approx no_tiktoken text |} ].
Proof.
  intros d h.
  destruct (finalize_debits_once no_tiktoken JsonDecoder.json_loads
              d alice_id (say_hi true) (fun _ => fails_after_hello) (Some 0%nat) eq_refl)
    as (Hcalls & Hstream & _).
  split; [exact Hcalls|].
  exact (proj1 (Hstream eq_refl)).
Defined.

(** ** Settlement *)

Lemma find_order_update ref f os :
  (forall o, o_out_trade_no (f o) = o_out_trade_no o) ->
  find_order ref (update_order ref f os) = f <$> find_order ref os.
Proof.
  intros Hf. induction os as [|o rest IH]; simpl; [reflexivity|].
  destruct (String.eqb (o_out_trade_no o) ref) eqn:E; simpl.
  - now rewrite Hf, E.
  - now rewrite E.
Qed.

(** What a call does when it finds an order that is not paid and whose
    account exists. *)
Lemma fulfill_order_grants plans ref tx clk d o u :
  find_order ref (orders d) = Some o ->
  o_status o <> "paid" ->
  users d !! o_user_id o = Some u ->
  _fulfill_order plans ref tx clk d =
  {| users := <[ o_user_id o :=
                 apply_grant clk
                   (from_option token_grant 0 (plans !! o_plan_id o))
                   (from_option days_grant 0 (plans !! o_plan_id o)) u u ]>
              (users d);
     usage_records := usage_records d;
     orders := update_order ref (mark_paid tx (now_paid clk)) (orders d) |}.
Proof.
  intros Ho Hs Hu. unfold _fulfill_order. rewrite Ho.
  destruct (String.eqb_spec (o_status o) "paid") as [|_]; [contradiction|].
  rewrite Hu. unfold set_orders, set_users. simpl.
  f_equal. apply map_eq. intros i.
  destruct (decide (o_user_id o = i)) as [<-|Hne].
  - now rewrite lookup_alter_eq, lookup_insert_eq, Hu.
  - now rewrite lookup_alter_ne, lookup_insert_ne.
Qed.

Lemma fulfill_order_absent plans ref tx clk d :
  find_order ref (orders d) = None -> _fulfill_order plans ref tx clk d = d.
Proof. intros Ho. unfold _fulfill_order. now rewrite Ho. Qed.

Lemma fulfill_order_paid plans ref tx clk d o :
  find_order ref (orders d) = Some o -> o_status o = "paid" ->
  _fulfill_order plans ref tx clk d = d.
Proof. intros Ho Hs. unfold _fulfill_order. now rewrite Ho, Hs. Qed.

Lemma fulfill_order_no_account plans ref tx clk d o :
  find_order ref (orders d) = Some o -> users d !! o_user_id o = None ->
  _fulfill_order plans ref tx clk d = d.
Proof.
  intros Ho Hu. unfold _fulfill_order. rewrite Ho, Hu.
  now destruct (String.eqb _ _).
Qed.

(** C7: a second delivery of the same order reference changes nothing,
    whatever transaction identifier, time or plan table it comes with; a
    reference that matches no order changes nothing; and the first
    delivery for a pending order of an existing account leaves the order
    paid, with the transaction identifier and the time of payment, and
    applies the grant, so that after both deliveries the tokens were
    granted once. *)
Theorem fulfill_order_is_idempotent plans plans' ref tx tx' clk clk' d :
  let d1 := _fulfill_order plans ref tx clk d in
  let d2 := _fulfill_order plans' ref tx' clk' d1 in
  d2 = d1 /\
  (find_order ref (orders d) = None -> d1 = d) /\
  (forall o u,
     find_order ref (orders d) = Some o ->
     o_status o = "pending" ->
     users d !! o_user_id o = Some u ->
     let g := from_option token_grant 0 (plans !! o_plan_id o) in
     (exists o', find_order ref (orders d1) = Some o' /\
                 o_status o' = "paid" /\
                 o_transaction_id o' = Some tx /\
                 o_paid_at o' = Some (now_paid clk)) /\
     (exists u2, users d2 !! o_user_id o = Some u2 /\
                 token_balance u2 = token_balance u + Z.max 0 g)).
Proof.
  intros d1 d2.
  assert (Hsecond : d2 = d1).
  { unfold d2.
    destruct (find_order ref (orders d)) as [o|] eqn:Ho.
    2:{ unfold d1. rewrite (fulfill_order_absent plans ref tx clk d Ho).
        now apply fulfill_order_absent. }
    destruct (String.eqb_spec (o_status o) "paid") as [Hp|Hp].
    { unfold d1. rewrite (fulfill_order_paid plans ref tx clk d o Ho Hp).
      now apply (fulfill_order_paid _ _ _ _ _ o). }
    destruct (users d !! o_user_id o) as [u|] eqn:Hu.
    2:{ unfold d1. rewrite (fulfill_order_no_account plans ref tx clk d o Ho Hu).
        now apply (fulfill_order_no_account _ _ _ _ _ o). }
    apply (fulfill_order_paid _ _ _ _ _ (mark_paid tx (now_paid clk) o));
      [|reflexivity].
    unfold d1. rewrite (fulfill_order_grants plans ref tx clk d o u Ho Hp Hu).
    simpl. rewrite find_order_update by reflexivity. now rewrite Ho. }
  split; [exact Hsecond|]. split.
  { intros Ho. unfold d1, _fulfill_order. now rewrite Ho. }
  intros o u Ho Hs Hu g.
  assert (Hd1 := fulfill_order_grants plans ref tx clk d o u Ho
                   ltac:(rewrite Hs; discriminate) Hu).
  fold d1 in Hd1. split.
  - exists (mark_paid tx (now_paid clk) o). rewrite Hd1. simpl.
    rewrite find_order_update by reflexivity. rewrite Ho. auto.
  - rewrite Hsecond, Hd1. simpl. eexists. split.
    + apply lookup_insert_eq.
    + simpl. fold g. destruct (Z.ltb_spec 0 g); lia.
Qed.

(** An instance: a token pack delivered twice. *)
Lemma fulfill_order_is_idempotent_witness :
  let d := pending "pack-100w" None in
  let d1 := _fulfill_order PLANS order_ref "4200001" (clock_at 5) d in
  let d2 := _fulfill_order PLANS order_ref "4200001" (clock_at 9) d1 in
  d2 = d1 /\
  exists u2, users d2 !! alice_id = Some u2 /\
             token_balance u2 = 50000 + Z.max 0 1000000.
Proof.
  intros d d1 d2.
  destruct (fulfill_order_is_idempotent PLANS PLANS order_ref "4200001" "4200001"
              (clock_at 5) (clock_at 9) d) as (Hsame & _ & Hfirst).
  split; [exact Hsame|].
  destruct (Hfirst (pending_order alice_id "pack-100w" "wechat" order_ref
                      {| title := "100万 Token 加油包";
                         amount := PyFloat.of_decimal 99 10;
                         token_grant := 1000000; days_grant := 0 |} 0)
                   (member None) eq_refl eq_refl eq_refl) as (_ & Hu).
  exact Hu.
Defined.

(** The scenario of the specification, evaluated: two deliveries of a
    paid token pack leave 1050000 tokens, not 2050000. *)
Example fulfill_twice_grants_once :
  let d2 := _fulfill_order PLANS order_ref "4200001" (clock_at 9)
              (_fulfill_order PLANS order_ref "4200001" (clock_at 5)
                 (pending "pack-100w" None)) in
  token_balance <$> users d2 !! alice_id = Some 1050000 /\
  o_status <$> find_order order_ref (orders d2) = Some "paid" /\
  o_paid_at <$> find_order order_ref (orders d2) = Some (Some 5).
Proof. vm_compute. auto. Qed.

(** C10: when the account of a pending order does not exist, the call
    changes nothing: no grant, and the order stays as it was, pending;
    once the account exists, a later delivery is processed and marks the
    order paid. *)
Theorem fulfill_without_account_keeps_order_pending
    plans ref tx clk d o :
  find_order ref (orders d) = Some o ->
  o_status o = "pending" ->
  users d !! o_user_id o = None ->
  let d1 := _fulfill_order plans ref tx clk d in
  d1 = d /\
  find_order ref (orders d1) = Some o /\
  forall u tx' clk',
    find_order ref
      (orders (_fulfill_order plans ref tx' clk'
                 (set_users (insert (o_user_id o) u) d1)))
    = Some (mark_paid tx' (now_paid clk') o).
Proof.
  intros Ho Hs Hu d1.
  assert (Hd1 : d1 = d) by exact (fulfill_order_no_account plans ref tx clk d o Ho Hu).
  rewrite Hd1. split; [reflexivity|]. split; [exact Ho|].
  intros u tx' clk'.
  rewrite (fulfill_order_grants plans ref tx' clk'
             (set_users (insert (o_user_id o) u) d) o u).
  - simpl. rewrite find_order_update by reflexivity. now rewrite Ho.
  - exact Ho.
  - rewrite Hs. discriminate.
  - simpl. apply lookup_insert_eq.
Qed.

(** An instance: a monthly order whose account is gone. *)
Lemma fulfill_without_account_keeps_order_pending_witness :
  let d := orphan_order "monthly" in
  let d1 := _fulfill_order PLANS order_ref "4200001" (clock_at 5) d in
  d1 = d /\
  o_status <$> find_order order_ref (orders d1) = Some "pending".
Proof.
  intros d d1.
  destruct (fulfill_without_account_keeps_order_pending
              PLANS order_ref "4200001" (clock_at 5) d
              (pending_order alice_id "monthly" "wechat" order_ref
                 {| title := "专业版 - 月度订阅";
                    amount := PyFloat.of_decimal 290 10;
                    token_grant := 0; days_grant := 30 |} 0)
              eq_refl eq_refl eq_refl) as (Hsame & Hfind & _).
  split; [exact Hsame|].
  exact (f_equal (fmap o_status) Hfind).
Defined.

(** C9: a pending order of an existing account for which the fulfilment
    computes a grant with [membershipDays > 0], the days of the plan of
    the order in the plan table: an expiry that lies in the future at the
    time of the call is extended by the days (stacking), an expiry in the
    past or no expiry gives the time of the call plus the days, the level
    becomes the paid tier, and with a token grant of 0 the balance is
    unchanged. *)
Theorem fulfill_extends_membership plans ref tx clk d o u p :
  find_order ref (orders d) = Some o ->
  o_status o = "pending" ->
  users d !! o_user_id o = Some u ->
  plans !! o_plan_id o = Some p ->
  0 < days_grant p ->
  exists u',
    users (_fulfill_order plans ref tx clk d) !! o_user_id o = Some u' /\
    membership_level u' = "pro" /\
    (forall e, membership_expire_at u = Some e -> now_compare clk < e ->
               membership_expire_at u' = Some (e + days (days_grant p))) /\
    (forall e, membership_expire_at u = Some e -> e <= now_compare clk ->
               membership_expire_at u' =
                 Some (now_base clk + days (days_grant p))) /\
    (membership_expire_at u = None ->
     membership_expire_at u' = Some (now_base clk + days (days_grant p))) /\
    (token_grant p = 0 -> token_balance u' = token_balance u) /\
    token_balance u' = token_balance u + Z.max 0 (token_grant p).
Proof.
  intros Ho Hs Hu Hp Hpos.
  rewrite (fulfill_order_grants plans ref tx clk d o u Ho
             ltac:(rewrite Hs; discriminate) Hu).
  rewrite Hp. simpl.
  eexists. split; [apply lookup_insert_eq|].
  unfold apply_grant, new_expire. simpl.
  destruct (Z.ltb_spec 0 (days_grant p)) as [_|]; [|lia].
  split; [reflexivity|]. split.
  { intros e -> He. destruct (Z.ltb_spec (now_compare clk) e); [reflexivity|lia]. }
  split.
  { intros e -> He. destruct (Z.ltb_spec (now_compare clk) e); [lia|reflexivity]. }
  split.
  { intros ->. reflexivity. }
  split.
  { intros ->. reflexivity. }
  destruct (Z.ltb_spec 0 (token_grant p)); lia.
Qed.

(** The stacking scenario: an expiry 10 days ahead and a 30-day order
    give the old expiry plus 30 days. *)
Lemma fulfill_extends_membership_witness :
  exists u',
    users (_fulfill_order PLANS order_ref "4200001" (clock_at 0)
             (pending "monthly" (Some (days 10)))) !! alice_id = Some u' /\
    membership_level u' = "pro" /\
    membership_expire_at u' = Some (days 10 + days 30) /\
    token_balance u' = 50000.
Proof.
  destruct (fulfill_extends_membership PLANS order_ref "4200001" (clock_at 0)
              (pending "monthly" (Some (days 10)))
              (pending_order alice_id "monthly" "wechat" order_ref
                 {| title := "专业版 - 月度订阅";
                    amount := PyFloat.of_decimal 290 10;
                    token_grant := 0; days_grant := 30 |} 0)
              (member (Some (days 10)))
              {| title := "专业版 - 月度订阅";
                 amount := PyFloat.of_decimal 290 10;
                 token_grant := 0; days_grant := 30 |}
              eq_refl eq_refl eq_refl eq_refl eq_refl)
    as (u' & Hu & Hlevel & Hstack & _ & _ & Hbal & _).
  exists u'. split; [exact Hu|]. split; [exact Hlevel|]. split.
  - exact (Hstack (days 10) eq_refl eq_refl).
  - exact (Hbal eq_refl).
Defined.

(** The plan-grant scenario: no prior expiry, a 30-day plan without
    tokens. *)
Example fulfill_first_membership :
  let d1 := _fulfill_order PLANS order_ref "4200001" (clock_at 7)
              (pending "monthly" None) in
  membership_expire_at <$> users d1 !! alice_id = Some (Some (7 + days 30)) /\
  membership_level <$> users d1 !! alice_id = Some "pro" /\
  token_balance <$> users d1 !! alice_id = Some 50000.
Proof. vm_compute. auto. Qed.

(** ** The plan table and the snapshot of an order *)

Lemma find_order_with_snapshot g dg ref os :
  find_order ref (map (with_snapshot g dg) os) =
  with_snapshot g dg <$> find_order ref os.
Proof.
  induction os as [|o rest IH]; simpl; [reflexivity|].
  destruct (String.eqb (o_out_trade_no o) ref); [reflexivity | exact IH].
Qed.

(** C8 fails on the code: the order records at its creation the tokens
    and days it is to grant, and the fulfilment does not read them. For
    the order created under [PLANS], whose snapshot says 30 days, a
    delivery under the changed table grants 60 days, and the accounts
    differ from those of a delivery under the table of its creation. *)
Lemma fulfill_grants_by_current_table :
  let d := pending "monthly" None in
  o_days_grant <$> find_order order_ref (orders d) = Some 30 /\
  membership_expire_at <$>
    users (_fulfill_order PLANS order_ref "4200001" (clock_at 0) d) !! alice_id
    = Some (Some (days 30)) /\
  membership_expire_at <$>
    users (_fulfill_order PLANS_changed order_ref "4200001" (clock_at 0) d) !! alice_id
    = Some (Some (days 60)) /\
  users (_fulfill_order PLANS_changed order_ref "4200001" (clock_at 0) d) <>
  users (_fulfill_order PLANS order_ref "4200001" (clock_at 0) d).
Proof.
  repeat split; try (vm_compute; reflexivity).
  intros H. apply (f_equal (fun m => membership_expire_at <$> m !! alice_id)) in H.
  vm_compute in H. discriminate H.
Qed.

(** Where the amounts come from: the fulfilment of a pending order takes
    the token and day amounts from the entry that the plan table holds
    for the plan of the order at the time of the call, 0 for a plan that
    is no longer in the table; the [token_grant] and [days_grant] stored
    in the order at its creation are not read, so the accounts after the
    call are the same whatever these two fields hold. *)
Theorem fulfill_reads_plan_table_not_snapshot plans ref tx clk d :
  (forall g dg,
     users (_fulfill_order plans ref tx clk
              (set_orders (map (with_snapshot g dg)) d)) =
     users (_fulfill_order plans ref tx clk d)) /\
  (forall o u,
     find_order ref (orders d) = Some o ->
     o_status o = "pending" ->
     users d !! o_user_id o = Some u ->
     users (_fulfill_order plans ref tx clk d) =
     <[ o_user_id o :=
        apply_grant clk
          (from_option token_grant 0 (plans !! o_plan_id o))
          (from_option days_grant 0 (plans !! o_plan_id o)) u u ]> (users d)).
Proof.
  split.
  - intros g dg. unfold _fulfill_order. simpl.
    rewrite find_order_with_snapshot.
    destruct (find_order ref (orders d)) as [o|]; simpl; [|reflexivity].
    destruct (String.eqb (o_status o) "paid"); [reflexivity|].
    destruct (users d !! o_user_id o); reflexivity.
  - intros o u Ho Hs Hu.
    now rewrite (fulfill_order_grants plans ref tx clk d o u Ho
                   ltac:(rewrite Hs; discriminate) Hu).
Qed.

(** An instance: the order of 30 days fulfilled under the table that says
    60. *)
Lemma fulfill_reads_plan_table_not_snapshot_witness :
  let d := pending "monthly" None in
  users (_fulfill_order PLANS_changed order_ref "4200001" (clock_at 0) d) =
  <[ alice_id := apply_grant (clock_at 0) 0 60 (member None) (member None) ]>
    (users d).
Proof.
  exact (proj2 (fulfill_reads_plan_table_not_snapshot
                  PLANS_changed order_ref "4200001" (clock_at 0)
                  (pending "monthly" None))
               (pending_order alice_id "monthly" "wechat" order_ref
                  {| title := "专业版 - 月度订阅";
                     amount := PyFloat.of_decimal 290 10;
                     token_grant := 0; days_grant := 30 |} 0)
               (member None) eq_refl eq_refl eq_refl).
Defined.

(** The order for a plan that has left the table: it is marked paid and
    grants nothing, where its snapshot says 30 days. *)
Example fulfill_of_removed_plan :
  let d1 := _fulfill_order PLANS_removed order_ref "4200001" (clock_at 0)
              (pending "monthly" None) in
  o_status <$> find_order order_ref (orders d1) = Some "paid" /\
  o_days_grant <$> find_order order_ref (orders d1) = Some 30 /\
  membership_expire_at <$> users d1 !! alice_id = Some None /\
  token_balance <$> users d1 !! alice_id = Some 50000.
Proof. vm_compute. auto. Qed.

(** ** The sign of the balance *)

Section Balance.

Variable encode : string -> option (list Z).
Variable loads : string -> option json.

(** A task exists only after the balance check has passed, and it
    carries the identifier of the caller and the prompt estimate. *)
Lemma created_task_passed_check d user_id body upstreams client t :
  In t (tasks (chat_completions encode loads d user_id body upstreams client)) ->
  let prompt := _count_tokens_approx encode
                  (_extract_text_from_messages (req_messages body)) in
  _check_balance d user_id prompt = None /\
  t_user_id t = user_id /\ t_prompt_tokens t = prompt.
Proof.
  intros Hin prompt. unfold chat_completions in Hin. fold prompt in Hin.
  destruct (_check_balance d user_id prompt); [contradiction|].
  split; [reflexivity|].
  destruct (req_stream body).
  - simpl in Hin. rewrite event_generator_creates_one_task in Hin.
    destruct Hin as [<-|[]]. auto.
  - destruct (create_result _); simpl in Hin; [contradiction|].
    destruct Hin as [<-|[]]. auto.
Qed.

Lemma register_keeps_balances_nonneg d name mail hashed new_id now d' :
  balances_nonneg d ->
  register d name mail hashed new_id now = Some d' ->
  balances_nonneg d'.
Proof.
  unfold register, balances_nonneg. intros Hd H.
  destruct (exists_user _ d); [discriminate|].
  destruct (exists_user _ d); [discriminate|].
  injection H as <-. simpl.
  apply map_Forall_insert_2; [|exact Hd].
  unfold NEW_USER_WELCOME_TOKENS. simpl. lia.
Qed.

Lemma fulfill_keeps_balances_nonneg plans ref tx clk d :
  balances_nonneg d -> balances_nonneg (_fulfill_order plans ref tx clk d).
Proof.
  intros Hd.
  destruct (find_order ref (orders d)) as [o|] eqn:Ho;
    [|now rewrite fulfill_order_absent].
  destruct (String.eqb_spec (o_status o) "paid") as [Hp|Hp];
    [now rewrite (fulfill_order_paid _ _ _ _ _ o)|].
  destruct (users d !! o_user_id o) as [u|] eqn:Hu;
    [|now rewrite (fulfill_order_no_account _ _ _ _ _ o)].
  rewrite (fulfill_order_grants plans ref tx clk d o u Ho Hp Hu).
  unfold balances_nonneg. simpl.
  apply map_Forall_insert_2; [|exact Hd].
  specialize (Hd _ _ Hu). simpl in Hd |- *.
  destruct (Z.ltb_spec 0 (from_option token_grant 0 (plans !! o_plan_id o))); lia.
Qed.

(** C6, amended: registration (the welcome grant) and settlement grants
    keep every balance non-negative; a completion debit is not bound by
    it. A request that passed the check had a balance of at least
    [max(1, prompt estimate)], and its debit leaves the balance before
    minus the charged cost, which is non-negative exactly when the cost
    does not exceed the balance. *)
Theorem balance_floor_holds_for_grants_only :
  (forall d name mail hashed new_id now d',
     balances_nonneg d ->
     register d name mail hashed new_id now = Some d' ->
     balances_nonneg d') /\
  (forall plans ref tx clk d,
     balances_nonneg d -> balances_nonneg (_fulfill_order plans ref tx clk d)) /\
  (forall d user_id body upstreams client u t now,
     users d !! user_id = Some u ->
     In t (tasks (chat_completions encode loads d user_id body upstreams client)) ->
     0 <= t_prompt_tokens t + t_completion_tokens t < 2 ^ 53 ->
     Z.max 1 (t_prompt_tokens t) <= token_balance u /\
     exists cost u',
       debit_cost (t_model t) (t_prompt_tokens t + t_completion_tokens t)
         = Some cost /\
       users (run_task t now d) !! user_id = Some u' /\
       token_balance u' = token_balance u - cost /\
       (0 <= token_balance u' <-> cost <= token_balance u)).
Proof.
  split; [exact register_keeps_balances_nonneg|].
  split; [exact fulfill_keeps_balances_nonneg|].
  intros d user_id body upstreams client u t now Hu Hin Hrange.
  destruct (created_task_passed_check d user_id body upstreams client t Hin)
    as (Hcheck & Hid & Hprompt).
  split.
  - rewrite Hprompt. unfold _check_balance in Hcheck. rewrite Hu in Hcheck.
    destruct (Z.ltb_spec (token_balance u)
                (Z.max 1 (_count_tokens_approx encode
                   (_extract_text_from_messages (req_messages body)))));
      [discriminate | assumption].
  - destruct (debit_cost_defined (t_model t) _ Hrange) as (f & k & _ & _ & Hc).
    unfold run_task. rewrite Hid.
    destruct (deduct_tokens_balance d user_id (t_model t) (t_prompt_tokens t)
                (t_completion_tokens t) default_task_type now _ u Hc Hu)
      as (u' & Hu' & Hb & _).
    exists (Z.max 1 k), u'.
    split; [exact Hc|]. split; [exact Hu'|]. split; [exact Hb|]. lia.
Qed.

End Balance.

(** C6, as stated, fails: Alice registers and receives 50000 tokens; her
    first request, estimated at one prompt token, passes the check; the
    upstream reports 50000 completion tokens; the debit of 50001 tokens
    leaves a balance of -1. *)
Lemma single_request_overdraws_welcome_balance :
  let d := fresh_account in
  let h := chat_completions no_tiktoken JsonDecoder.json_loads
             d alice_id (say_hi false) (fun _ => answers 50000) None in
  token_balance <$> users d !! alice_id = Some 50000 /\
  length (tasks h) = 1%nat /\
  token_balance <$> users (run_tasks (tasks h) (fun _ => 1) d) !! alice_id
    = Some (-1) /\
  ~ balances_nonneg (run_tasks (tasks h) (fun _ => 1) d).
Proof.
  repeat split; try (vm_compute; reflexivity).
  intros H.
  assert (Hu : exists u, users (run_tasks
                 (tasks (chat_completions no_tiktoken JsonDecoder.json_loads
                           fresh_account alice_id (say_hi false) (fun _ => answers 50000) None))
                 (fun _ => 1) fresh_account) !! alice_id = Some u /\
               token_balance u = -1).
  { vm_compute. eauto. }
  destruct Hu as (u & Hu & Hb).
  specialize (H _ _ Hu). simpl in H. lia.
Qed.

(** An instance: Alice has 50000 tokens, her request is estimated at one
    prompt token and answered with 5 completion tokens. *)
Lemma balance_floor_holds_for_grants_only_witness :
  let d := one_account 50000 in
  let t := {| t_user_id := alice_id; t_model := "glm-5";
              t_prompt_tokens := 1; t_completion_tokens := 5 |} in
  Z.max 1 1 <= 50000 /\
  exists cost u',
    debit_cost "glm-5" (1 + 5) = Some cost /\
    users (run_task t 9 d) !! alice_id = Some u' /\
    token_balance u' = 50000 - cost /\
    (0 <= token_balance u' <-> cost <= 50000).
Proof.
  intros d t.
  exact (proj2 (proj2 (balance_floor_holds_for_grants_only
                         no_tiktoken JsonDecoder.json_loads))
           d alice_id (say_hi false) (fun _ => answers 5) None
           (alice 50000) t 9 eq_refl (or_introl eq_refl) ltac:(simpl; lia)).
Defined.

(** * Further properties *)

(** ** The ledger under several debits *)

Lemma run_task_lookup t now d uid :
  users (run_task t now d) !! uid =
  (if String.eqb (t_user_id t) uid
   then apply_debit (task_cost t) now <$> users d !! uid
   else users d !! uid) \/
  (debit_cost (t_model t) (t_prompt_tokens t + t_completion_tokens t) = None /\
   run_task t now d = d).
Proof.
  unfold run_task, _deduct_tokens, task_cost.
  destruct (debit_cost _ _) as [cost|] eqn:Hc; [left | right; auto].
  simpl. destruct (String.eqb_spec (t_user_id t) uid) as [->|Hne].
  - now rewrite lookup_alter_eq.
  - now rewrite lookup_alter_ne.
Qed.

Lemma run_tasks_account ts : forall clock d uid u,
  users d !! uid = Some u ->
  exists u',
    users (run_tasks ts clock d) !! uid = Some u' /\
    token_balance u' = token_balance u - charged uid ts /\
    token_total_used u' = token_total_used u + charged uid ts.
Proof.
  induction ts as [|t rest IH]; intros clock d uid u Hu.
  - exists u. simpl. repeat split; [assumption | lia..].
  - simpl run_tasks. simpl charged.
    destruct (run_task_lookup t (clock O) d uid) as [Hl|[Hnone Hsame]].
    + destruct (String.eqb (t_user_id t) uid).
      * rewrite Hu in Hl. simpl in Hl.
        destruct (IH (fun i => clock (S i)) _ uid _ Hl) as (u' & Hu' & Hb & Ht).
        exists u'. simpl in Hb, Ht. repeat split; [assumption | lia..].
      * rewrite Hu in Hl.
        destruct (IH (fun i => clock (S i)) _ uid _ Hl) as (u' & Hu' & Hb & Ht).
        exists u'. repeat split; [assumption | lia..].
    + rewrite Hsame.
      destruct (IH (fun i => clock (S i)) d uid u Hu) as (u' & Hu' & Hb & Ht).
      exists u'. unfold task_cost. rewrite Hnone. simpl.
      destruct (String.eqb (t_user_id t) uid); repeat split; (assumption || lia).
Qed.

(** X1: the balance of an account after any sequence of debit tasks is
    its balance before minus what the tasks charge to it, its
    [token_total_used] grows by the same amount, and the sum of the two
    does not change. *)
Theorem run_tasks_balance ts clock d uid u :
  users d !! uid = Some u ->
  exists u',
    users (run_tasks ts clock d) !! uid = Some u' /\
    token_balance u' = token_balance u - charged uid ts /\
    token_total_used u' = token_total_used u + charged uid ts /\
    token_balance u' + token_total_used u' = token_balance u + token_total_used u.
Proof.
  intros Hu.
  destruct (run_tasks_account ts clock d uid u Hu) as (u' & Hu' & Hb & Ht).
  exists u'. repeat split; [assumption | lia..].
Qed.

(** An instance: 150 tokens at 1.0 and 2 tokens at 0.8 charge Alice 151;
    the task of the other account charges her nothing. *)
Lemma run_tasks_balance_witness :
  exists u',
    users (run_tasks three_tasks (fun i => Z.of_nat i) (one_account 50000))
      !! alice_id = Some u' /\
    token_balance u' = 50000 - 151 /\
    token_total_used u' = 0 + 151.
Proof.
  destruct (run_tasks_balance three_tasks (fun i => Z.of_nat i)
              (one_account 50000) alice_id (alice 50000) eq_refl)
    as (u' & Hu & Hb & Ht & _).
  exists u'. split; [exact Hu|]. split; [exact Hb | exact Ht].
Defined.

Lemma run_tasks_missing ts : forall clock d uid,
  users d !! uid = None -> users (run_tasks ts clock d) !! uid = None.
Proof.
  induction ts as [|t rest IH]; intros clock d uid Hu; [exact Hu|].
  simpl. apply IH.
  destruct (run_task_lookup t (clock O) d uid) as [Hl|[_ ->]]; [|exact Hu].
  rewrite Hl, Hu. now destruct (String.eqb _ _).
Qed.

Lemma charged_permutation uid ts ts' :
  Permutation ts ts' -> charged uid ts = charged uid ts'.
Proof.
  induction 1 as [|t l l' _ IH|a b l|l l' l'' _ IH1 _ IH2]; simpl; lia.
Qed.

(** X2: debits commute: the tasks of several requests may run in any
    order and at any times, the balance and the consumption of every
    account end the same. *)
Theorem debits_commute ts ts' clock clock' d uid :
  Permutation ts ts' ->
  token_balance <$> users (run_tasks ts clock d) !! uid =
    token_balance <$> users (run_tasks ts' clock' d) !! uid /\
  token_total_used <$> users (run_tasks ts clock d) !! uid =
    token_total_used <$> users (run_tasks ts' clock' d) !! uid.
Proof.
  intros Hp. destruct (users d !! uid) as [u|] eqn:Hu.
  - destruct (run_tasks_account ts clock d uid u Hu) as (u1 & -> & Hb1 & Ht1).
    destruct (run_tasks_account ts' clock' d uid u Hu) as (u2 & -> & Hb2 & Ht2).
    rewrite (charged_permutation uid ts ts' Hp) in Hb1, Ht1.
    simpl. split; f_equal; lia.
  - now rewrite !run_tasks_missing.
Qed.

Lemma debits_commute_witness :
  token_balance <$> users (run_tasks three_tasks (fun _ => 1) (one_account 50000))
                    !! alice_id =
  token_balance <$> users (run_tasks (rev three_tasks) (fun _ => 2) (one_account 50000))
                    !! alice_id.
Proof.
  exact (proj1 (debits_commute three_tasks (rev three_tasks) (fun _ => 1)
                  (fun _ => 2) (one_account 50000) alice_id
                  (Permutation_rev three_tasks))).
Defined.

(** X3: a debit for an account that no longer exists still writes its
    usage record, and changes no account. *)
Theorem debit_of_missing_account d user_id model p c task_type now :
  users d !! user_id = None ->
  0 <= p + c < 2 ^ 53 ->
  let d' := _deduct_tokens user_id model p c task_type now d in
  users d' = users d /\
  orders d' = orders d /\
  exists r, usage_records d' = usage_records d ++ [r] /\
            ur_user_id r = user_id /\ 1 <= ur_cost_tokens r.
Proof.
  intros Hu Hrange d'.
  destruct (debit_cost_defined model (p + c) Hrange) as (f & k & _ & _ & Hc).
  destruct (deduct_tokens_effect d user_id model p c task_type now _ Hc)
    as (Hrec & Husers & Hord).
  fold d' in Hrec, Husers, Hord.
  split.
  { rewrite Husers. apply map_eq. intros i.
    destruct (decide (user_id = i)) as [<-|Hne].
    - now rewrite lookup_alter_eq, Hu.
    - now rewrite lookup_alter_ne. }
  split; [exact Hord|].
  eexists. split; [exact Hrec|]. simpl. split; [reflexivity | lia].
Qed.

Lemma debit_of_missing_account_witness :
  let d' := _deduct_tokens "65f0a1b2c3d4e5f6089abcde" "glm-5" 3 4
              default_task_type 0 (one_account 50000) in
  users d' = users (one_account 50000) /\ length (usage_records d') = 1%nat.
Proof.
  destruct (debit_of_missing_account (one_account 50000)
              "65f0a1b2c3d4e5f6089abcde" "glm-5" 3 4 default_task_type 0
              eq_refl ltac:(lia)) as (Hu & _ & r & Hr & _).
  split; [exact Hu|]. simpl. rewrite Hr. reflexivity.
Defined.

(** X4: for totals below [2^49] the cost is defined, never decreases when
    the total grows, is at least one, and lies between 0.8 times the
    total (less one token of truncation) and twice the total. *)
Theorem debit_cost_monotone model a b :
  0 <= a <= b -> b < 2 ^ 49 ->
  exists ca cb,
    debit_cost model a = Some ca /\
    debit_cost model b = Some cb /\
    1 <= ca <= cb /\
    8 * b - 9 <= 10 * cb /\
    cb <= Z.max 1 (2 * b).
Proof.
  intros Hab Hb.
  destruct (cost_multiplier_decimal model) as (t & Ht & Hm).
  exists (Z.max 1 (a * t / 10)), (Z.max 1 (b * t / 10)).
  split; [apply debit_cost_truncated_decimal; (assumption || lia)|].
  split; [apply debit_cost_truncated_decimal; (assumption || lia)|].
  simpl in Ht.
  destruct Ht as [<-|[<-|[<-|[<-|[<-|[]]]]]];
    Z.div_mod_to_equations; lia.
Qed.

Lemma debit_cost_monotone_witness :
  exists ca cb,
    debit_cost "doubao-pro" 7 = Some ca /\
    debit_cost "doubao-pro" 1000 = Some cb /\
    1 <= ca <= cb /\ 8 * 1000 - 9 <= 10 * cb /\ cb <= Z.max 1 (2 * 1000).
Proof.
  exact (debit_cost_monotone "doubao-pro" 7 1000 ltac:(lia) ltac:(lia)).
Defined.

(** ** The relay, for every upstream and every client *)

Section RelayShape.

Variable encode : string -> option (list Z).
Variable loads : string -> option json.

Lemma meter_yielded line s :
  yielded (fst (meter loads line s)) = yielded s /\
  resumes (fst (meter loads line s)) = resumes s.
Proof. rewrite meter_spec. destruct (line_content loads line); auto. Qed.

Lemma for_lines_prefix lines fin : forall s,
  exists k, (k <= length lines)%nat /\
    yielded (fst (Gen.for_lines lines fin (forward loads) s)) =
    yielded s ++ map (fun l => l +:+ PyStr.nl) (firstn k lines).
Proof.
  induction lines as [|line rest IH]; intros s.
  - exists O. simpl. split; [lia|]. rewrite app_nil_r. now destruct fin.
  - simpl Gen.for_lines. unfold Gen.bind at 1.
    assert (Hf : exists s1 o,
              forward loads line s = (s1, o) /\
              yielded s1 = yielded s ++ [line +:+ PyStr.nl]).
    { unfold forward, mbind, gen_bind, Gen.bind, Gen.yield.
      destruct (resumes s) as [[|n]|]; simpl.
      - eauto.
      - match goal with |- context [meter loads line ?s0] =>
          pose proof (proj1 (meter_yielded line s0)) as Hy;
          destruct (meter loads line s0) as [s1 [[]| |]] end; eauto.
      - match goal with |- context [meter loads line ?s0] =>
          pose proof (proj1 (meter_yielded line s0)) as Hy;
          destruct (meter loads line s0) as [s1 [[]| |]] end; eauto. }
    destruct Hf as (s1 & o & -> & Hy).
    destruct o as [[]|e|].
    + destruct (IH s1) as (k & Hk & Hrest).
      exists (S k). split; [simpl; lia|].
      rewrite Hrest, Hy. simpl. now rewrite <- app_assoc.
    + exists 1%nat. split; [simpl; lia|]. simpl. exact Hy.
    + exists 1%nat. split; [simpl; lia|]. simpl. exact Hy.
Qed.

(** X5: whatever the upstream sends and whatever the client does, what the
    relay sends is a prefix of the upstream lines, each followed by a
    line feed, in their order, and after it at most one synthetic error
    event: no line is changed, dropped in the middle, repeated or made
    up. *)
Theorem relay_sends_a_prefix user_id model prompt up client :
  let s := run_generator client
             (event_generator encode loads user_id model prompt up) in
  exists k, (k <= length (stream_lines up))%nat /\
    (yielded s = map (fun l => l +:+ PyStr.nl) (firstn k (stream_lines up)) \/
     exists e,
       yielded s = map (fun l => l +:+ PyStr.nl) (firstn k (stream_lines up))
                   ++ [error_event e]).
Proof.
  intros s. unfold s. rewrite run_event_generator.
  match goal with |- context [Gen.for_lines ?l ?f ?b ?s0] =>
    destruct (for_lines_prefix l f s0) as (k & Hk & Hy);
    destruct (Gen.for_lines l f b s0) as [s1 o] end.
  simpl in Hy. exists k. split; [exact Hk|].
  unfold finalize. destruct o as [[]|e|]; simpl; auto.
  right. exists e. unfold Gen.yield.
  destruct (resumes s1) as [[|n]|]; simpl; now rewrite Hy.
Qed.

Lemma for_lines_closed lines : forall n texts fin s,
  resumes s = Some n ->
  (n < length lines)%nat ->
  Forall2 (fun l t => line_content loads l = inr t) (firstn n lines) texts ->
  Gen.for_lines lines fin (forward loads) s =
  ({| yielded := yielded s ++ map (fun l => l +:+ PyStr.nl) (firstn (S n) lines);
      resumes := Some O;
      completion_text := completion_text s +:+ concat_str texts;
      created := created s |}, Exited).
Proof.
  induction lines as [|line rest IH]; intros n texts fin s Hs Hn Hall;
    [simpl in Hn; lia|].
  simpl Gen.for_lines. unfold Gen.bind at 1.
  unfold forward, mbind, gen_bind, Gen.bind, Gen.yield. rewrite Hs.
  destruct n as [|n].
  - simpl in Hall. inversion Hall; subst.
    destruct s as [y r txt cr]. simpl. rewrite append_empty_r. reflexivity.
  - simpl in Hall. inversion Hall as [|l t ls ts Hl Hrest]; subst.
    rewrite meter_spec, Hl.
    rewrite (IH n ts fin) by (try reflexivity; try assumption; simpl in Hn; lia).
    destruct s as [y r txt cr]. simpl.
    rewrite <- app_assoc, append_assoc. reflexivity.
Qed.

(** X6: when the client closes the connection after resuming the
    generator [n] times, it has received [n + 1] lines, and the debit
    counts the text of the first [n] only: the line at which the client
    left is sent but not metered. No error event is sent. *)
Theorem disconnect_bills_resumed_lines user_id model prompt up n texts :
  (n < length (stream_lines up))%nat ->
  Forall2 (fun l t => line_content loads l = inr t)
          (firstn n (stream_lines up)) texts ->
  let s := run_generator (Some n)
             (event_generator encode loads user_id model prompt up) in
  yielded s = map (fun l => l +:+ PyStr.nl) (firstn (S n) (stream_lines up)) /\
  completion_text s = concat_str texts /\
  created s =
    [ {| t_user_id := user_id; t_model := model; t_prompt_tokens := prompt;
         t_completion_tokens := _count_tokens_approx encode (concat_str texts) |} ].
Proof.
  intros Hn Hall s. unfold s. rewrite run_event_generator.
  rewrite (for_lines_closed _ n texts) by (assumption || reflexivity).
  unfold finalize. simpl. auto.
Qed.

End RelayShape.

(** An instance: the client leaves at the second of two chunks; it has
    received both, and only [Hello] is billed. *)
Lemma disconnect_bills_resumed_lines_witness :
  let s := run_generator (Some 1%nat)
             (event_generator no_tiktoken JsonDecoder.json_loads
                alice_id "glm-5" 1 hello_world) in
  yielded s = [chunk "Hello" +:+ PyStr.nl; chunk " world" +:+ PyStr.nl] /\
  completion_text s = "Hello".
Proof.
  destruct (disconnect_bills_resumed_lines no_tiktoken JsonDecoder.json_loads
              alice_id "glm-5" 1 hello_world 1 ["Hello"])
    as (Hy & Ht & _).
  - simpl. lia.
  - repeat constructor.
  - split; [exact Hy | exact Ht].
Defined.

(** ** The handler, for every request *)

Section HandlerShape.

Variable encode : string -> option (list Z).
Variable loads : string -> option json.

Lemma count_tokens_approx_nonneg text : 0 <= _count_tokens_approx encode text.
Proof. unfold _count_tokens_approx. destruct (encode text); lia. Qed.

(** X7: an account that is missing or whose balance is zero or negative is
    never served. For every request whose body has the types the handler
    expects (the model absent or a string, the content of each message
    absent, a string or a list of blocks whose text blocks hold strings,
    the stream flag a boolean), the answer is 402, the upstream is not
    called and nothing is debited. *)
Theorem no_service_without_balance d user_id body upstreams client :
  (users d !! user_id = None \/
   exists u, users d !! user_id = Some u /\ token_balance u <= 0) ->
  chat_completions encode loads d user_id body upstreams client =
  {| result := HTTPException 402 "Insufficient token balance";
     tasks := []; upstream_calls := 0 |}.
Proof.
  intros H. unfold chat_completions, _check_balance.
  destruct H as [->|(u & -> & Hb)]; [reflexivity|].
  destruct (Z.ltb_spec (token_balance u)
              (Z.max 1 (_count_tokens_approx encode
                 (_extract_text_from_messages (req_messages body)))));
    [reflexivity|lia].
Qed.

(** X8: one request, at most one debit. For every request whose body has
    the types the handler expects, at most one debit task is created; a
    task debits the caller and no other account, for the requested model
    ([glm-5] when the request names none), with the estimate of the text
    of the messages as its prompt tokens, and only for a caller whose
    balance covers that estimate; an answer that is an error (402 or 502)
    comes with no task; a unary answer with a completion comes with
    exactly the task that carries the completion tokens of that
    completion; and a streamed request is answered by 402 or by a stream
    with exactly one task, never by another error status. *)
Theorem one_request_one_debit d user_id body upstreams client :
  let h := chat_completions encode loads d user_id body upstreams client in
  let prompt := _count_tokens_approx encode
                  (_extract_text_from_messages (req_messages body)) in
  (length (tasks h) <= 1)%nat /\
  (forall t, In t (tasks h) ->
     t_user_id t = user_id /\
     t_model t = default "glm-5" (req_model body) /\
     t_prompt_tokens t = prompt /\ 0 <= prompt /\
     exists u, users d !! user_id = Some u /\ Z.max 1 prompt <= token_balance u) /\
  (forall code detail, result h = HTTPException code detail -> tasks h = []) /\
  (forall response,
     result h = JSONResponse response ->
     tasks h = [ {| t_user_id := user_id;
                    t_model := default "glm-5" (req_model body);
                    t_prompt_tokens := prompt;
                    t_completion_tokens := unary_comp_tokens encode response |} ]) /\
  (req_stream body = true ->
   result h = HTTPException 402 "Insufficient token balance" \/
   exists chunks, result h = StreamingResponse chunks /\
                  length (tasks h) = 1%nat).
Proof.
  intros h prompt. unfold h, chat_completions. fold prompt.
  pose proof (count_tokens_approx_nonneg
                (_extract_text_from_messages (req_messages body))) as Hp.
  fold prompt in Hp.
  destruct (_check_balance d user_id prompt) as [exc|] eqn:Hc.
  - simpl. split; [lia|]. split; [contradiction|]. split; [reflexivity|].
    split.
    + intros response Hr. unfold _check_balance in Hc.
      destruct (users d !! user_id) as [u|]; [|congruence].
      destruct (_ <? _); congruence.
    + intros _. left. unfold _check_balance in Hc.
      destruct (users d !! user_id) as [u|]; [|congruence].
      destruct (_ <? _); congruence.
  - assert (Hbal : exists u, users d !! user_id = Some u /\
                             Z.max 1 prompt <= token_balance u).
    { unfold _check_balance in Hc.
      destruct (users d !! user_id) as [u|]; [|discriminate].
      exists u. split; [reflexivity|].
      destruct (Z.ltb_spec (token_balance u) (Z.max 1 prompt));
        [discriminate | assumption]. }
    destruct (req_stream body).
    + simpl. rewrite event_generator_creates_one_task. simpl.
      split; [lia|]. split.
      { intros t [<-|[]]. simpl. auto. }
      split; [discriminate|]. split; [discriminate|].
      intros _. right. eauto.
    + destruct (create_result _) as [e|response]; simpl.
      * split; [lia|]. split; [contradiction|]. split; [reflexivity|].
        split; [discriminate | discriminate].
      * split; [lia|]. split.
        { intros t [<-|[]]. simpl. auto. }
        split; [discriminate|]. split; [|discriminate].
        intros r [= <-]. reflexivity.
Qed.

End HandlerShape.

Lemma no_service_without_balance_witness :
  chat_completions no_tiktoken JsonDecoder.json_loads
    (one_account 0) alice_id (say_hi true) (fun _ => hello_world) None =
  {| result := HTTPException 402 "Insufficient token balance";
     tasks := []; upstream_calls := 0 |}.
Proof.
  apply no_service_without_balance.
  right. exists (alice 0). split; [reflexivity | simpl; lia].
Defined.

Lemma one_request_one_debit_witness :
  let h := chat_completions no_tiktoken JsonDecoder.json_loads
             (one_account 50000) alice_id (say_hi true)
             (fun _ => fails_after_hello) None in
  result h = HTTPException 402 "Insufficient token balance" \/
  exists chunks, result h = StreamingResponse chunks /\
                 length (tasks h) = 1%nat.
Proof.
  exact (proj2 (proj2 (proj2 (proj2 (one_request_one_debit
           no_tiktoken JsonDecoder.json_loads (one_account 50000) alice_id
           (say_hi true) (fun _ => fails_after_hello) None)))) eq_refl).
Defined.

(** ** Model names *)

Lemma lstrip_padding l x : all_space l = true -> PyStr.lstrip (l +:+ x) = PyStr.lstrip x.
Proof.
  induction l as [|c l IH]; [reflexivity|].
  intros H. simpl in H. apply andb_true_iff in H as [Hc Hl].
  rewrite append_cons. simpl. rewrite Hc. auto.
Qed.

Lemma rstrip_all_space r : all_space r = true -> PyStr.rstrip r = "".
Proof.
  induction r as [|c r IH]; [reflexivity|].
  intros H. simpl in H. apply andb_true_iff in H as [Hc Hr].
  simpl. now rewrite (IH Hr), Hc.
Qed.

Lemma rstrip_padding x r : all_space r = true -> PyStr.rstrip (x +:+ r) = PyStr.rstrip x.
Proof.
  intros Hr. induction x as [|c x IH].
  - simpl. now apply rstrip_all_space.
  - rewrite append_cons. simpl. now rewrite IH.
Qed.

Lemma strip_padding l x r :
  all_space l = true -> all_space r = true ->
  PyStr.strip (l +:+ x +:+ r) = PyStr.strip x.
Proof.
  intros Hl Hr. unfold PyStr.strip. rewrite lstrip_padding by assumption.
  induction x as [|c x IH].
  - change ("" +:+ r) with r.
    rewrite <- (append_empty_r r), lstrip_padding by assumption. reflexivity.
  - rewrite append_cons. simpl. destruct (PyStr.isspace c); [exact IH|].
    rewrite <- append_cons. now apply rstrip_padding.
Qed.

(** X9: for a model name of ASCII characters, the provider and the cost
    multiplier do not depend on the case of the letters of the name nor
    on white space around it. (Outside ASCII the methods of [str] map
    more letters than [PyStr.upper] and [PyStr.lower] do, and the
    statement is not made.) *)
Theorem model_names_are_normalised l m r :
  is_ascii m = true ->
  all_space l = true -> all_space r = true ->
  _get_client (l +:+ PyStr.upper m +:+ r) = _get_client m /\
  _get_cost_multiplier (l +:+ PyStr.upper m +:+ r) = _get_cost_multiplier m.
Proof.
  intros _ Hl Hr.
  assert (Hkey : PyStr.lower (PyStr.strip (l +:+ PyStr.upper m +:+ r)) =
                 PyStr.lower (PyStr.strip m)).
  { rewrite strip_padding by assumption.
    now rewrite !lower_strip, lower_upper. }
  unfold _get_client, _get_cost_multiplier. now rewrite Hkey.
Qed.

Lemma model_names_are_normalised_witness :
  _get_client "  GPT-4O " = _get_client "gpt-4o" /\
  _get_cost_multiplier "  GPT-4O " = _get_cost_multiplier "gpt-4o".
Proof.
  exact (model_names_are_normalised "  " "gpt-4o" " " eq_refl eq_refl eq_refl).
Defined.

(** ** The text of the messages *)

Section PromptText.

Variable encode : string -> option (list Z).

Lemma parts_of_text_blocks bs :
  existsb is_text bs = true ->
  parts_of_content (Blocks (List.filter is_text bs)) = parts_of_content (Blocks bs).
Proof.
  intros H.
  assert (Hc : forall l, concat (map text_of_block (List.filter is_text l)) =
                         concat (map text_of_block l)).
  { induction l as [|[t|] l IH]; simpl; [reflexivity | now rewrite IH | exact IH]. }
  assert (Hne : List.filter is_text bs <> []).
  { induction bs as [|[t|] bs IH]; simpl in *; [discriminate | discriminate | auto]. }
  unfold parts_of_content.
  destruct (List.filter is_text bs) as [|b' l'] eqn:Ef; [contradiction|].
  destruct bs as [|b l]; [discriminate|].
  rewrite <- Ef. apply Hc.
Qed.

(** X10: in a message whose content is a list with at least one text
    block, the blocks that are not text (images and the like) do not
    count: the text extracted for the prompt estimate, and so the
    estimate, are the same without them. An empty content list counts as
    an empty text, like a missing content. *)
Theorem non_text_blocks_are_ignored ms1 bs ms2 :
  existsb is_text bs = true ->
  _extract_text_from_messages (ms1 ++ Blocks bs :: ms2) =
    _extract_text_from_messages (ms1 ++ Blocks (List.filter is_text bs) :: ms2) /\
  _count_tokens_approx encode (_extract_text_from_messages (ms1 ++ Blocks bs :: ms2)) =
    _count_tokens_approx encode
      (_extract_text_from_messages (ms1 ++ Blocks (List.filter is_text bs) :: ms2)) /\
  _extract_text_from_messages (ms1 ++ Blocks [] :: ms2) =
    _extract_text_from_messages (ms1 ++ NoContent :: ms2).
Proof.
  intros H.
  assert (He : _extract_text_from_messages (ms1 ++ Blocks bs :: ms2) =
               _extract_text_from_messages
                 (ms1 ++ Blocks (List.filter is_text bs) :: ms2)).
  { unfold _extract_text_from_messages.
    rewrite !map_app, !map_cons. now rewrite parts_of_text_blocks. }
  split; [exact He|]. split; [now rewrite He|].
  unfold _extract_text_from_messages. rewrite !map_app. reflexivity.
Qed.

End PromptText.

Lemma non_text_blocks_are_ignored_witness :
  _extract_text_from_messages
    [Text "describe"; Blocks [OtherBlock; TextBlock "this"; OtherBlock]] =
  _extract_text_from_messages [Text "describe"; Blocks [TextBlock "this"]].
Proof.
  exact (proj1 (non_text_blocks_are_ignored no_tiktoken [Text "describe"]
                  [OtherBlock; TextBlock "this"; OtherBlock] [] eq_refl)).
Defined.

(** ** Settlement: what a delivery touches *)

Lemma mark_paid_ref tx now o : o_out_trade_no (mark_paid tx now o) = o_out_trade_no o.
Proof. reflexivity. Qed.

Lemma find_order_update_other ref ref' f os :
  ref' <> ref ->
  (forall o, o_out_trade_no (f o) = o_out_trade_no o) ->
  find_order ref' (update_order ref f os) = find_order ref' os.
Proof.
  intros Hne Hf. induction os as [|o os IH]; [reflexivity|]. simpl.
  destruct (String.eqb_spec (o_out_trade_no o) ref) as [E|E]; simpl.
  - rewrite Hf, E.
    destruct (String.eqb_spec ref ref'); [congruence | reflexivity].
  - now rewrite IH.
Qed.

(** The orders after a delivery, one by one: each is as before, or it is
    the order of this reference, was not paid and is now marked paid. *)
Lemma update_order_pointwise ref tx now os o :
  find_order ref os = Some o ->
  Forall2 (fun a b => b = a \/ (a = o /\ b = mark_paid tx now o))
          os (update_order ref (mark_paid tx now) os).
Proof.
  induction os as [|a os IH]; [discriminate|]. simpl.
  destruct (String.eqb_spec (o_out_trade_no a) ref) as [E|E].
  - intros [= ->]. constructor; [now right|].
    apply Forall2_same_length_lookup_2; [reflexivity|].
    intros i x y Hx Hy. left. congruence.
  - intros H. constructor; [now left | auto].
Qed.

(** X11: a delivery touches nothing but the order of its reference and the
    account of that order. It writes no usage record; every order is as
    before or is the order found for the reference, was not paid and is
    now marked paid; every account is as before or is the account of that
    order, and then only its balance, which does not go down, its
    membership and its time of update can differ. *)
Theorem fulfill_order_frame plans ref tx clk d :
  let d1 := _fulfill_order plans ref tx clk d in
  usage_records d1 = usage_records d /\
  Forall2 (fun a b =>
             b = a \/
             (find_order ref (orders d) = Some a /\ o_status a <> "paid" /\
              b = mark_paid tx (now_paid clk) a))
          (orders d) (orders d1) /\
  forall uid,
    users d1 !! uid = users d !! uid \/
    exists o u u',
      find_order ref (orders d) = Some o /\ o_user_id o = uid /\
      users d !! uid = Some u /\ users d1 !! uid = Some u' /\
      token_balance u <= token_balance u' /\
      token_total_used u' = token_total_used u /\
      username u' = username u /\ email u' = email u /\
      password_hash u' = password_hash u /\ avatar u' = avatar u /\
      created_at u' = created_at u.
Proof.
  intros d1. subst d1.
  assert (Hsame : forall os : list order,
             Forall2 (fun a b =>
               b = a \/
               (find_order ref (orders d) = Some a /\ o_status a <> "paid" /\
                b = mark_paid tx (now_paid clk) a)) os os).
  { intros os. apply Forall2_same_length_lookup_2; [reflexivity|].
    intros i x y Hx Hy. left. congruence. }
  destruct (find_order ref (orders d)) as [o|] eqn:Ho;
    [|rewrite fulfill_order_absent by exact Ho; auto].
  destruct (String.eqb_spec (o_status o) "paid") as [Hp|Hp];
    [rewrite (fulfill_order_paid _ _ _ _ _ o) by assumption; auto|].
  destruct (users d !! o_user_id o) as [u|] eqn:Hu;
    [|rewrite (fulfill_order_no_account _ _ _ _ _ o) by assumption; auto].
  rewrite (fulfill_order_grants plans ref tx clk d o u Ho Hp Hu). simpl.
  split; [reflexivity|]. split.
  - eapply Forall2_impl; [apply update_order_pointwise, Ho|].
    simpl. intros a b [->|[-> ->]]; [now left | right; auto].
  - intros uid. destruct (decide (uid = o_user_id o)) as [->|Hne].
    + right. exists o, u. eexists. rewrite lookup_insert_eq.
      repeat split; try reflexivity; [exact Hu|]. simpl.
      destruct (0 <? _) eqn:E; [apply Z.ltb_lt in E; lia | lia].
    + left. now rewrite lookup_insert_ne by congruence.
Qed.

(** ** Settlement: the ledger of credits *)

Lemma paid_grants_app plans uid os os' :
  paid_grants plans uid (os ++ os') =
  paid_grants plans uid os + paid_grants plans uid os'.
Proof.
  induction os as [|o os IH]; simpl; [reflexivity|].
  unfold paid_grants in *. simpl. rewrite IH. lia.
Qed.

Lemma paid_grants_mark plans uid ref tx now os o :
  find_order ref os = Some o -> o_status o <> "paid" ->
  paid_grants plans uid (update_order ref (mark_paid tx now) os) =
  paid_grants plans uid os +
  (if String.eqb (o_user_id o) uid
   then Z.max 0 (from_option token_grant 0 (plans !! o_plan_id o)) else 0).
Proof.
  intros Ho Hp. induction os as [|a os IH]; [discriminate|].
  simpl in Ho |- *.
  destruct (String.eqb_spec (o_out_trade_no a) ref) as [E|E].
  - injection Ho as ->. unfold paid_grants. simpl.
    destruct (String.eqb (o_user_id o) uid); simpl; [|lia].
    destruct (String.eqb_spec (o_status o) "paid"); [contradiction | lia].
  - specialize (IH Ho). unfold paid_grants in *. simpl. rewrite IH. lia.
Qed.

(** One delivery: the balance less the grants of the paid orders does not
    change. *)
Lemma fulfill_ledger plans ref tx clk d uid u :
  users d !! uid = Some u ->
  let d1 := _fulfill_order plans ref tx clk d in
  exists u', users d1 !! uid = Some u' /\
    token_balance u' - paid_grants plans uid (orders d1) =
      token_balance u - paid_grants plans uid (orders d) /\
    token_total_used u' = token_total_used u /\
    usage_records d1 = usage_records d.
Proof.
  intros Hu d1. subst d1.
  destruct (find_order ref (orders d)) as [o|] eqn:Ho;
    [|rewrite fulfill_order_absent by exact Ho; eauto].
  destruct (String.eqb_spec (o_status o) "paid") as [Hp|Hp];
    [rewrite (fulfill_order_paid _ _ _ _ _ o) by assumption; eauto|].
  destruct (users d !! o_user_id o) as [uo|] eqn:Huo;
    [|rewrite (fulfill_order_no_account _ _ _ _ _ o) by assumption; eauto].
  rewrite (fulfill_order_grants plans ref tx clk d o uo Ho Hp Huo). simpl.
  rewrite (paid_grants_mark plans uid ref tx _ _ o Ho Hp).
  destruct (String.eqb_spec (o_user_id o) uid) as [E|E].
  - rewrite E in *. rewrite lookup_insert_eq. eexists. split; [reflexivity|].
    assert (uo = u) as -> by congruence. simpl.
    split; [|auto].
    destruct (0 <? _) eqn:E0; [apply Z.ltb_lt in E0 | apply Z.ltb_ge in E0]; lia.
  - rewrite lookup_insert_ne by congruence. exists u.
    split; [exact Hu|]. split; [lia | auto].
Qed.

Lemma create_ledger plans method d uid_o plan_id ref p now uid :
  paid_grants plans uid
    (orders d ++ [pending_order uid_o plan_id method ref p now]) =
  paid_grants plans uid (orders d).
Proof.
  rewrite paid_grants_app. unfold paid_grants at 2. simpl.
  rewrite andb_false_r. lia.
Qed.

Lemma payment_step_ledger plans c d uid u :
  users d !! uid = Some u ->
  let d1 := payment_step plans c d in
  exists u', users d1 !! uid = Some u' /\
    token_balance u' - paid_grants plans uid (orders d1) =
      token_balance u - paid_grants plans uid (orders d) /\
    token_total_used u' = token_total_used u /\
    usage_records d1 = usage_records d.
Proof.
  intros Hu. destruct c; simpl.
  - unfold wechat_create. destruct (plans !! plan_id); simpl; [|eauto].
    rewrite create_ledger. eauto.
  - unfold alipay_create. destruct (plans !! plan_id); simpl; [|eauto].
    rewrite create_ledger. eauto.
  - unfold wechat_notify. destruct wx_pay as [[r|]|]; simpl; eauto.
    destruct (bool_decide _); eauto.
    destruct (String.eqb _ ""); eauto.
    now apply fulfill_ledger.
  - unfold alipay_notify. simpl.
    destruct alipay as [verify|]; eauto.
    destruct (form !! "sign") as [sg|]; eauto.
    destruct (String.eqb sg ""); eauto.
    destruct (_ && _); eauto.
    destruct (String.eqb _ ""); eauto.
    now apply fulfill_ledger.
  - unfold dev_mock_pay. destruct (negb _); simpl; eauto.
    destruct (find_own_order _ _ _); simpl; eauto.
    destruct (String.eqb _ "paid"); simpl; eauto.
    now apply fulfill_ledger.
Qed.

(** X12: over any sequence of calls of the handlers of the payment router
    (orders created, notifications of both gateways, mock payments, in
    any order and with any content), the balance of an account rises by
    exactly the grants of its orders that became paid: an order is
    credited once, however often it is notified. The total of tokens used
    and the usage records are not touched. *)
Theorem payment_ledger plans cs d uid u :
  users d !! uid = Some u ->
  let d' := payment_run plans cs d in
  exists u', users d' !! uid = Some u' /\
    token_balance u' =
      token_balance u +
      (paid_grants plans uid (orders d') - paid_grants plans uid (orders d)) /\
    token_total_used u' = token_total_used u /\
    usage_records d' = usage_records d.
Proof.
  revert d u. induction cs as [|c cs IH]; intros d u Hu; simpl.
  - exists u. split; [exact Hu|]. split; [lia | auto].
  - destruct (payment_step_ledger plans c d uid u Hu) as (u1 & Hu1 & Hb1 & Ht1 & Hr1).
    destruct (IH _ u1 Hu1) as (u' & Hu' & Hb & Ht & Hr).
    exists u'. split; [exact Hu'|]. split; [lia|]. split; congruence.
Qed.

Lemma payment_ledger_witness :
  exists u',
    users (payment_run PLANS
             [ WechatNotify (wechat_success order_ref "4200001") (clock_at 5);
               DevMockPay None order_ref alice_id (clock_at 7);
               WechatNotify (wechat_success order_ref "4200001") (clock_at 9) ]
             (pending "pack-100w" None)) !! alice_id = Some u' /\
    token_balance u' = 1050000.
Proof.
  destruct (payment_ledger PLANS
              [ WechatNotify (wechat_success order_ref "4200001") (clock_at 5);
                DevMockPay None order_ref alice_id (clock_at 7);
                WechatNotify (wechat_success order_ref "4200001") (clock_at 9) ]
              (pending "pack-100w" None) alice_id (member None) eq_refl)
    as (u' & Hu' & Hb & _).
  exists u'. split; [exact Hu'|]. rewrite Hb. reflexivity.
Defined.

(** ** Orders of other accounts *)

Lemma find_own_order_absent ref uid os :
  ref ∉ map o_out_trade_no os -> find_own_order ref uid os = None.
Proof.
  induction os as [|a os IH]; [reflexivity|]. simpl. intros H.
  rewrite not_elem_of_cons in H. destruct H as [Hne H].
  destruct (String.eqb_spec (o_out_trade_no a) ref); [congruence|]. simpl. auto.
Qed.

Lemma find_own_order_unique ref uid os o :
  NoDup (map o_out_trade_no os) ->
  find_order ref os = Some o ->
  find_own_order ref uid os =
  if String.eqb (o_user_id o) uid then Some o else None.
Proof.
  induction os as [|a os IH]; [discriminate|]. simpl.
  intros Hnd Ho. apply NoDup_cons in Hnd. destruct Hnd as [Hin Hnd].
  destruct (String.eqb_spec (o_out_trade_no a) ref) as [E|E]; simpl.
  - injection Ho as ->.
    destruct (String.eqb (o_user_id o) uid); [reflexivity|].
    apply find_own_order_absent. now rewrite <- E.
  - auto.
Qed.

(** X13: the reference of an order gives no access to the order of another
    account. With references that are unique, as the index on the orders
    makes them, the status query answers the owner with the status and
    anyone else with 404, and a mock payment asked by anyone else is
    refused and changes nothing. *)
Theorem foreign_orders_are_out_of_reach env plans clk d ref uid o :
  NoDup (map o_out_trade_no (orders d)) ->
  find_order ref (orders d) = Some o ->
  query_order d ref uid =
    (if String.eqb (o_user_id o) uid then OrderStatus (o_status o) ref
     else OrderError 404 "订单不存在") /\
  (o_user_id o <> uid ->
   snd (dev_mock_pay env plans ref uid clk d) = d /\
   exists code detail,
     fst (dev_mock_pay env plans ref uid clk d) = OrderError code detail).
Proof.
  intros Hnd Ho.
  pose proof (find_own_order_unique ref uid _ o Hnd Ho) as Hown.
  split.
  - unfold query_order. rewrite Hown.
    now destruct (String.eqb (o_user_id o) uid).
  - intros Hne. unfold dev_mock_pay. rewrite Hown.
    destruct (String.eqb_spec (o_user_id o) uid); [contradiction|].
    destruct (negb _); simpl; eauto.
Qed.

Lemma foreign_orders_are_out_of_reach_witness :
  query_order two_customers order_ref bob_id = OrderError 404 "订单不存在" /\
  query_order two_customers order_ref alice_id = OrderStatus "pending" order_ref /\
  snd (dev_mock_pay None PLANS order_ref bob_id (clock_at 5) two_customers) =
    two_customers.
Proof.
  split; [|split].
  - exact (proj1 (foreign_orders_are_out_of_reach None PLANS (clock_at 5)
                    two_customers order_ref bob_id _
                    (NoDup_singleton order_ref) eq_refl)).
  - exact (proj1 (foreign_orders_are_out_of_reach None PLANS (clock_at 5)
                    two_customers order_ref alice_id _
                    (NoDup_singleton order_ref) eq_refl)).
  - refine (proj1 (proj2 (foreign_orders_are_out_of_reach None PLANS (clock_at 5)
                    two_customers order_ref bob_id _
                    (NoDup_singleton order_ref) eq_refl) _)).
    discriminate.
Defined.

(** ** From the order to the grant *)

Lemma find_order_app_absent ref os l :
  find_order ref os = None -> find_order ref (os ++ l) = find_order ref l.
Proof.
  induction os as [|a os IH]; [reflexivity|]. simpl.
  destruct (String.eqb (o_out_trade_no a) ref); [discriminate | exact IH].
Qed.

Lemma find_own_order_app_absent ref uid os l :
  find_order ref os = None ->
  find_own_order ref uid (os ++ l) = find_own_order ref uid l.
Proof.
  induction os as [|a os IH]; [reflexivity|]. simpl.
  destruct (String.eqb (o_out_trade_no a) ref); [discriminate | exact IH].
Qed.

Lemma update_order_app_absent ref f os l :
  find_order ref os = None ->
  update_order ref f (os ++ l) = os ++ update_order ref f l.
Proof.
  induction os as [|a os IH]; [reflexivity|]. simpl.
  destruct (String.eqb (o_out_trade_no a) ref); [discriminate|].
  intros H. now rewrite IH.
Qed.

(** X14: a purchase from the order to the grant. An order created for a
    plan of the table under a fresh reference of [_make_out_trade_no] is
    answered as pending to its owner and leaves the accounts as they are;
    the success notification for it then grants the account exactly the
    tokens and days recorded in the order, leaves the other accounts
    alone and has the order answered as paid; the mock payment of the
    owner does the same to the accounts as the notification. *)
Theorem purchase_round_trip plans d uid plan_id stamp hex now tx clk p u :
  let ref := _make_out_trade_no stamp hex in
  plans !! plan_id = Some p ->
  find_order ref (orders d) = None ->
  users d !! uid = Some u ->
  let d1 := payment_step plans (WechatCreate uid plan_id ref now) d in
  let d2 := payment_step plans (WechatNotify (wechat_success ref tx) clk) d1 in
  users d1 = users d /\
  query_order d1 ref uid = OrderStatus "pending" ref /\
  query_order d2 ref uid = OrderStatus "paid" ref /\
  (exists o, find_order ref (orders d2) = Some o /\
             o_transaction_id o = Some tx /\
             users d2 !! uid =
               Some (apply_grant clk (o_token_grant o) (o_days_grant o) u u)) /\
  (forall uid', uid' <> uid -> users d2 !! uid' = users d !! uid') /\
  users (payment_step plans (DevMockPay None ref uid clk) d1) = users d2.
Proof.
  intros ref Hp Hfresh Hu d1 d2.
  set (o := pending_order uid plan_id "wechat" ref p now).
  assert (Hd1 : d1 = set_orders (fun os => os ++ [o]) d).
  { unfold d1. simpl. unfold wechat_create. now rewrite Hp. }
  assert (Hfind : find_order ref (orders d1) = Some o).
  { rewrite Hd1. simpl. rewrite find_order_app_absent by exact Hfresh.
    simpl. now rewrite String.eqb_refl. }
  assert (Hown : find_own_order ref uid (orders d1) = Some o).
  { rewrite Hd1. simpl. rewrite find_own_order_app_absent by exact Hfresh.
    simpl. now rewrite !String.eqb_refl. }
  assert (Hu1 : users d1 !! o_user_id o = Some u) by (rewrite Hd1; exact Hu).
  assert (Hpend : o_status o <> "paid") by discriminate.
  assert (Hful : forall tx',
             _fulfill_order plans ref tx' clk d1 =
             {| users := <[ uid := apply_grant clk (token_grant p) (days_grant p) u u ]>
                           (users d);
                usage_records := usage_records d;
                orders := orders d ++ [mark_paid tx' (now_paid clk) o] |}).
  { intros tx'.
    rewrite (fulfill_order_grants plans ref tx' clk d1 o u Hfind Hpend Hu1).
    rewrite Hd1. simpl. rewrite Hp. simpl.
    rewrite update_order_app_absent by exact Hfresh. simpl.
    now rewrite String.eqb_refl. }
  assert (Hd2 : d2 = _fulfill_order plans ref tx clk d1).
  { unfold d2. simpl. unfold wechat_notify, wechat_success. simpl.
    reflexivity. }
  split; [now rewrite Hd1|].
  split; [unfold query_order; now rewrite Hown|].
  rewrite Hd2, Hful. simpl. split; [|split; [|split]].
  - unfold query_order. simpl.
    rewrite find_own_order_app_absent by exact Hfresh.
    simpl. now rewrite !String.eqb_refl.
  - exists (mark_paid tx (now_paid clk) o).
    rewrite find_order_app_absent by exact Hfresh. simpl.
    rewrite String.eqb_refl, lookup_insert_eq. auto.
  - intros uid' Hne. now rewrite lookup_insert_ne by congruence.
  - unfold dev_mock_pay. simpl. rewrite Hown. simpl. now rewrite Hful.
Qed.

Lemma purchase_round_trip_witness :
  let ref := _make_out_trade_no "20240101000000" "abcdef1234567890" in
  let d1 := payment_step PLANS (WechatCreate alice_id "pack-500w" ref 0)
              (one_account 7) in
  let d2 := payment_step PLANS (WechatNotify (wechat_success ref "4200001")
                                  (clock_at 5)) d1 in
  ref = "PT20240101000000ABCDEF12" /\
  query_order d2 ref alice_id = OrderStatus "paid" ref /\
  token_balance <$> users d2 !! alice_id = Some 5000007.
Proof.
  destruct (purchase_round_trip PLANS (one_account 7) alice_id "pack-500w"
              "20240101000000" "abcdef1234567890" 0 "4200001" (clock_at 5)
              _ (alice 7) eq_refl eq_refl eq_refl)
    as (_ & _ & Hq & (o & Ho & _ & Hu) & _).
  split; [reflexivity|]. split; [exact Hq|].
  cbv zeta. rewrite Hu. injection Ho as <-. reflexivity.
Defined.

(** ** Notifications that are not verified *)

(** X15: a notification changes nothing unless its gateway vouches for it.
    For Alipay: the gateway is configured, the form is signed and
    [verify] accepts the form without its [sign] and [sign_type] fields;
    for WeChat Pay: the gateway is configured and [callback] returns a
    result whose event type is that of a paid transaction. The answer to
    Alipay is [success] either way. *)
Theorem unverified_notifications_change_nothing plans alipay form wx clk d :
  (forall verify sg,
     alipay = Some verify -> form !! "sign" = Some sg ->
     verify (delete "sign_type" (delete "sign" form)) sg = false) ->
  (forall r, wx = Some (Some r) -> event_type r <> Some "TRANSACTION.SUCCESS") ->
  alipay_notify plans alipay form clk d = ("success", d) /\
  snd (wechat_notify plans wx clk d) = d.
Proof.
  intros Ha Hw. split.
  - unfold alipay_notify. f_equal.
    destruct alipay as [verify|]; [|reflexivity].
    destruct (form !! "sign") as [sg|] eqn:Hs; [|reflexivity].
    rewrite (Ha verify sg eq_refl eq_refl). simpl.
    now destruct (String.eqb sg "").
  - unfold wechat_notify. destruct wx as [[r|]|]; try reflexivity. simpl.
    rewrite bool_decide_eq_false_2; [reflexivity|]. now apply Hw.
Qed.

Lemma unverified_notifications_change_nothing_witness :
  let forged : gmap string string :=
    list_to_map [ ("sign", "forged"); ("trade_status", "TRADE_SUCCESS");
                  ("out_trade_no", order_ref); ("trade_no", "1") ] in
  alipay_notify PLANS (Some (fun _ _ => false)) forged (clock_at 5)
                (pending "pack-100w" None)
    = ("success", pending "pack-100w" None) /\
  snd (wechat_notify PLANS (Some None) (clock_at 5) (pending "pack-100w" None))
    = pending "pack-100w" None.
Proof.
  intros forged.
  apply (unverified_notifications_change_nothing PLANS
           (Some (fun _ _ => false)) forged (Some None) (clock_at 5)
           (pending "pack-100w" None)).
  - intros verify sg [= <-] _. reflexivity.
  - intros r [=].
Defined.

(** ** Registration and login *)

Lemma exists_user_true p d i u :
  users d !! i = Some u -> p u = true -> exists_user p d = true.
Proof.
  intros Hu Hp. unfold exists_user. apply bool_decide_eq_true_2.
  exists i, u. auto.
Qed.

Lemma exists_user_false p d i u :
  exists_user p d = false -> users d !! i = Some u -> p u = false.
Proof.
  intros He Hu. destruct (p u) eqn:Hp; [|reflexivity].
  now rewrite (exists_user_true p d i u Hu Hp) in He.
Qed.

Lemma register_taken d i u name mail hashed new_id now :
  users d !! i = Some u ->
  email u = mail \/ username u = name ->
  register d name mail hashed new_id now = None.
Proof.
  intros Hu H. unfold register.
  destruct (exists_user _ d) eqn:E1; [reflexivity|].
  destruct (exists_user (fun u => String.eqb (username u) name) d) eqn:E2;
    [reflexivity|].
  apply (fun E => exists_user_false _ d i u E Hu) in E1, E2.
  apply String.eqb_neq in E1, E2. tauto.
Qed.

Lemma register_accepted d name mail hashed new_id now d' :
  register d name mail hashed new_id now = Some d' ->
  (forall i u, users d !! i = Some u -> email u <> mail /\ username u <> name) /\
  d' = set_users
         (insert new_id
            {| username := name; email := mail; password_hash := hashed;
               token_balance := NEW_USER_WELCOME_TOKENS; token_total_used := 0;
               membership_level := "free"; membership_expire_at := None;
               avatar := None; created_at := now; updated_at := now |}) d.
Proof.
  unfold register. intros H.
  destruct (exists_user _ d) eqn:E1; [discriminate|].
  destruct (exists_user (fun u => String.eqb (username u) name) d) eqn:E2;
    [discriminate|].
  injection H as <-. split; [|reflexivity].
  intros i u Hu.
  apply (fun E => exists_user_false _ d i u E Hu) in E1, E2.
  apply String.eqb_neq in E1, E2. auto.
Qed.

Lemma register_unique d name mail hashed new_id now d' :
  unique_identities d ->
  register d name mail hashed new_id now = Some d' ->
  unique_identities d'.
Proof.
  intros Huniq Hreg.
  destruct (register_accepted _ _ _ _ _ _ _ Hreg) as [Hfree ->].
  intros i j u v Hi Hj Hsame. simpl in Hi, Hj.
  destruct (decide (i = new_id)) as [->|Hni];
    destruct (decide (j = new_id)) as [->|Hnj]; [reflexivity|..].
  - rewrite lookup_insert_eq in Hi. rewrite lookup_insert_ne in Hj by congruence.
    injection Hi as <-. simpl in Hsame.
    destruct (Hfree j v Hj). destruct Hsame; congruence.
  - rewrite lookup_insert_eq in Hj. rewrite lookup_insert_ne in Hi by congruence.
    injection Hj as <-. simpl in Hsame.
    destruct (Hfree i u Hi). destruct Hsame; congruence.
  - rewrite lookup_insert_ne in Hi, Hj by congruence. eauto.
Qed.

(** X16: registration keeps e-mail addresses and user names unique. From a
    database where no two accounts share one, an accepted registration
    under a new identifier gives such a database again, leaves the other
    accounts as they were, gives the new account the welcome tokens with
    nothing used and no membership, and from then on every registration
    with this e-mail address or this user name is refused. *)
Theorem register_keeps_identities_unique d name mail hashed new_id now d' :
  unique_identities d ->
  users d !! new_id = None ->
  register d name mail hashed new_id now = Some d' ->
  unique_identities d' /\
  (forall i, i <> new_id -> users d' !! i = users d !! i) /\
  (exists u, users d' !! new_id = Some u /\
             username u = name /\ email u = mail /\ password_hash u = hashed /\
             token_balance u = 50000 /\ token_total_used u = 0 /\
             membership_expire_at u = None) /\
  (forall name' mail' hashed' new_id' now',
     mail' = mail \/ name' = name ->
     register d' name' mail' hashed' new_id' now' = None).
Proof.
  intros Huniq Hfresh Hreg.
  split; [exact (register_unique _ _ _ _ _ _ _ Huniq Hreg)|].
  destruct (register_accepted _ _ _ _ _ _ _ Hreg) as [Hfree ->]. simpl.
  split; [|split].
  - intros i Hne. now rewrite lookup_insert_ne by congruence.
  - eexists. rewrite lookup_insert_eq. repeat split.
  - intros name' mail' hashed' new_id' now' H.
    eapply (register_taken _ new_id); [simpl; apply lookup_insert_eq|].
    simpl. destruct H; auto.
Qed.

Lemma register_keeps_identities_unique_witness :
  unique_identities fresh_account /\
  register fresh_account "alice2" "alice@example.org" "h2" bob_id 1 = None.
Proof.
  assert (Hempty : unique_identities empty_db).
  { intros i j u v Hi. simpl in Hi. now rewrite lookup_empty in Hi. }
  destruct (register_keeps_identities_unique empty_db "alice" "alice@example.org"
              "h" alice_id 0 fresh_account Hempty eq_refl eq_refl)
    as (Hu & _ & _ & Hagain).
  split; [exact Hu|]. apply Hagain. now left.
Defined.

Lemma find_user_by_email_sound mail d i u :
  find_user_by_email mail d = Some (i, u) ->
  users d !! i = Some u /\ email u = mail.
Proof.
  unfold find_user_by_email. intros H. apply find_some in H.
  destruct H as [Hin He]. simpl in He. split.
  - apply elem_of_map_to_list. now apply list_elem_of_In.
  - now apply String.eqb_eq.
Qed.

Lemma find_user_by_email_complete mail d i u :
  unique_identities d ->
  users d !! i = Some u -> email u = mail ->
  find_user_by_email mail d = Some (i, u).
Proof.
  intros Huniq Hu He.
  destruct (find_user_by_email mail d) as [[j v]|] eqn:Hf.
  - destruct (find_user_by_email_sound _ _ _ _ Hf) as [Hv Hev].
    assert (i = j) as -> by (apply (Huniq i j u v Hu Hv); left; congruence).
    congruence.
  - unfold find_user_by_email in Hf.
    assert (Hno := find_none _ _ Hf (i, u)). simpl in Hno.
    rewrite String.eqb_neq in Hno. destruct Hno; [|exact He].
    apply list_elem_of_In. now apply elem_of_map_to_list.
Qed.

Lemma find_user_by_email_none mail d :
  (forall i u, users d !! i = Some u -> email u <> mail) ->
  find_user_by_email mail d = None.
Proof.
  intros H. destruct (find_user_by_email mail d) as [[j v]|] eqn:Hf; [|reflexivity].
  destruct (find_user_by_email_sound _ _ _ _ Hf) as [Hv Hev].
  now destruct (H j v Hv).
Qed.

(** X17: registration and login fit together. After an accepted
    registration, a login with the registered e-mail address is answered
    with the new identifier, the user name and the address exactly when
    the password verifies against the stored hash, and is refused
    otherwise; logins with any other address are answered as before the
    registration. *)
Theorem login_after_register verify_password d name mail hashed new_id now d' :
  unique_identities d ->
  users d !! new_id = None ->
  register d name mail hashed new_id now = Some d' ->
  (forall password,
     login verify_password d' mail password =
     if verify_password password hashed then Some (new_id, name, mail) else None) /\
  (forall mail' password,
     mail' <> mail ->
     login verify_password d' mail' password = login verify_password d mail' password).
Proof.
  intros Huniq Hfresh Hreg.
  assert (Huniq' := register_unique _ _ _ _ _ _ _ Huniq Hreg).
  destruct (register_accepted _ _ _ _ _ _ _ Hreg) as [Hfree Hd'].
  split.
  - intros password. unfold login.
    match type of Hd' with _ = set_users (insert _ ?u0) _ =>
      rewrite (find_user_by_email_complete mail d' new_id u0 Huniq');
        [reflexivity | | reflexivity]
    end.
    rewrite Hd'. simpl. apply lookup_insert_eq.
  - intros mail' password Hne. unfold login.
    assert (Hsame : find_user_by_email mail' d' = find_user_by_email mail' d).
    { destruct (find_user_by_email mail' d) as [[i u]|] eqn:Hf.
      - destruct (find_user_by_email_sound _ _ _ _ Hf) as [Hu He].
        apply find_user_by_email_complete; [exact Huniq' | | exact He].
        rewrite Hd'. simpl. rewrite lookup_insert_ne; [exact Hu|].
        intros ->. congruence.
      - apply find_user_by_email_none. intros i u Hu He.
        rewrite Hd' in Hu. simpl in Hu.
        destruct (decide (i = new_id)) as [->|Hni].
        + rewrite lookup_insert_eq in Hu. injection Hu as <-. simpl in He. congruence.
        + rewrite lookup_insert_ne in Hu by congruence.
          unfold find_user_by_email in Hf.
          assert (Hno := find_none _ _ Hf (i, u)). simpl in Hno.
          rewrite String.eqb_neq in Hno. destruct Hno; [|exact He].
          apply list_elem_of_In. now apply elem_of_map_to_list. }
    now rewrite Hsame.
Qed.

Lemma login_after_register_witness :
  login String.eqb fresh_account "alice@example.org" "h" =
    Some (alice_id, "alice", "alice@example.org") /\
  login String.eqb fresh_account "alice@example.org" "guess" = None.
Proof.
  assert (Hempty : unique_identities empty_db).
  { intros i j u v Hi. simpl in Hi. now rewrite lookup_empty in Hi. }
  destruct (login_after_register String.eqb empty_db "alice" "alice@example.org"
              "h" alice_id 0 fresh_account Hempty eq_refl eq_refl) as [H _].
  split; [exact (H "h") | exact (H "guess")].
Defined.

(** ** The books of an account *)

Lemma used_by_app uid rs rs' :
  used_by uid (rs ++ rs') = used_by uid rs + used_by uid rs'.
Proof.
  induction rs as [|r rs IH]; simpl; [reflexivity|].
  unfold used_by in *. simpl. rewrite IH. lia.
Qed.

Lemma used_by_fresh uid rs :
  Forall (fun r => ur_user_id r <> uid) rs -> used_by uid rs = 0.
Proof.
  induction 1 as [|r rs Hr _ IH]; [reflexivity|].
  unfold used_by in *. simpl. rewrite IH.
  destruct (String.eqb_spec (ur_user_id r) uid); [contradiction | reflexivity].
Qed.

Lemma paid_grants_fresh plans uid os :
  Forall (fun o => o_user_id o <> uid) os -> paid_grants plans uid os = 0.
Proof.
  induction 1 as [|o os Ho _ IH]; [reflexivity|].
  unfold paid_grants in *. simpl. rewrite IH.
  destruct (String.eqb_spec (o_user_id o) uid); [contradiction | reflexivity].
Qed.

Lemma fulfill_order_missing plans ref tx clk d uid :
  users d !! uid = None ->
  users (_fulfill_order plans ref tx clk d) !! uid = None.
Proof.
  intros Hu.
  destruct (find_order ref (orders d)) as [o|] eqn:Ho;
    [|now rewrite fulfill_order_absent].
  destruct (String.eqb_spec (o_status o) "paid") as [Hp|Hp];
    [now rewrite (fulfill_order_paid _ _ _ _ _ o)|].
  destruct (users d !! o_user_id o) as [uo|] eqn:Huo;
    [|now rewrite (fulfill_order_no_account _ _ _ _ _ o)].
  rewrite (fulfill_order_grants plans ref tx clk d o uo Ho Hp Huo). simpl.
  rewrite lookup_insert_ne; [exact Hu | congruence].
Qed.

Lemma payment_step_missing plans c d uid :
  users d !! uid = None -> users (payment_step plans c d) !! uid = None.
Proof.
  intros Hu. destruct c; simpl.
  - unfold wechat_create. now destruct (plans !! plan_id).
  - unfold alipay_create. now destruct (plans !! plan_id).
  - unfold wechat_notify. destruct wx_pay as [[r|]|]; simpl; auto.
    destruct (bool_decide _); auto.
    destruct (String.eqb _ ""); auto using fulfill_order_missing.
  - unfold alipay_notify. simpl.
    destruct alipay as [verify|]; auto.
    destruct (form !! "sign") as [sg|]; auto.
    destruct (String.eqb sg ""); auto.
    destruct (_ && _); auto.
    destruct (String.eqb _ ""); auto using fulfill_order_missing.
  - unfold dev_mock_pay. destruct (negb _); simpl; auto.
    destruct (find_own_order _ _ _); simpl; auto.
    destruct (String.eqb _ "paid"); simpl; auto using fulfill_order_missing.
Qed.

(** X18: the books balance and stay balanced. When for every account the
    tokens used are what its usage records charge and the tokens held
    and used together are the welcome grant plus the grants of its paid
    orders, then the same holds after a registration under an identifier
    that nothing refers to, after any debit task, and after any call of
    a handler of the payment router. *)
Theorem books_stay_balanced plans d :
  books_balance plans d ->
  (forall name mail hashed new_id now d',
     fresh_id new_id d ->
     register d name mail hashed new_id now = Some d' ->
     books_balance plans d') /\
  (forall t now, books_balance plans (run_task t now d)) /\
  (forall c, books_balance plans (payment_step plans c d)).
Proof.
  intros Hbooks. split; [|split].
  - intros name mail hashed new_id now d' (Hnone & Hrs & Hos) Hreg.
    destruct (register_accepted _ _ _ _ _ _ _ Hreg) as [_ ->].
    intros uid u Hu. simpl in Hu |- *.
    destruct (decide (uid = new_id)) as [->|Hne].
    + rewrite lookup_insert_eq in Hu. injection Hu as <-. simpl.
      rewrite used_by_fresh, paid_grants_fresh by assumption. lia.
    + rewrite lookup_insert_ne in Hu by congruence. now apply Hbooks.
  - intros t now uid u' Hu'.
    unfold run_task, _deduct_tokens in *.
    destruct (debit_cost _ _) as [cost|]; [|now apply Hbooks].
    simpl in Hu' |- *. rewrite used_by_app. unfold used_by at 2. simpl.
    destruct (String.eqb_spec (t_user_id t) uid) as [E|Hne].
    + rewrite E, lookup_alter_eq in Hu'.
      destruct (users d !! uid) as [u|] eqn:Hu; [|discriminate].
      injection Hu' as <-. simpl.
      destruct (Hbooks uid u Hu). lia.
    + rewrite lookup_alter_ne in Hu' by congruence.
      destruct (Hbooks uid u' Hu'). lia.
  - intros c uid u' Hu'.
    destruct (users d !! uid) as [u|] eqn:Hu.
    + destruct (payment_step_ledger plans c d uid u Hu) as (u'' & Hu'' & Hb & Ht & Hr).
      assert (u'' = u') as -> by congruence.
      destruct (Hbooks uid u Hu). rewrite Hr. lia.
    + now rewrite (payment_step_missing plans c d uid Hu) in Hu'.
Qed.

Lemma books_stay_balanced_witness :
  books_balance PLANS
    (run_task {| t_user_id := alice_id; t_model := "gpt-4o";
                 t_prompt_tokens := 100; t_completion_tokens := 50 |} 7
       fresh_account).
Proof.
  assert (Hempty : books_balance PLANS empty_db).
  { intros uid u Hu. simpl in Hu. now rewrite lookup_empty in Hu. }
  assert (Hfresh : books_balance PLANS fresh_account).
  { apply (proj1 (books_stay_balanced PLANS empty_db Hempty)
             "alice" "alice@example.org" "h" alice_id 0);
      [|reflexivity].
    repeat split; constructor. }
  apply (proj1 (proj2 (books_stay_balanced PLANS fresh_account Hfresh))).
Defined.

(** ** Days of membership left *)

Lemma days_pos : 0 < days 1.
Proof. unfold days. lia. Qed.

Lemma days_scale n : days n = n * days 1.
Proof. unfold days. lia. Qed.

Lemma stored_datetime_whole t : t mod 1000 = 0 -> stored_datetime t = t.
Proof. unfold stored_datetime. lia. Qed.

Lemma stored_datetime_days t n :
  stored_datetime (t + days n) = stored_datetime t + days n.
Proof.
  unfold stored_datetime, days.
  replace (t + n * 86400000000) with (t + (n * 86400000) * 1000) by lia.
  rewrite Z_mod_plus_full. lia.
Qed.

Lemma stored_datetime_le t : stored_datetime t <= t.
Proof.
  unfold stored_datetime. pose proof (Z.mod_pos_bound t 1000). lia.
Qed.

(** X19: the days left after a settlement, as a later request reads them
    from the expiry the database gives back, in whole milliseconds. A
    delivery for a plan with days makes the account [pro]. On a
    membership that is still running the days left, read at any time up
    to the old expiry, grow by exactly the days of the plan. On an
    account without a running membership the days left, read within the
    first day, are one less than the days of the plan; they are the days
    of the plan only when read at the very time the expiry was computed
    from and that time is a whole millisecond. *)
Theorem days_left_after_settlement plans ref tx clk d o u p now :
  find_order ref (orders d) = Some o ->
  o_status o <> "paid" ->
  users d !! o_user_id o = Some u ->
  plans !! o_plan_id o = Some p ->
  0 < days_grant p ->
  (forall e, membership_expire_at u = Some e -> e mod 1000 = 0) ->
  exists u1,
    users (_fulfill_order plans ref tx clk d) !! o_user_id o = Some u1 /\
    membership_level u1 = "pro" /\
    (forall e,
       membership_expire_at u = Some e -> now_compare clk < e -> now <= e ->
       _days_left (stored_datetime <$> membership_expire_at u1) now =
         _days_left (Some e) now + days_grant p) /\
    ((forall e, membership_expire_at u = Some e -> e <= now_compare clk) ->
     now_base clk <= now <= stored_datetime (now_base clk) + days 1 ->
     _days_left (stored_datetime <$> membership_expire_at u1) now =
       if now =? stored_datetime (now_base clk)
       then days_grant p else days_grant p - 1).
Proof.
  intros Ho Hp Hu Hplan Hn Hms.
  rewrite (fulfill_order_grants plans ref tx clk d o u Ho Hp Hu). simpl.
  rewrite lookup_insert_eq, Hplan. simpl.
  eexists. split; [reflexivity|].
  assert (Hlt : (0 <? days_grant p) = true) by now apply Z.ltb_lt.
  simpl. rewrite Hlt. split; [reflexivity|].
  pose proof days_pos as HD.
  unfold new_expire. simpl. split.
  - intros e He Hrun Hnow. rewrite He.
    assert ((now_compare clk <? e) = true) as -> by now apply Z.ltb_lt.
    rewrite stored_datetime_days, (stored_datetime_whole e) by now apply Hms.
    unfold _days_left. rewrite (days_scale (days_grant p)).
    replace (e + days_grant p * days 1 - now)
      with (e - now + days_grant p * days 1) by lia.
    rewrite Z.div_add by lia.
    assert (0 <= (e - now) / days 1) by (apply Z.div_pos; lia).
    lia.
  - intros Hexp Hnow.
    assert (Hnew : match membership_expire_at u with
                   | Some current_expire =>
                       if now_compare clk <? current_expire
                       then current_expire + days (days_grant p)
                       else now_base clk + days (days_grant p)
                   | None => now_base clk + days (days_grant p)
                   end = now_base clk + days (days_grant p)).
    { destruct (membership_expire_at u) as [e|]; [|reflexivity].
      specialize (Hexp e eq_refl).
      now assert ((now_compare clk <? e) = false) as -> by now apply Z.ltb_ge. }
    rewrite Hnew, stored_datetime_days.
    pose proof (stored_datetime_le (now_base clk)) as Hle.
    set (b := stored_datetime (now_base clk)) in *.
    unfold _days_left. rewrite (days_scale (days_grant p)).
    destruct (Z.eqb_spec now b) as [->|Hne].
    + replace (b + days_grant p * days 1 - b)
        with (days_grant p * days 1) by lia.
      rewrite Z.div_mul by lia. lia.
    + replace (b + days_grant p * days 1 - now)
        with ((b + days 1 - now) + (days_grant p - 1) * days 1) by lia.
      rewrite Z.div_add by lia.
      rewrite Z.div_small by lia. lia.
Qed.

(** An instance: a monthly plan settled 5 microseconds into a
    millisecond shows 29 days at once; settled and read at the same whole
    millisecond it shows 30. *)
Lemma days_left_after_settlement_witness :
  (exists u1,
     users (_fulfill_order PLANS order_ref "4200001" (clock_at 5)
              (pending "monthly" None)) !! alice_id = Some u1 /\
     _days_left (stored_datetime <$> membership_expire_at u1) 5 = 29) /\
  (exists u1,
     users (_fulfill_order PLANS order_ref "4200001" (clock_at 7000)
              (pending "monthly" None)) !! alice_id = Some u1 /\
     _days_left (stored_datetime <$> membership_expire_at u1) 7000 = 30).
Proof.
  split.
  - destruct (days_left_after_settlement PLANS order_ref "4200001" (clock_at 5)
                (pending "monthly" None) _ (member None) _ 5
                eq_refl ltac:(discriminate) eq_refl eq_refl ltac:(reflexivity)
                ltac:(discriminate))
      as (u1 & Hu1 & _ & _ & Hfresh).
    exists u1. split; [exact Hu1|].
    apply Hfresh; [discriminate|]. vm_compute. split; discriminate.
  - destruct (days_left_after_settlement PLANS order_ref "4200001" (clock_at 7000)
                (pending "monthly" None) _ (member None) _ 7000
                eq_refl ltac:(discriminate) eq_refl eq_refl ltac:(reflexivity)
                ltac:(discriminate))
      as (u1 & Hu1 & _ & _ & Hfresh).
    exists u1. split; [exact Hu1|].
    apply Hfresh; [discriminate|]. vm_compute. split; discriminate.
Defined.

(** ** The quota dashboard *)

Lemma sum_cost_app uid lo hi rs rs' :
  sum_cost uid lo hi (rs ++ rs') = sum_cost uid lo hi rs + sum_cost uid lo hi rs'.
Proof.
  induction rs as [|r rs IH]; simpl; [reflexivity|].
  unfold sum_cost in *. simpl. rewrite IH. lia.
Qed.

Lemma sum_cost_cons uid lo hi r rs :
  sum_cost uid lo hi (r :: rs) =
  (if String.eqb (ur_user_id r) uid && (lo <=? ur_created_at r) &&
      from_option (fun h => ur_created_at r <? h) true hi
   then ur_cost_tokens r else 0) + sum_cost uid lo hi rs.
Proof. reflexivity. Qed.

Lemma sum_cost_split uid lo mid hi rs :
  lo <= mid -> mid <= hi ->
  sum_cost uid lo (Some mid) rs + sum_cost uid mid (Some hi) rs =
  sum_cost uid lo (Some hi) rs.
Proof.
  intros H1 H2. induction rs as [|r rs IH]; [reflexivity|].
  rewrite !sum_cost_cons, <- IH. simpl.
  destruct (String.eqb (ur_user_id r) uid); simpl; [|lia].
  destruct (Z.leb_spec lo (ur_created_at r)), (Z.leb_spec mid (ur_created_at r)),
    (Z.ltb_spec (ur_created_at r) mid), (Z.ltb_spec (ur_created_at r) hi);
    simpl; lia.
Qed.

Lemma sum_cost_open uid lo hi rs :
  Forall (fun r => ur_created_at r < hi) rs ->
  sum_cost uid lo (Some hi) rs = sum_cost uid lo None rs.
Proof.
  induction 1 as [|r rs Hr _ IH]; [reflexivity|].
  rewrite !sum_cost_cons, IH. simpl.
  now assert ((ur_created_at r <? hi) = true) as -> by now apply Z.ltb_lt.
Qed.

(** X20: a debit shows on the dashboard. After a debit task of an account,
    the balance of its dashboard is lower by the cost, and the
    consumption of today is higher by the cost when the debit is dated
    at or after the start of the day of the reading, and the same
    otherwise. *)
Theorem quota_after_debit clock d t now u :
  users d !! t_user_id t = Some u ->
  exists u',
    users (run_task t now d) !! t_user_id t = Some u' /\
    total_balance (get_quota clock (run_task t now d) (t_user_id t) u') =
      total_balance (get_quota clock d (t_user_id t) u) - task_cost t /\
    consumed_today (get_quota clock (run_task t now d) (t_user_id t) u') =
      consumed_today (get_quota clock d (t_user_id t) u) +
      (if day_start (clock 0%nat) <=? now then task_cost t else 0).
Proof.
  intros Hu. unfold run_task, _deduct_tokens, task_cost.
  destruct (debit_cost _ _) as [cost|]; simpl.
  - rewrite lookup_alter_eq, Hu. simpl. eexists. split; [reflexivity|].
    simpl. split; [lia|].
    rewrite sum_cost_app. unfold sum_cost at 2. simpl.
    rewrite String.eqb_refl. simpl.
    destruct (day_start (clock 0%nat) <=? now); simpl; lia.
  - exists u. split; [exact Hu|]. split; [lia|].
    destruct (_ <=? _); lia.
Qed.

Lemma quota_after_debit_witness :
  let t := {| t_user_id := alice_id; t_model := "gpt-4o";
              t_prompt_tokens := 100; t_completion_tokens := 50 |} in
  let now := days 3 + 7 in
  exists u',
    users (run_task t now (one_account 50000)) !! alice_id = Some u' /\
    total_balance (get_quota (fun _ => days 3 + 9)
                     (run_task t now (one_account 50000)) alice_id u') = 49700 /\
    consumed_today (get_quota (fun _ => days 3 + 9)
                      (run_task t now (one_account 50000)) alice_id u') = 300.
Proof.
  intros t now.
  destruct (quota_after_debit (fun _ => days 3 + 9) (one_account 50000) t now
              (alice 50000) eq_refl) as (u' & Hu' & Hb & Hc).
  exists u'. split; [exact Hu'|]. split; [exact Hb | exact Hc].
Defined.

(** X21: the trend of the dashboard. When the readings of the time of one
    call fall on the same day, the seven entries of the trend are the
    seven days up to today, oldest first, their values add up to what the
    records of the user charge in these seven days, and, when no record
    is dated after today, the last value is the consumption of today. *)
Theorem quota_trend clock d uid u :
  (forall k, (k <= 7)%nat -> day_start (clock k) = day_start (clock 0%nat)) ->
  let q := get_quota clock d uid u in
  let today := day_start (clock 0%nat) in
  map fst (trend q) =
    [today - days 6; today - days 5; today - days 4; today - days 3;
     today - days 2; today - days 1; today] /\
  foldr Z.add 0 (map snd (trend q)) =
    sum_cost uid (today - days 6) (Some (today + days 1)) (usage_records d) /\
  (Forall (fun r => ur_created_at r < today + days 1) (usage_records d) ->
   last (map snd (trend q)) = Some (consumed_today q)).
Proof.
  intros Hday q today. subst q. unfold get_quota. cbn [trend consumed_today].
  cbn [seq map fst snd].
  change (6 - Z.of_nat 0) with 6. change (6 - Z.of_nat 1) with 5.
  change (6 - Z.of_nat 2) with 4. change (6 - Z.of_nat 3) with 3.
  change (6 - Z.of_nat 4) with 2. change (6 - Z.of_nat 5) with 1.
  change (6 - Z.of_nat 6) with 0.
  rewrite (Hday 1%nat), (Hday 2%nat), (Hday 3%nat), (Hday 4%nat),
    (Hday 5%nat), (Hday 6%nat), (Hday 7%nat) by lia.
  fold today.
  replace (today - days 0) with today by (unfold days; lia).
  split; [reflexivity|]. split.
  - cbn [foldr].
    rewrite <- (sum_cost_split uid (today - days 6) today (today + days 1))
      by (unfold days; lia).
    rewrite <- (sum_cost_split uid (today - days 6) (today - days 1) today)
      by (unfold days; lia).
    rewrite <- (sum_cost_split uid (today - days 6) (today - days 2) (today - days 1))
      by (unfold days; lia).
    rewrite <- (sum_cost_split uid (today - days 6) (today - days 3) (today - days 2))
      by (unfold days; lia).
    rewrite <- (sum_cost_split uid (today - days 6) (today - days 4) (today - days 3))
      by (unfold days; lia).
    rewrite <- (sum_cost_split uid (today - days 6) (today - days 5) (today - days 4))
      by (unfold days; lia).
    replace (today - days 6 + days 1) with (today - days 5) by (unfold days; lia).
    replace (today - days 5 + days 1) with (today - days 4) by (unfold days; lia).
    replace (today - days 4 + days 1) with (today - days 3) by (unfold days; lia).
    replace (today - days 3 + days 1) with (today - days 2) by (unfold days; lia).
    replace (today - days 2 + days 1) with (today - days 1) by (unfold days; lia).
    replace (today - days 1 + days 1) with today by (unfold days; lia).
    lia.
  - intros Hrs. cbn [last]. now rewrite (sum_cost_open uid today _ _ Hrs).
Qed.

Lemma quota_trend_witness :
  let d := run_task {| t_user_id := alice_id; t_model := "gpt-4o";
                       t_prompt_tokens := 100; t_completion_tokens := 50 |}
             (days 3 + 7) (one_account 50000) in
  let q := get_quota (fun _ => days 3 + 9) d alice_id (alice 49700) in
  map fst (trend q) =
    [days (-3); days (-2); days (-1); days 0; days 1; days 2; days 3] /\
  last (map snd (trend q)) = Some (consumed_today q).
Proof.
  intros d q.
  destruct (quota_trend (fun _ => days 3 + 9) d alice_id (alice 49700)
              (fun _ _ => eq_refl)) as (Hdays & _ & Hlast).
  split; [exact Hdays|]. apply Hlast.
  assert (Hcost : debit_cost "gpt-4o" (100 + 50) = Some 300)
    by (vm_compute; reflexivity).
  unfold d, run_task, _deduct_tokens. cbn [t_model t_prompt_tokens t_completion_tokens].
  rewrite Hcost. cbn [usage_records set_users set_usage_records one_account app].
  constructor; [|constructor].
  cbn [ur_created_at]. vm_compute. reflexivity.
Defined.

(** ** The arguments passed on to the upstream *)

Lemma dict_get_keys k members :
  dict_get k members = None <-> k ∉ dict_keys members.
Proof.
  induction members as [|[k' v] rest IH]; simpl.
  - split; [intros _; apply not_elem_of_nil | reflexivity].
  - rewrite not_elem_of_cons, list_elem_of_filter.
    destruct (dict_get k rest) as [v'|].
    + split; [discriminate|]. intros [Hne Hnot]. exfalso. apply Hnot.
      split.
      * apply negb_prop_intro. intros Ht. apply Is_true_eq_true in Ht.
        apply String.eqb_eq in Ht. congruence.
      * destruct (decide (k ∈ dict_keys rest)) as [Hin|Hnin]; [exact Hin|].
        apply IH in Hnin. discriminate.
    + destruct (String.eqb_spec k k') as [->|Hne].
      * split; [discriminate | intros [Hne _]; congruence].
      * split; [|reflexivity]. intros _. split; [exact Hne|].
        intros [_ Hin]. now apply (proj1 IH eq_refl).
Qed.

Lemma item_get_map k (f : string -> json) keys :
  item_get k (map (fun k' => (k', f k')) keys) =
  if bool_decide (k ∈ keys) then Some (f k) else None.
Proof.
  induction keys as [|k' keys IH]; simpl; [reflexivity|].
  destruct (String.eqb_spec k k') as [->|Hne].
  - rewrite bool_decide_eq_true_2; [reflexivity | apply elem_of_cons; now left].
  - rewrite IH.
    rewrite (bool_decide_ext (k ∈ k' :: keys) (k ∈ keys)); [reflexivity|].
    rewrite elem_of_cons. tauto.
Qed.

Lemma item_get_items k members :
  item_get k (dict_items members) = dict_get k members.
Proof.
  unfold dict_items. rewrite item_get_map.
  destruct (dict_get k members) as [v|] eqn:Hg.
  - rewrite bool_decide_eq_true_2; [reflexivity|].
    destruct (decide (k ∈ dict_keys members)) as [Hin|Hnin]; [exact Hin|].
    apply dict_get_keys in Hnin. congruence.
  - rewrite bool_decide_eq_false_2; [reflexivity|]. now apply dict_get_keys.
Qed.

Lemma item_get_filter k (p : string -> bool) items :
  item_get k (List.filter (fun kv => p (fst kv)) items) =
  if p k then item_get k items else None.
Proof.
  induction items as [|[k' v] rest IH]; simpl; [now destruct (p k)|].
  destruct (p k') eqn:Hp; simpl.
  - destruct (String.eqb_spec k k') as [->|Hne]; [now rewrite Hp | exact IH].
  - destruct (String.eqb_spec k k') as [->|Hne]; [|exact IH].
    rewrite IH. now rewrite Hp.
Qed.

Lemma item_get_set k k' v items :
  item_get k (dict_set k' v items) =
  if String.eqb k k' then Some v else item_get k items.
Proof.
  induction items as [|[k0 v0] rest IH]; simpl.
  - reflexivity.
  - destruct (String.eqb_spec k' k0) as [->|Hne]; simpl.
    + now destruct (String.eqb k k0).
    + rewrite IH. destruct (String.eqb_spec k k0) as [->|Hne0]; [|reflexivity].
      destruct (String.eqb_spec k0 k'); [congruence | reflexivity].
Qed.

(** X22: what the upstream is given beside the model, the messages and the
    stream flag. The three keys of the request proper are never passed
    on; every other key of the body but [extra_body] is passed on with
    its value; [extra_body] is passed on as it is for every model but
    [minimax-m2.5] (whatever its case and the blanks around it), and for
    that model it is an object whose [reasoning_split] is true, whatever
    the caller wrote there, and whose other keys are those of the
    caller's [extra_body] when that is an object. *)
Theorem passthrough_kwargs_spec model body :
  let kw := passthrough_kwargs model body in
  (forall k, is_request_key k = true -> item_get k kw = None) /\
  (forall k, is_request_key k = false -> k <> "extra_body" ->
             item_get k kw = dict_get k body) /\
  (PyStr.lower (PyStr.strip model) <> "minimax-m2.5" ->
   item_get "extra_body" kw = dict_get "extra_body" body) /\
  (PyStr.lower (PyStr.strip model) = "minimax-m2.5" ->
   exists payload,
     item_get "extra_body" kw = Some (JObj payload) /\
     item_get "reasoning_split" payload = Some (JBool true) /\
     forall k, k <> "reasoning_split" ->
       item_get k payload =
       match dict_get "extra_body" body with
       | Some (JObj o) => dict_get k o
       | _ => None
       end).
Proof.
  intros kw. subst kw. unfold passthrough_kwargs.
  set (kwargs := List.filter _ (dict_items body)).
  assert (Hkw : forall k, item_get k kwargs =
                          if is_request_key k then None else dict_get k body).
  { intros k. unfold kwargs.
    rewrite (item_get_filter k (fun k => negb (is_request_key k))).
    rewrite item_get_items. now destruct (is_request_key k). }
  destruct (String.eqb_spec (PyStr.lower (PyStr.strip model)) "minimax-m2.5")
    as [Hm|Hm].
  - split; [|split; [|split]].
    + intros k Hk. rewrite item_get_set, (Hkw k), Hk.
      destruct (String.eqb_spec k "extra_body") as [->|]; [discriminate | reflexivity].
    + intros k Hk Hne. rewrite item_get_set, (Hkw k), Hk.
      destruct (String.eqb_spec k "extra_body"); [contradiction | reflexivity].
    + contradiction.
    + intros _. eexists. split; [now rewrite item_get_set|].
      split; [now rewrite item_get_set, String.eqb_refl|].
      intros k Hne. rewrite item_get_set.
      destruct (String.eqb_spec k "reasoning_split"); [contradiction|].
      rewrite Hkw. simpl.
      destruct (dict_get "extra_body" body) as [[| | | | | |o]|];
        try reflexivity.
      apply item_get_items.
  - split; [|split; [|split]].
    + intros k Hk. now rewrite Hkw, Hk.
    + intros k Hk _. now rewrite Hkw, Hk.
    + intros _. now rewrite Hkw.
    + contradiction.
Qed.

Lemma passthrough_kwargs_spec_witness :
  let body := [ ("model", JStr " MiniMax-M2.5"); ("temperature", JInt 1);
                ("extra_body", JObj [ ("reasoning_split", JBool false);
                                      ("top_k", JInt 5) ]) ] in
  let kw := passthrough_kwargs " MiniMax-M2.5" body in
  item_get "model" kw = None /\
  item_get "temperature" kw = Some (JInt 1) /\
  exists payload,
    item_get "extra_body" kw = Some (JObj payload) /\
    item_get "reasoning_split" payload = Some (JBool true) /\
    item_get "top_k" payload = Some (JInt 5).
Proof.
  intros body kw.
  destruct (passthrough_kwargs_spec " MiniMax-M2.5" body) as (H1 & H2 & _ & H4).
  split; [exact (H1 "model" eq_refl)|].
  split; [exact (H2 "temperature" eq_refl ltac:(discriminate))|].
  destruct (H4 eq_refl) as (payload & Hp & Hs & Ho).
  exists payload. split; [exact Hp|]. split; [exact Hs|].
  exact (Ho "top_k" ltac:(discriminate)).
Defined.

(** ** The error event on the wire *)

Lemma all_chars_app p a b :
  all_chars p (a +:+ b) = all_chars p a && all_chars p b.
Proof.
  induction a as [|c a IH]; [reflexivity|].
  rewrite append_cons. simpl. rewrite IH. apply andb_assoc.
Qed.

Lemma escape_char_printable c : all_chars printable (escape_char c) = true.
Proof. destruct c as [[] [] [] [] [] [] [] []]; vm_compute; reflexivity. Qed.

Lemma escape_printable s : all_chars printable (escape s) = true.
Proof.
  induction s as [|c s IH]; [reflexivity|].
  simpl. now rewrite all_chars_app, escape_char_printable, IH.
Qed.

Lemma printable_no_line_break s :
  all_chars printable s = true ->
  all_chars (fun c => negb (Ascii.eqb c (ascii_of_nat 10))) s = true.
Proof.
  induction s as [|c s IH]; [reflexivity|]. simpl.
  intros H. apply andb_prop in H. destruct H as [Hc Hs].
  rewrite (IH Hs), andb_true_r.
  destruct (Ascii.eqb_spec c (ascii_of_nat 10)) as [->|]; [discriminate | reflexivity].
Qed.

(** X23: the error event is one event, whatever the exception says. The
    payload of the event holds printable ASCII characters only, so no
    line break of the message reaches the wire: the event is one [data:]
    line, closed by the empty line. *)
Theorem error_event_is_one_line msg :
  error_event msg = ("data: " +:+ error_payload msg) +:+ PyStr.nl +:+ PyStr.nl /\
  all_chars printable (error_payload msg) = true /\
  all_chars (fun c => negb (Ascii.eqb c (ascii_of_nat 10)))
            ("data: " +:+ error_payload msg) = true.
Proof.
  assert (Hp : all_chars printable (error_payload msg) = true).
  { unfold error_payload, json_dumps_str.
    rewrite !all_chars_app, !escape_printable. reflexivity. }
  split; [|split; [exact Hp|]].
  - unfold error_event. now rewrite !append_assoc.
  - rewrite all_chars_app, (printable_no_line_break _ Hp). reflexivity.
Qed.
